(** * Triage Party: cache store, conversation builder, searches and updater

    A shallow embedding of the Go sources
      - pkg/persist/gocache.go  (in-memory cache front),
      - pkg/hubbub/item.go      (conversation builder / tagger),
      - pkg/hubbub search code  (SearchAny, SearchIssues, SearchPullRequests),
      - pkg/updater             (shouldUpdate, update),
    together with the properties of the specification that concern them. *)

From Stdlib Require Import ZArith String Ascii List Bool Lia Sorted.
From stdpp Require Import gmap strings list.

Local Open Scope Z_scope.

(** ** Go's [time] package: instants and durations *)

Module time.

(** A [time.Time] is an instant; it is represented by the number of
      nanoseconds elapsed since the zero instant (January 1, year 1, UTC).
      [IsZero], [Before], [After] and [Equal] compare instants. *)
Definition Time : Type := Z.

Definition zero : Time := 0.

Definition IsZero (t : Time) : bool := t =? 0.
Definition Before (t u : Time) : bool := t <? u.
Definition After (t u : Time) : bool := u <? t.

(** A [time.Duration] is an int64 count of nanoseconds. *)
Definition Duration : Type := Z.

Definition minDuration : Duration := - 2 ^ 63.
Definition maxDuration : Duration := 2 ^ 63 - 1.

Definition Nanosecond : Duration := 1.
Definition Second : Duration := 1000000000.
Definition Minute : Duration := 60 * Second.
Definition Hour : Duration := 60 * Minute.

(** int64 arithmetic wraps around. *)
Definition wrap (z : Z) : Duration := (z + 2 ^ 63) mod 2 ^ 64 - 2 ^ 63.

Definition dadd (a b : Duration) : Duration := wrap (a + b).
Definition dmul (a b : Duration) : Duration := wrap (a * b).
(** Go's [/] on integers truncates toward zero. *)
Definition ddiv (a b : Duration) : Duration := wrap (Z.quot a b).

(** [t.Sub(u)]: the difference saturates at the largest and smallest
      representable durations. *)
Definition Sub (t u : Time) : Duration :=
    if maxDuration <? t - u then maxDuration
    else if t - u <? minDuration then minDuration
    else t - u.

(** [t.Add(d)]. *)
Definition Add (t : Time) (d : Duration) : Time := t + d.

(** [time.Since(t)] with the clock reading [now]. *)
Definition Since (now t : Time) : Duration := Sub now t.

(** Nanoseconds between the zero instant and the Unix epoch. *)
Definition unixEpoch : Z := 62135596800 * 1000000000.
Definition UnixNano (t : Time) : Z := t - unixEpoch.

End time.

(** ** Outcomes of Go calls that may panic *)

Inductive panic : Type :=
| NilDereference
| IndexOutOfRange
| HoldExceedsAge.   (* the explicit panic at the end of hubbub.conversation *)

Inductive result (A : Type) : Type :=
| Ok (a : A)
| Panic (p : panic).

Arguments Ok {A} a.
Arguments Panic {A} p.

Definition bind {A B : Type} (r : result A) (k : A -> result B) : result B :=
  match r with
  | Ok a => k a
  | Panic p => Panic p
  end.

Notation "'let*' x ':=' r 'in' k" := (bind r (fun x => k))
  (at level 10, x name, r at level 200, k at level 200, only parsing).

Definition is_ok {A : Type} (r : result A) : bool :=
  match r with Ok _ => true | Panic _ => false end.

(** ** pkg/persist: the in-memory cache (gocache.go) *)

Module persist.

Section Cache.

(** The payload fields of [Thing] (issues, pull requests, comments,
    timelines, reviews) are opaque to the cache. *)
Variable Payload : Type.

(** MaxSaveAge is the oldest allowable entry to persist,
    MaxLoadAge the oldest allowable entry to load. *)
Definition MaxSaveAge : time.Duration := 2 * 24 * time.Hour.
Definition MaxLoadAge : time.Duration := 10 * 24 * time.Hour.

Definition memCleanupInterval : time.Duration := 15 * time.Minute.

Record Thing : Type := mkThing {
  Created : time.Time;
  Contents : Payload
}.

(** What the go-cache library stores is an [interface{}]: here either a
    [*Thing] (possibly the nil pointer) or a value of some other type. *)
Inductive object : Type :=
| PtrThing (p : option Thing)
| Other.

(** go-cache's [cache.Item]: the object and its expiration in Unix
    nanoseconds ([0] or less: never expires). *)
Record Item : Type := mkItem {
  Object : object;
  Expiration : Z
}.

(** [Item.Expired]. *)
Definition Expired (now : time.Time) (it : Item) : bool :=
  (0 <? Expiration it) && (Expiration it <? time.UnixNano now).

(** [cache.New(MaxLoadAge, memCleanupInterval)]. *)
Definition createMem : gmap string Item := ∅.

(** [cache.NewFrom(MaxLoadAge, memCleanupInterval, items)]. *)
Definition loadMem (items : gmap string Item) : gmap string Item := items.

(** go-cache's [c.Set(k, x, d)] for a positive [d]. *)
Definition cacheSet (now : time.Time) (c : gmap string Item)
    (k : string) (x : object) (d : time.Duration) : gmap string Item :=
  <[k := {| Object := x; Expiration := time.UnixNano (time.Add now d) |}]> c.

(** go-cache's [c.Get(k)]: an expired item is reported as absent. *)
Definition cacheGet (now : time.Time) (c : gmap string Item)
    (k : string) : option object :=
  match c !! k with
  | None => None
  | Some it => if Expired now it then None else Some (Object it)
  end.

(** go-cache's [c.Delete(k)] and the janitor's [c.DeleteExpired()]. *)
Definition cacheDelete (c : gmap string Item) (k : string) : gmap string Item :=
  delete k c.

Definition cacheDeleteExpired (now : time.Time) (c : gmap string Item)
    : gmap string Item :=
  filter (fun kv => Expired now (snd kv) = false) c.

(** [setMem]: [now] is the reading of [time.Now()] used to stamp an
    unstamped thing, [nowSet] the one taken by [c.Set]. The stamped
    thing is returned as well, since the caller's pointer sees it. *)
Definition setMem (now nowSet : time.Time) (c : gmap string Item)
    (key : string) (th : option Thing) : result (gmap string Item * Thing) :=
  match th with
  | None => Panic NilDereference
  | Some th =>
      let th' := if time.IsZero (Created th)
                 then {| Created := now; Contents := Contents th |}
                 else th in
      Ok (cacheSet nowSet c key (PtrThing (Some th')) MaxLoadAge, th')
  end.

(** [newerThanMem]: a failed type assertion leaves [th] nil, and so does
    a stored nil pointer; [th.Created] then panics. *)
Definition newerThanMem (now : time.Time) (c : gmap string Item)
    (key : string) (t : time.Time) : result (option Thing) :=
  match cacheGet now c key with
  | None => Ok None
  | Some x =>
      match x with
      | PtrThing (Some th) =>
          if time.Before (Created th) t then Ok None else Ok (Some th)
      | PtrThing None => Panic NilDereference
      | Other => Panic NilDereference
      end
  end.

(** [deleteOlderMem]. *)
Definition deleteOlderMem (now : time.Time) (c : gmap string Item)
    (key : string) (t : time.Time) : result (gmap string Item) :=
  let* i := newerThanMem now c key t in
  match i with
  | Some th => if time.After (Created th) t then Ok c else Ok (cacheDelete c key)
  | None => Ok (cacheDelete c key)
  end.

(** Caches that are created empty and then only touched through
    [setMem], [deleteOlderMem] and the library's janitor. *)
Inductive populated : gmap string Item -> Prop :=
| populated_create : populated createMem
| populated_set now nowSet c key th c' th' :
    populated c ->
    setMem now nowSet c key th = Ok (c', th') ->
    populated c'
| populated_delete now c key t c' :
    populated c ->
    deleteOlderMem now c key t = Ok c' ->
    populated c'
| populated_janitor now c :
    populated c ->
    populated (cacheDeleteExpired now c).

Definition holds_things (c : gmap string Item) : Prop :=
  forall k it, c !! k = Some it -> exists th, Object it = PtrThing (Some th).

End Cache.

Arguments Created {Payload} _.
Arguments Contents {Payload} _.
Arguments PtrThing {Payload} _.
Arguments Other {Payload}.
Arguments Object {Payload} _.
Arguments Expiration {Payload} _.
Arguments Expired {Payload} _ _.
Arguments createMem {Payload}.
Arguments loadMem {Payload} _.
Arguments cacheSet {Payload} _ _ _ _ _.
Arguments cacheGet {Payload} _ _ _.
Arguments cacheDelete {Payload} _ _.
Arguments cacheDeleteExpired {Payload} _ _.
Arguments setMem {Payload} _ _ _ _ _.
Arguments newerThanMem {Payload} _ _ _ _.
Arguments deleteOlderMem {Payload} _ _ _ _.
Arguments populated {Payload} _.
Arguments populated_create {Payload}.
Arguments populated_set {Payload} _ _ _ _ _ _ _ _ _.
Arguments populated_delete {Payload} _ _ _ _ _ _ _.
Arguments populated_janitor {Payload} _ _ _.
Arguments holds_things {Payload} _.

End persist.

(** ** Go's [strings] package, on byte strings *)

Module gostrings.

(** [strings.HasPrefix]. *)
Definition HasPrefix (s prefix : string) : bool := String.prefix prefix s.

(** [strings.Contains]. *)
Fixpoint Contains (s substr : string) : bool :=
  match s with
  | EmptyString => HasPrefix EmptyString substr
  | String _ s' => HasPrefix s substr || Contains s' substr
  end.

(** [strings.Split] with a separator of one byte: the pieces between the
    separators, in order; a string without separator is its only piece. *)
Fixpoint Split (s : string) (sep : ascii) : list string :=
  match s with
  | EmptyString => [EmptyString]
  | String c s' =>
      if Ascii.eqb c sep then EmptyString :: Split s' sep
      else match Split s' sep with
           | [] => [String c EmptyString]
           | x :: xs => String c x :: xs
           end
  end.

Definition bytes (l : list N) : list ascii := map ascii_of_N l.

(** The UTF-8 encodings of the code points for which [unicode.IsSpace]
    holds: tab, line feed, vertical tab, form feed, carriage return, space,
    U+0085, U+00A0, U+1680, U+2000 to U+200A, U+2028, U+2029, U+202F,
    U+205F and U+3000. *)
Definition spaceRunes : list (list ascii) :=
  map bytes
    [ [9]; [10]; [11]; [12]; [13]; [32]; [194; 133]; [194; 160];
      [225; 154; 128];
      [226; 128; 128]; [226; 128; 129]; [226; 128; 130]; [226; 128; 131];
      [226; 128; 132]; [226; 128; 133]; [226; 128; 134]; [226; 128; 135];
      [226; 128; 136]; [226; 128; 137]; [226; 128; 138];
      [226; 128; 168]; [226; 128; 169]; [226; 128; 175];
      [226; 129; 159]; [227; 128; 128] ]%N.

Fixpoint stripPrefix (p l : list ascii) : option (list ascii) :=
  match p, l with
  | [], _ => Some l
  | a :: p', b :: l' => if Ascii.eqb a b then stripPrefix p' l' else None
  | _ :: _, [] => None
  end.

Fixpoint stripAny (ps : list (list ascii)) (l : list ascii)
    : option (list ascii) :=
  match ps with
  | [] => None
  | p :: ps' =>
      match stripPrefix p l with
      | Some r => Some r
      | None => stripAny ps' l
      end
  end.

(** Remove leading occurrences of the given byte sequences; every removal
    shortens the list, so a fuel of its length is enough. *)
Fixpoint trimLeft (ps : list (list ascii)) (fuel : nat) (l : list ascii)
    : list ascii :=
  match fuel with
  | O => l
  | S n =>
      match stripAny ps l with
      | Some r => trimLeft ps n r
      | None => l
      end
  end.

(** [strings.TrimSpace]: leading and trailing white space removed. *)
Definition TrimSpace (s : string) : string :=
  let l := list_ascii_of_string s in
  let l1 := trimLeft spaceRunes (length l) l in
  let l2 := trimLeft (map (@rev ascii) spaceRunes) (length l1) (rev l1) in
  string_of_list_ascii (rev l2).

Definition lowerByte (c : ascii) : ascii :=
  let n := N_of_ascii c in
  if ((65 <=? n) && (n <=? 90))%N then ascii_of_N (n + 32) else c.

(** [strings.ToLower] on ASCII text (the author associations of the
    platform are ASCII words); other bytes are kept. *)
Fixpoint ToLower (s : string) : string :=
  match s with
  | EmptyString => EmptyString
  | String c s' => String (lowerByte c) (ToLower s')
  end.

(** First occurrence of [p] in [l]: what precedes it and what follows. *)
Fixpoint cut (p l : list ascii) : option (list ascii * list ascii) :=
  match stripPrefix p l with
  | Some r => Some ([], r)
  | None =>
      match l with
      | [] => None
      | a :: l' =>
          match cut p l' with
          | Some (b, r) => Some (a :: b, r)
          | None => None
          end
      end
  end.

(** Last occurrence of [p] in [l]. *)
Definition cutLast (p l : list ascii) : option (list ascii * list ascii) :=
  match cut (rev p) (rev l) with
  | Some (a, b) => Some (rev b, rev a)
  | None => None
  end.

End gostrings.

(** ** pkg/tag *)

Module tag.

(** Modelled from the spec: the tag package is not part of the sources at
    hand; these are the tags the conversation builder and the searches
    append, as listed under "Tag derivation". *)
Inductive Tag : Type :=
| Assigned
| Commented
| Send
| Recv
| RecvQ
| OpenMilestone
| AssigneeUpdated
| AuthorLast
| RoleLast (role : string)
| Closed
| Similar.

Definition eqb (a b : Tag) : bool :=
  match a, b with
  | Assigned, Assigned | Commented, Commented | Send, Send | Recv, Recv
  | RecvQ, RecvQ | OpenMilestone, OpenMilestone
  | AssigneeUpdated, AssigneeUpdated | AuthorLast, AuthorLast
  | Closed, Closed | Similar, Similar => true
  | RoleLast r, RoleLast r' => String.eqb r r'
  | _, _ => false
  end.

Definition has (t : Tag) (ts : list Tag) : bool := existsb (eqb t) ts.

End tag.

(** ** pkg/hubbub: the conversation builder (item.go) *)

Module hubbub.

(** What the builder reads from the platform client library (go-github)
    and from helpers of the package that are defined elsewhere. *)
Class Platform : Type := {
  github_User : Type;
  (** the [Login *string] field of a user *)
  Login : github_User -> option string;
  (** [isBot(u)] *)
  isBot : option github_User -> bool;
  github_Milestone : Type;
  (** [m.GetState()] *)
  MilestoneState : github_Milestone -> string;
  github_Reactions : Type;
  (** [r.GetTotalCount()], nil-safe *)
  GetTotalCount : option github_Reactions -> Z;
  (** [reactions(r)]: the tally per kind of reaction *)
  reactions : option github_Reactions -> gmap string Z
}.

(** [u.GetLogin()]: nil-safe, the empty string when there is none. *)
Definition GetLogin `{Platform} (u : option github_User) : string :=
  match u with
  | Some u => match Login u with Some l => l | None => EmptyString end
  | None => EmptyString
  end.

(** [*u.Login]: panics when the user or the login is nil. *)
Definition derefLogin `{Platform} (u : option github_User) : result string :=
  match u with
  | Some u =>
      match Login u with
      | Some l => Ok l
      | None => Panic NilDereference
      end
  | None => Panic NilDereference
  end.

(** GitHubItem is an interface that matches both GitHub Issues and
    PullRequests; an item is given by what its accessors return. *)
Record GitHubItem `{Platform} : Type := mkItem {
  GetAssignee : option github_User;
  GetAuthorAssociation : string;
  GetBody : string;
  GetComments : Z;
  GetHTMLURL : string;
  GetCreatedAt : time.Time;
  GetID : Z;
  GetMilestone : option github_Milestone;
  GetNumber : Z;
  GetClosedAt : time.Time;
  GetState : string;
  GetTitle : string;
  GetURL : string;
  GetUpdatedAt : time.Time;
  GetUser : option github_User
}.

Record Comment `{Platform} : Type := mkComment {
  Comment_User : option github_User;
  Comment_Created : time.Time;
  Comment_Updated : time.Time;
  Comment_Body : string;
  Comment_AuthorAssoc : string;
  Comment_Reactions : option github_Reactions
}.

(** The fields of [Engine] the builder and the searches read. *)
Record Engine : Type := mkEngine {
  members : gmap string bool;
  memberRoles : gmap string bool;
  debug : gmap Z bool;
  MaxClosedUpdateAge : time.Duration
}.

(** The item type [Issue], a constant declared elsewhere in the package. *)
Definition Issue : string := "issue".

(** The fields of [Conversation] that [conversation] sets, the two
    floating-point rates and the cross references of [parseRefs] left out. *)

Record Conversation `{Platform} : Type := mkConversation {
  ID : Z;
  URL : string;
  Author : option github_User;
  Title : string;
  State : string;
  Type_ : string;
  Seen : time.Time;
  Created : time.Time;
  CommentsTotal : Z;
  ClosedAt : time.Time;
  SelfInflicted : bool;
  LatestAuthorResponse : time.Time;
  Milestone : option github_Milestone;
  Reactions : gmap string Z;
  LastCommentAuthor : option github_User;
  LastCommentBody : string;
  Organization : string;
  Project : string;
  Assignees : list (option github_User);
  Tags : list tag.Tag;
  LatestMemberResponse : time.Time;
  ReactionsTotal : Z;
  ClosedCommentsTotal : Z;
  LatestAssigneeResponse : time.Time;
  AccumulatedHoldTime : time.Duration;
  CurrentHoldTime : time.Duration;
  Commenters : list (option github_User);
  Updated : time.Time;
  CommentersTotal : Z;
  ClosedCommentersTotal : Z
}.

Definition set_Tags `{Platform} (v : list tag.Tag) (co : Conversation) : Conversation :=
  {| ID := ID co; URL := URL co; Author := Author co; Title := Title co;
     State := State co; Type_ := Type_ co; Seen := Seen co;
     Created := Created co; CommentsTotal := CommentsTotal co;
     ClosedAt := ClosedAt co; SelfInflicted := SelfInflicted co;
     LatestAuthorResponse := LatestAuthorResponse co;
     Milestone := Milestone co; Reactions := Reactions co;
     LastCommentAuthor := LastCommentAuthor co;
     LastCommentBody := LastCommentBody co; Organization := Organization co;
     Project := Project co; Assignees := Assignees co; Tags := v;
     LatestMemberResponse := LatestMemberResponse co;
     ReactionsTotal := ReactionsTotal co;
     ClosedCommentsTotal := ClosedCommentsTotal co;
     LatestAssigneeResponse := LatestAssigneeResponse co;
     AccumulatedHoldTime := AccumulatedHoldTime co;
     CurrentHoldTime := CurrentHoldTime co; Commenters := Commenters co;
     Updated := Updated co; CommentersTotal := CommentersTotal co;
     ClosedCommentersTotal := ClosedCommentersTotal co |}.

Definition set_LatestAuthorResponse `{Platform} (v : time.Time) (co : Conversation) : Conversation :=
  {| ID := ID co; URL := URL co; Author := Author co; Title := Title co;
     State := State co; Type_ := Type_ co; Seen := Seen co;
     Created := Created co; CommentsTotal := CommentsTotal co;
     ClosedAt := ClosedAt co; SelfInflicted := SelfInflicted co;
     LatestAuthorResponse := v; Milestone := Milestone co;
     Reactions := Reactions co; LastCommentAuthor := LastCommentAuthor co;
     LastCommentBody := LastCommentBody co; Organization := Organization co;
     Project := Project co; Assignees := Assignees co; Tags := Tags co;
     LatestMemberResponse := LatestMemberResponse co;
     ReactionsTotal := ReactionsTotal co;
     ClosedCommentsTotal := ClosedCommentsTotal co;
     LatestAssigneeResponse := LatestAssigneeResponse co;
     AccumulatedHoldTime := AccumulatedHoldTime co;
     CurrentHoldTime := CurrentHoldTime co; Commenters := Commenters co;
     Updated := Updated co; CommentersTotal := CommentersTotal co;
     ClosedCommentersTotal := ClosedCommentersTotal co |}.

Definition set_LatestMemberResponse `{Platform} (v : time.Time) (co : Conversation) : Conversation :=
  {| ID := ID co; URL := URL co; Author := Author co; Title := Title co;
     State := State co; Type_ := Type_ co; Seen := Seen co;
     Created := Created co; CommentsTotal := CommentsTotal co;
     ClosedAt := ClosedAt co; SelfInflicted := SelfInflicted co;
     LatestAuthorResponse := LatestAuthorResponse co;
     Milestone := Milestone co; Reactions := Reactions co;
     LastCommentAuthor := LastCommentAuthor co;
     LastCommentBody := LastCommentBody co; Organization := Organization co;
     Project := Project co; Assignees := Assignees co; Tags := Tags co;
     LatestMemberResponse := v; ReactionsTotal := ReactionsTotal co;
     ClosedCommentsTotal := ClosedCommentsTotal co;
     LatestAssigneeResponse := LatestAssigneeResponse co;
     AccumulatedHoldTime := AccumulatedHoldTime co;
     CurrentHoldTime := CurrentHoldTime co; Commenters := Commenters co;
     Updated := Updated co; CommentersTotal := CommentersTotal co;
     ClosedCommentersTotal := ClosedCommentersTotal co |}.

Definition set_LatestAssigneeResponse `{Platform} (v : time.Time) (co : Conversation) : Conversation :=
  {| ID := ID co; URL := URL co; Author := Author co; Title := Title co;
     State := State co; Type_ := Type_ co; Seen := Seen co;
     Created := Created co; CommentsTotal := CommentsTotal co;
     ClosedAt := ClosedAt co; SelfInflicted := SelfInflicted co;
     LatestAuthorResponse := LatestAuthorResponse co;
     Milestone := Milestone co; Reactions := Reactions co;
     LastCommentAuthor := LastCommentAuthor co;
     LastCommentBody := LastCommentBody co; Organization := Organization co;
     Project := Project co; Assignees := Assignees co; Tags := Tags co;
     LatestMemberResponse := LatestMemberResponse co;
     ReactionsTotal := ReactionsTotal co;
     ClosedCommentsTotal := ClosedCommentsTotal co;
     LatestAssigneeResponse := v;
     AccumulatedHoldTime := AccumulatedHoldTime co;
     CurrentHoldTime := CurrentHoldTime co; Commenters := Commenters co;
     Updated := Updated co; CommentersTotal := CommentersTotal co;
     ClosedCommentersTotal := ClosedCommentersTotal co |}.

Definition set_Reactions `{Platform} (v : gmap string Z) (co : Conversation) : Conversation :=
  {| ID := ID co; URL := URL co; Author := Author co; Title := Title co;
     State := State co; Type_ := Type_ co; Seen := Seen co;
     Created := Created co; CommentsTotal := CommentsTotal co;
     ClosedAt := ClosedAt co; SelfInflicted := SelfInflicted co;
     LatestAuthorResponse := LatestAuthorResponse co;
     Milestone := Milestone co; Reactions := v;
     LastCommentAuthor := LastCommentAuthor co;
     LastCommentBody := LastCommentBody co; Organization := Organization co;
     Project := Project co; Assignees := Assignees co; Tags := Tags co;
     LatestMemberResponse := LatestMemberResponse co;
     ReactionsTotal := ReactionsTotal co;
     ClosedCommentsTotal := ClosedCommentsTotal co;
     LatestAssigneeResponse := LatestAssigneeResponse co;
     AccumulatedHoldTime := AccumulatedHoldTime co;
     CurrentHoldTime := CurrentHoldTime co; Commenters := Commenters co;
     Updated := Updated co; CommentersTotal := CommentersTotal co;
     ClosedCommentersTotal := ClosedCommentersTotal co |}.

Definition set_ReactionsTotal `{Platform} (v : Z) (co : Conversation) : Conversation :=
  {| ID := ID co; URL := URL co; Author := Author co; Title := Title co;
     State := State co; Type_ := Type_ co; Seen := Seen co;
     Created := Created co; CommentsTotal := CommentsTotal co;
     ClosedAt := ClosedAt co; SelfInflicted := SelfInflicted co;
     LatestAuthorResponse := LatestAuthorResponse co;
     Milestone := Milestone co; Reactions := Reactions co;
     LastCommentAuthor := LastCommentAuthor co;
     LastCommentBody := LastCommentBody co; Organization := Organization co;
     Project := Project co; Assignees := Assignees co; Tags := Tags co;
     LatestMemberResponse := LatestMemberResponse co; ReactionsTotal := v;
     ClosedCommentsTotal := ClosedCommentsTotal co;
     LatestAssigneeResponse := LatestAssigneeResponse co;
     AccumulatedHoldTime := AccumulatedHoldTime co;
     CurrentHoldTime := CurrentHoldTime co; Commenters := Commenters co;
     Updated := Updated co; CommentersTotal := CommentersTotal co;
     ClosedCommentersTotal := ClosedCommentersTotal co |}.

Definition set_LastCommentAuthor `{Platform} (v : option github_User) (co : Conversation) : Conversation :=
  {| ID := ID co; URL := URL co; Author := Author co; Title := Title co;
     State := State co; Type_ := Type_ co; Seen := Seen co;
     Created := Created co; CommentsTotal := CommentsTotal co;
     ClosedAt := ClosedAt co; SelfInflicted := SelfInflicted co;
     LatestAuthorResponse := LatestAuthorResponse co;
     Milestone := Milestone co; Reactions := Reactions co;
     LastCommentAuthor := v; LastCommentBody := LastCommentBody co;
     Organization := Organization co; Project := Project co;
     Assignees := Assignees co; Tags := Tags co;
     LatestMemberResponse := LatestMemberResponse co;
     ReactionsTotal := ReactionsTotal co;
     ClosedCommentsTotal := ClosedCommentsTotal co;
     LatestAssigneeResponse := LatestAssigneeResponse co;
     AccumulatedHoldTime := AccumulatedHoldTime co;
     CurrentHoldTime := CurrentHoldTime co; Commenters := Commenters co;
     Updated := Updated co; CommentersTotal := CommentersTotal co;
     ClosedCommentersTotal := ClosedCommentersTotal co |}.

Definition set_LastCommentBody `{Platform} (v : string) (co : Conversation) : Conversation :=
  {| ID := ID co; URL := URL co; Author := Author co; Title := Title co;
     State := State co; Type_ := Type_ co; Seen := Seen co;
     Created := Created co; CommentsTotal := CommentsTotal co;
     ClosedAt := ClosedAt co; SelfInflicted := SelfInflicted co;
     LatestAuthorResponse := LatestAuthorResponse co;
     Milestone := Milestone co; Reactions := Reactions co;
     LastCommentAuthor := LastCommentAuthor co; LastCommentBody := v;
     Organization := Organization co; Project := Project co;
     Assignees := Assignees co; Tags := Tags co;
     LatestMemberResponse := LatestMemberResponse co;
     ReactionsTotal := ReactionsTotal co;
     ClosedCommentsTotal := ClosedCommentsTotal co;
     LatestAssigneeResponse := LatestAssigneeResponse co;
     AccumulatedHoldTime := AccumulatedHoldTime co;
     CurrentHoldTime := CurrentHoldTime co; Commenters := Commenters co;
     Updated := Updated co; CommentersTotal := CommentersTotal co;
     ClosedCommentersTotal := ClosedCommentersTotal co |}.

Definition set_ClosedCommentsTotal `{Platform} (v : Z) (co : Conversation) : Conversation :=
  {| ID := ID co; URL := URL co; Author := Author co; Title := Title co;
     State := State co; Type_ := Type_ co; Seen := Seen co;
     Created := Created co; CommentsTotal := CommentsTotal co;
     ClosedAt := ClosedAt co; SelfInflicted := SelfInflicted co;
     LatestAuthorResponse := LatestAuthorResponse co;
     Milestone := Milestone co; Reactions := Reactions co;
     LastCommentAuthor := LastCommentAuthor co;
     LastCommentBody := LastCommentBody co; Organization := Organization co;
     Project := Project co; Assignees := Assignees co; Tags := Tags co;
     LatestMemberResponse := LatestMemberResponse co;
     ReactionsTotal := ReactionsTotal co; ClosedCommentsTotal := v;
     LatestAssigneeResponse := LatestAssigneeResponse co;
     AccumulatedHoldTime := AccumulatedHoldTime co;
     CurrentHoldTime := CurrentHoldTime co; Commenters := Commenters co;
     Updated := Updated co; CommentersTotal := CommentersTotal co;
     ClosedCommentersTotal := ClosedCommentersTotal co |}.

Definition set_AccumulatedHoldTime `{Platform} (v : time.Duration) (co : Conversation) : Conversation :=
  {| ID := ID co; URL := URL co; Author := Author co; Title := Title co;
     State := State co; Type_ := Type_ co; Seen := Seen co;
     Created := Created co; CommentsTotal := CommentsTotal co;
     ClosedAt := ClosedAt co; SelfInflicted := SelfInflicted co;
     LatestAuthorResponse := LatestAuthorResponse co;
     Milestone := Milestone co; Reactions := Reactions co;
     LastCommentAuthor := LastCommentAuthor co;
     LastCommentBody := LastCommentBody co; Organization := Organization co;
     Project := Project co; Assignees := Assignees co; Tags := Tags co;
     LatestMemberResponse := LatestMemberResponse co;
     ReactionsTotal := ReactionsTotal co;
     ClosedCommentsTotal := ClosedCommentsTotal co;
     LatestAssigneeResponse := LatestAssigneeResponse co;
     AccumulatedHoldTime := v; CurrentHoldTime := CurrentHoldTime co;
     Commenters := Commenters co; Updated := Updated co;
     CommentersTotal := CommentersTotal co;
     ClosedCommentersTotal := ClosedCommentersTotal co |}.

Definition set_CurrentHoldTime `{Platform} (v : time.Duration) (co : Conversation) : Conversation :=
  {| ID := ID co; URL := URL co; Author := Author co; Title := Title co;
     State := State co; Type_ := Type_ co; Seen := Seen co;
     Created := Created co; CommentsTotal := CommentsTotal co;
     ClosedAt := ClosedAt co; SelfInflicted := SelfInflicted co;
     LatestAuthorResponse := LatestAuthorResponse co;
     Milestone := Milestone co; Reactions := Reactions co;
     LastCommentAuthor := LastCommentAuthor co;
     LastCommentBody := LastCommentBody co; Organization := Organization co;
     Project := Project co; Assignees := Assignees co; Tags := Tags co;
     LatestMemberResponse := LatestMemberResponse co;
     ReactionsTotal := ReactionsTotal co;
     ClosedCommentsTotal := ClosedCommentsTotal co;
     LatestAssigneeResponse := LatestAssigneeResponse co;
     AccumulatedHoldTime := AccumulatedHoldTime co; CurrentHoldTime := v;
     Commenters := Commenters co; Updated := Updated co;
     CommentersTotal := CommentersTotal co;
     ClosedCommentersTotal := ClosedCommentersTotal co |}.

Definition set_Commenters `{Platform} (v : list (option github_User)) (co : Conversation) : Conversation :=
  {| ID := ID co; URL := URL co; Author := Author co; Title := Title co;
     State := State co; Type_ := Type_ co; Seen := Seen co;
     Created := Created co; CommentsTotal := CommentsTotal co;
     ClosedAt := ClosedAt co; SelfInflicted := SelfInflicted co;
     LatestAuthorResponse := LatestAuthorResponse co;
     Milestone := Milestone co; Reactions := Reactions co;
     LastCommentAuthor := LastCommentAuthor co;
     LastCommentBody := LastCommentBody co; Organization := Organization co;
     Project := Project co; Assignees := Assignees co; Tags := Tags co;
     LatestMemberResponse := LatestMemberResponse co;
     ReactionsTotal := ReactionsTotal co;
     ClosedCommentsTotal := ClosedCommentsTotal co;
     LatestAssigneeResponse := LatestAssigneeResponse co;
     AccumulatedHoldTime := AccumulatedHoldTime co;
     CurrentHoldTime := CurrentHoldTime co; Commenters := v;
     Updated := Updated co; CommentersTotal := CommentersTotal co;
     ClosedCommentersTotal := ClosedCommentersTotal co |}.

Definition set_Updated `{Platform} (v : time.Time) (co : Conversation) : Conversation :=
  {| ID := ID co; URL := URL co; Author := Author co; Title := Title co;
     State := State co; Type_ := Type_ co; Seen := Seen co;
     Created := Created co; CommentsTotal := CommentsTotal co;
     ClosedAt := ClosedAt co; SelfInflicted := SelfInflicted co;
     LatestAuthorResponse := LatestAuthorResponse co;
     Milestone := Milestone co; Reactions := Reactions co;
     LastCommentAuthor := LastCommentAuthor co;
     LastCommentBody := LastCommentBody co; Organization := Organization co;
     Project := Project co; Assignees := Assignees co; Tags := Tags co;
     LatestMemberResponse := LatestMemberResponse co;
     ReactionsTotal := ReactionsTotal co;
     ClosedCommentsTotal := ClosedCommentsTotal co;
     LatestAssigneeResponse := LatestAssigneeResponse co;
     AccumulatedHoldTime := AccumulatedHoldTime co;
     CurrentHoldTime := CurrentHoldTime co; Commenters := Commenters co;
     Updated := v; CommentersTotal := CommentersTotal co;
     ClosedCommentersTotal := ClosedCommentersTotal co |}.

Definition set_CommentersTotal `{Platform} (v : Z) (co : Conversation) : Conversation :=
  {| ID := ID co; URL := URL co; Author := Author co; Title := Title co;
     State := State co; Type_ := Type_ co; Seen := Seen co;
     Created := Created co; CommentsTotal := CommentsTotal co;
     ClosedAt := ClosedAt co; SelfInflicted := SelfInflicted co;
     LatestAuthorResponse := LatestAuthorResponse co;
     Milestone := Milestone co; Reactions := Reactions co;
     LastCommentAuthor := LastCommentAuthor co;
     LastCommentBody := LastCommentBody co; Organization := Organization co;
     Project := Project co; Assignees := Assignees co; Tags := Tags co;
     LatestMemberResponse := LatestMemberResponse co;
     ReactionsTotal := ReactionsTotal co;
     ClosedCommentsTotal := ClosedCommentsTotal co;
     LatestAssigneeResponse := LatestAssigneeResponse co;
     AccumulatedHoldTime := AccumulatedHoldTime co;
     CurrentHoldTime := CurrentHoldTime co; Commenters := Commenters co;
     Updated := Updated co; CommentersTotal := v;
     ClosedCommentersTotal := ClosedCommentersTotal co |}.

Definition set_ClosedCommentersTotal `{Platform} (v : Z) (co : Conversation) : Conversation :=
  {| ID := ID co; URL := URL co; Author := Author co; Title := Title co;
     State := State co; Type_ := Type_ co; Seen := Seen co;
     Created := Created co; CommentsTotal := CommentsTotal co;
     ClosedAt := ClosedAt co; SelfInflicted := SelfInflicted co;
     LatestAuthorResponse := LatestAuthorResponse co;
     Milestone := Milestone co; Reactions := Reactions co;
     LastCommentAuthor := LastCommentAuthor co;
     LastCommentBody := LastCommentBody co; Organization := Organization co;
     Project := Project co; Assignees := Assignees co; Tags := Tags co;
     LatestMemberResponse := LatestMemberResponse co;
     ReactionsTotal := ReactionsTotal co;
     ClosedCommentsTotal := ClosedCommentsTotal co;
     LatestAssigneeResponse := LatestAssigneeResponse co;
     AccumulatedHoldTime := AccumulatedHoldTime co;
     CurrentHoldTime := CurrentHoldTime co; Commenters := Commenters co;
     Updated := Updated co; CommentersTotal := CommentersTotal co;
     ClosedCommentersTotal := v |}.

Definition addTag `{Platform} (t : tag.Tag) (co : Conversation) : Conversation :=
  set_Tags (Tags co ++ [t]) co.

(** Return if a user or role should be considered a member. *)
Definition isMember (h : Engine) (user role : string) : bool :=
  if default false (members h !! user) then true
  else if default false (memberRoles h !! gostrings.ToLower role) then true
  else false.

(** The regular expressions [codeRe] and [detailsRe] as [parseRefs] applies
    them. [codeRe] is lazy: a fence is closed by the next fence. *)
Definition fence : list ascii := list_ascii_of_string "```".

Fixpoint codeRe_ReplaceAll (fuel : nat) (text : list ascii) : list ascii :=
  match fuel with
  | O => text
  | S n =>
      match gostrings.cut fence text with
      | None => text
      | Some (before, inside) =>
          match gostrings.cut fence inside with
          | None => text
          | Some (_, after) =>
              before ++ list_ascii_of_string "<code></code>"
                     ++ codeRe_ReplaceAll n after
          end
      end
  end.

Definition codeRe_ReplaceAllString (text : string) : string :=
  string_of_list_ascii
    (codeRe_ReplaceAll (String.length text) (list_ascii_of_string text)).

(** [detailsRe] is greedy: the first opening tag is closed by the last
    closing tag. *)
Definition detailsRe_ReplaceAllString (text : string) : string :=
  let l := list_ascii_of_string text in
  match gostrings.cut (list_ascii_of_string "<details>") l with
  | None => text
  | Some (before, inside) =>
      match gostrings.cutLast (list_ascii_of_string "</details>") inside with
      | None => text
      | Some (_, after) =>
          string_of_list_ascii
            (before ++ list_ascii_of_string "<details></details>" ++ after)
      end
  end.

(** The text [parseRefs] scans for references. *)
Definition parseRefs_text (text : string) : string :=
  detailsRe_ReplaceAllString (codeRe_ReplaceAllString text).

Definition newline : ascii := ascii_of_N 10.

(** One line of a comment body, as the question scan of [conversation]
    treats it. *)
Definition questionLine (line : string) : bool :=
  let line := gostrings.TrimSpace line in
  if gostrings.HasPrefix line ">" then false
  else gostrings.Contains line "?".

(** Whether the scan of [c.Body] assigns [lastQuestion]. *)
Definition asksQuestion (body : string) : bool :=
  if gostrings.Contains body "?"
  then existsb questionLine (gostrings.Split body newline)
  else false.

(** The variables of the loop over the comments. *)
Record loopState `{Platform} : Type := mkLoop {
  co : Conversation;
  lastQuestion : time.Time;
  seenCommenters : gset string;
  seenClosedCommenters : gset string;
  seenMemberComment : bool
}.

(** The readings of [time.Now()] that [conversation] takes, in program
    order: for the current hold time, for the accumulated hold time and for
    the age the latter is checked against. *)
Record Clock : Type := mkClock {
  nowCurrentHold : time.Time;
  nowAccumulated : time.Time;
  nowAge : time.Time
}.

(** int arithmetic of the counters. *)
Definition iadd (a b : Z) : Z := time.wrap (a + b).

(** The conversation before the loop over the comments. [parseRefs] only
    touches the cross references and the engine's table of mention times,
    which are not part of this model. *)
Definition newConversation `{Platform} (h : Engine) (i : GitHubItem)
    (age : time.Time) : result Conversation :=
  let authorIsMember :=
    isMember h (GetLogin (GetUser i)) (GetAuthorAssociation i) in
  let urlParts := gostrings.Split (GetHTMLURL i) "/" in
  match urlParts !! 3%nat, urlParts !! 4%nat with
  | Some org, Some project =>
      Ok {| ID := GetNumber i;
            URL := GetHTMLURL i;
            Author := GetUser i;
            Title := GetTitle i;
            State := GetState i;
            Type_ := Issue;
            Seen := age;
            Created := GetCreatedAt i;
            CommentsTotal := GetComments i;
            ClosedAt := GetClosedAt i;
            SelfInflicted := authorIsMember;
            LatestAuthorResponse := GetCreatedAt i;
            Milestone := GetMilestone i;
            Reactions := ∅;
            LastCommentAuthor := GetUser i;
            LastCommentBody := GetBody i;
            Organization := org;
            Project := project;
            Assignees :=
              match GetAssignee i with Some _ => [GetAssignee i] | None => [] end;
            Tags :=
              match GetAssignee i with Some _ => [tag.Assigned] | None => [] end;
            LatestMemberResponse :=
              if negb authorIsMember then GetCreatedAt i else time.zero;
            ReactionsTotal := 0;
            ClosedCommentsTotal := 0;
            LatestAssigneeResponse := time.zero;
            AccumulatedHoldTime := 0;
            CurrentHoldTime := 0;
            Commenters := [];
            Updated := time.zero;
            CommentersTotal := 0;
            ClosedCommentersTotal := 0 |}
  | _, _ => Panic IndexOutOfRange
  end.

Definition initLoop `{Platform} (co : Conversation) : loopState :=
  {| co := co; lastQuestion := time.zero; seenCommenters := ∅;
     seenClosedCommenters := ∅; seenMemberComment := false |}.

(** The reactions of a comment are added to the tallies. *)
Definition countReactions `{Platform} (c : Comment) (co : Conversation)
    : Conversation :=
  let r := Comment_Reactions c in
  if 0 <? GetTotalCount r
  then set_Reactions
         (union_with (fun a b => Some (iadd a b)) (Reactions co) (reactions r))
         (set_ReactionsTotal (iadd (ReactionsTotal co) (GetTotalCount r)) co)
  else co.

(** A comment made more than 30 seconds after the item was closed. *)
Definition afterClosed `{Platform} (i : GitHubItem) (c : Comment) : bool :=
  negb (time.IsZero (GetClosedAt i))
  && time.After (Comment_Created c)
       (time.Add (GetClosedAt i) (30 * time.Second)).

(** A comment by a member: the hold time is accumulated and the latest
    member response moves to the comment. *)
Definition memberResponse `{Platform} (authorIsMember : bool) (c : Comment)
    (st : loopState) : loopState :=
  let co0 := co st in
  let co1 :=
    if negb (time.After (LatestMemberResponse co0) (LatestAuthorResponse co0))
       && negb authorIsMember
    then set_AccumulatedHoldTime
           (time.dadd (AccumulatedHoldTime co0)
              (time.Sub (Comment_Created c) (LatestAuthorResponse co0))) co0
    else co0 in
  let co2 := set_LatestMemberResponse (Comment_Created c) co1 in
  if negb (seenMemberComment st)
  then {| co := addTag tag.Commented co2;
          lastQuestion := lastQuestion st;
          seenCommenters := seenCommenters st;
          seenClosedCommenters := seenClosedCommenters st;
          seenMemberComment := true |}
  else {| co := co2;
          lastQuestion := lastQuestion st;
          seenCommenters := seenCommenters st;
          seenClosedCommenters := seenClosedCommenters st;
          seenMemberComment := seenMemberComment st |}.

(** One turn of the loop over the comments. The call of [parseRefs] that
    opens it, before the test for bots, writes the cross references and the
    engine's table of mention times only, which are not part of this state;
    [refs.commentStepRefs] adds it. *)
Definition commentStep `{Platform} (h : Engine) (i : GitHubItem)
    (authorIsMember : bool) (st : loopState) (c : Comment)
    : result loopState :=
  (* We don't like their kind around here *)
  if isBot (Comment_User c) then Ok st
  else
    let co1 :=
      set_LastCommentAuthor (Comment_User c)
        (set_LastCommentBody (Comment_Body c) (co st)) in
    let co2 := countReactions c co1 in
    let* closed :=
      if afterClosed i c
      then let* login := derefLogin (Comment_User c) in
           Ok (set_ClosedCommentsTotal (iadd (ClosedCommentsTotal co2) 1) co2,
               {[ login ]} ∪ seenClosedCommenters st)
      else Ok (co2, seenClosedCommenters st) in
    let co3 :=
      if String.eqb (GetLogin (Comment_User c)) (GetLogin (GetUser i))
      then set_LatestAuthorResponse (Comment_Created c) (fst closed)
      else fst closed in
    let co4 :=
      if String.eqb (GetLogin (Comment_User c)) (GetLogin (GetAssignee i))
      then set_LatestAssigneeResponse (Comment_Created c) co3
      else co3 in
    let st1 :=
      {| co := co4;
         lastQuestion := lastQuestion st;
         seenCommenters := seenCommenters st;
         seenClosedCommenters := snd closed;
         seenMemberComment := seenMemberComment st |} in
    let st2 :=
      if isMember h (GetLogin (Comment_User c)) (Comment_AuthorAssoc c)
         && negb (isBot (Comment_User c))
      then memberResponse authorIsMember c st1
      else st1 in
    let question :=
      if asksQuestion (Comment_Body c) then Comment_Created c
      else lastQuestion st2 in
    let* login := derefLogin (Comment_User c) in
    Ok {| co := if bool_decide (login ∈ seenCommenters st2)
                then co st2
                else set_Commenters (Commenters (co st2) ++ [Comment_User c])
                       (co st2);
          lastQuestion := question;
          seenCommenters := {[ login ]} ∪ seenCommenters st2;
          seenClosedCommenters := seenClosedCommenters st2;
          seenMemberComment := seenMemberComment st2 |}.

(** The loop over the comments. *)
Fixpoint commentLoop `{Platform} (h : Engine) (i : GitHubItem)
    (authorIsMember : bool) (st : loopState) (cs : list Comment)
    : result loopState :=
  match cs with
  | [] => Ok st
  | c :: cs' =>
      let* st' := commentStep h i authorIsMember st c in
      commentLoop h i authorIsMember st' cs'
  end.

(** The [send] and [recv] tags and the hold times. *)
Definition tagResponse `{Platform} (clk : Clock) (authorIsMember : bool)
    (co : Conversation) : Conversation :=
  if time.After (LatestMemberResponse co) (LatestAuthorResponse co)
  then set_CurrentHoldTime 0 (addTag tag.Send co)
  else if negb authorIsMember
  then
    set_AccumulatedHoldTime
      (time.dadd (AccumulatedHoldTime co)
         (time.Since (nowAccumulated clk) (LatestAuthorResponse co)))
      (set_CurrentHoldTime
         (time.dadd (CurrentHoldTime co)
            (time.Since (nowCurrentHold clk) (LatestAuthorResponse co)))
         (addTag tag.Recv co))
  else co.

Definition tagQuestion `{Platform} (lastQuestion : time.Time)
    (co : Conversation) : Conversation :=
  if time.After lastQuestion (LatestMemberResponse co)
  then addTag tag.RecvQ co else co.

Definition tagMilestone `{Platform} (co : Conversation) : Conversation :=
  match Milestone co with
  | Some m =>
      if String.eqb (MilestoneState m) "open"
      then addTag tag.OpenMilestone co else co
  | None => co
  end.

Definition tagAssignee `{Platform} (co : Conversation) : Conversation :=
  if negb (time.IsZero (LatestAssigneeResponse co))
  then addTag tag.AssigneeUpdated co else co.

(** The tag for the author of the last comment, and the update time. *)
Definition tagLast `{Platform} (i : GitHubItem) (cs : list Comment)
    (co : Conversation) : Conversation :=
  match last cs with
  | Some l =>
      let assoc := gostrings.ToLower (Comment_AuthorAssoc l) in
      let co1 :=
        if String.eqb assoc "none"
        then if String.eqb (GetLogin (Comment_User l)) (GetLogin (GetUser i))
             then addTag tag.AuthorLast co else co
        else addTag (tag.RoleLast assoc) co in
      set_Updated (Comment_Updated l) co1
  | None => co
  end.

Definition tagClosed `{Platform} (co : Conversation) : Conversation :=
  if String.eqb (State co) "closed" then addTag tag.Closed co else co.

(** What follows the loop, up to the check of the accumulated hold time. *)
Definition finish `{Platform} (clk : Clock) (i : GitHubItem)
    (authorIsMember : bool) (cs : list Comment) (st : loopState)
    : Conversation :=
  let co1 := tagResponse clk authorIsMember (co st) in
  let co2 := tagQuestion (lastQuestion st) co1 in
  let co3 := tagMilestone co2 in
  let co4 := tagAssignee co3 in
  let co5 := tagLast i cs co4 in
  let co6 := tagClosed co5 in
  set_ClosedCommentersTotal (Z.of_nat (size (seenClosedCommenters st)))
    (set_CommentersTotal (Z.of_nat (size (seenCommenters st))) co6).

Definition checkHold `{Platform} (clk : Clock) (co : Conversation)
    : result Conversation :=
  if time.Since (nowAge clk) (Created co) <? AccumulatedHoldTime co
  then Panic HoldExceedsAge
  else Ok co.

(** conversation creates a conversation from an issue-like. *)
Definition conversation `{Platform} (clk : Clock) (h : Engine)
    (i : GitHubItem) (cs : list Comment) (age : time.Time)
    : result Conversation :=
  let authorIsMember :=
    isMember h (GetLogin (GetUser i)) (GetAuthorAssociation i) in
  let* co0 := newConversation h i age in
  let* st := commentLoop h i authorIsMember (initLoop co0) cs in
  checkHold clk (finish clk i authorIsMember cs st).

(** *** The searches (SearchAny, SearchIssues, SearchPullRequests) *)

(** The fields of [Filter] that [NeedsClosed] reads. *)
Record Filter : Type := mkFilter {
  ClosedCommenters : string;
  ClosedComments : string;
  Filter_State : string
}.

Definition error : Type := string.

(** What a listing fetch returns: the items, the time they were fetched at
    and the error. *)
Record fetched `{Platform} : Type := mkFetched {
  items : list GitHubItem;
  stamp : time.Time;
  failure : option error
}.

(** The parts of the package the searches call that are defined outside the
    sources at hand. They read and write the engine's caches and tables,
    which are threaded as an opaque [World].
    [issueBody h fs newerThan hidden age mostRecentUpdate i] stands for the
    body of the loop of [SearchIssues] over the de-duplicated issues
    (preFetchMatch, the fetches of comments and timeline, IssueSummary,
    FindSimilar, postFetchMatch, addEvents, updateLinkedPRs and
    postEventsMatch): the conversation when the item passes every filter.
    [prBody h fs newerThan hidden age pr] is the same for the loop of
    [SearchPullRequests]. Errors of the fetches in these bodies are logged
    there and make the item skipped or incomplete. *)
Class Backend `{Platform} : Type := {
  World : Type;
  openByDefault : list Filter -> list Filter;
  (** [cachedIssues state updateAge newerThan] *)
  cachedIssues :
    string -> time.Duration -> time.Time -> World -> fetched * World;
  (** [cachedPRs state updateAge newerThan] *)
  cachedPRs :
    string -> time.Duration -> time.Time -> World -> fetched * World;
  issueBody :
    Engine -> list Filter -> time.Time -> bool -> time.Time -> time.Time ->
    GitHubItem -> World -> option Conversation * World;
  prBody :
    Engine -> list Filter -> time.Time -> bool -> time.Time ->
    GitHubItem -> World -> option Conversation * World
}.

(** NeedsClosed returns whether or not the filters require closed items. *)
Fixpoint NeedsClosed (fs : list Filter) : bool :=
  match fs with
  | [] => false
  | f :: fs' =>
      if negb (String.eqb (ClosedCommenters f) "") then true
      else if negb (String.eqb (ClosedComments f) "") then true
      else if negb (String.eqb (Filter_State f) "")
              && negb (String.eqb (Filter_State f) "open") then true
      else NeedsClosed fs'
  end.

(** [h.debug[n]] and the debug filter of the listing loops. *)
Definition debugged (h : Engine) (n : Z) : bool := default false (debug h !! n).

Definition skippedByDebug `{Platform} (h : Engine) (i : GitHubItem) : bool :=
  (0 <? Z.of_nat (size (debug h))) && negb (debugged h (GetNumber i)).

(** The two listing fetches of [SearchIssues], the open one taken first:
    the open issues, the closed issues and [age]. A failed open fetch leaves
    [open] and [age] alone; a failed closed fetch is logged only. *)
Definition fetchIssues `{Backend} (h : Engine) (now : time.Time)
    (fs : list Filter) (newerThan : time.Time) (w : World)
    : (list GitHubItem * list GitHubItem * time.Time) * World :=
  let (o, w1) := cachedIssues "open" 0 newerThan w in
  let open :=
    match failure o with Some _ => [] | None => items o end in
  let age1 :=
    match failure o with
    | Some _ => now
    | None => if time.Before (stamp o) now then stamp o else now
    end in
  if negb (NeedsClosed fs) then (open, [], age1, w1)
  else
    let (c, w2) :=
      cachedIssues "closed" (MaxClosedUpdateAge h) newerThan w1 in
    let age2 := if time.Before (stamp c) age1 then stamp c else age1 in
    (open, items c, age2, w2).

(** The loop that collects the issues to filter: the debug filter, then the items whose
    URL was not seen before. *)
Fixpoint uniqueIssues `{Platform} (h : Engine) (seen : gset string)
    (l : list GitHubItem) : list GitHubItem :=
  match l with
  | [] => []
  | i :: l' =>
      if skippedByDebug h i then uniqueIssues h seen l'
      else if bool_decide (GetURL i ∈ seen) then uniqueIssues h seen l'
      else i :: uniqueIssues h ({[ GetURL i ]} ∪ seen) l'
  end.

(** The latest update among the items, from the zero time on. *)
Definition latestUpdate `{Platform} (l : list GitHubItem) : time.Time :=
  fold_left
    (fun t i => if time.After (GetUpdatedAt i) t then GetUpdatedAt i else t)
    l time.zero.

(** A loop that appends the conversations of the items that pass. *)
Fixpoint collect `{Backend} (body : GitHubItem -> World -> option Conversation * World)
    (l : list GitHubItem) (w : World) : list Conversation * World :=
  match l with
  | [] => ([], w)
  | i :: l' =>
      let (r, w1) := body i w in
      let (rest, w2) := collect body l' w1 in
      (match r with Some co => co :: rest | None => rest end, w2)
  end.

(** Search for GitHub issues: the conversations, [age] and the error. *)
Definition SearchIssues `{Backend} (h : Engine) (now : time.Time)
    (fs : list Filter) (newerThan : time.Time) (hidden : bool) (w : World)
    : (list Conversation * time.Time * option error) * World :=
  let fs := openByDefault fs in
  let '(open, closed, age, w1) := fetchIssues h now fs newerThan w in
  let issues := uniqueIssues h ∅ (open ++ closed) in
  let mostRecentUpdate := latestUpdate issues in
  let (filtered, w2) :=
    collect (issueBody h fs newerThan hidden age mostRecentUpdate) issues w1 in
  (filtered, age, None, w2).

(** The two listing fetches of [SearchPullRequests]; here a failed closed
    fetch leaves [closed] and [age] alone as well. *)
Definition fetchPRs `{Backend} (h : Engine) (now : time.Time)
    (fs : list Filter) (newerThan : time.Time) (w : World)
    : (list GitHubItem * list GitHubItem * time.Time) * World :=
  let (o, w1) := cachedPRs "open" 0 newerThan w in
  let open :=
    match failure o with Some _ => [] | None => items o end in
  let age1 :=
    match failure o with
    | Some _ => now
    | None => if time.Before (stamp o) now then stamp o else now
    end in
  if negb (NeedsClosed fs) then (open, [], age1, w1)
  else
    let (c, w2) := cachedPRs "closed" (MaxClosedUpdateAge h) newerThan w1 in
    match failure c with
    | Some _ => (open, [], age1, w2)
    | None =>
        (open, items c,
         if time.Before (stamp c) age1 then stamp c else age1, w2)
    end.

(** The loop that collects [prs]: only the debug filter. *)
Definition inspectedPRs `{Platform} (h : Engine) (l : list GitHubItem)
    : list GitHubItem :=
  filter (fun pr => skippedByDebug h pr = false) l.

(** Search for pull requests: the conversations, [latest] and the error. *)
Definition SearchPullRequests `{Backend} (h : Engine) (now : time.Time)
    (fs : list Filter) (newerThan : time.Time) (hidden : bool) (w : World)
    : (list Conversation * time.Time * option error) * World :=
  let fs := openByDefault fs in
  let '(open, closed, age, w1) := fetchPRs h now fs newerThan w in
  let latest := latestUpdate (open ++ closed) in
  let prs := inspectedPRs h (open ++ closed) in
  let (filtered, w2) := collect (prBody h fs newerThan hidden age) prs w1 in
  (filtered, latest, None, w2).

(** Search for GitHub issues or PR's. [nowIssues] and [nowPRs] are the
    readings of [time.Now()] in the two searches. *)
Definition SearchAny `{Backend} (h : Engine) (nowIssues nowPRs : time.Time)
    (fs : list Filter) (newerThan : time.Time) (hidden : bool) (w : World)
    : (list Conversation * time.Time * option error) * World :=
  let '(cs, ts, err, w1) := SearchIssues h nowIssues fs newerThan hidden w in
  match err with
  | Some e => (cs, ts, Some e, w1)
  | None =>
      let '(pcs, pts, err, w2) :=
        SearchPullRequests h nowPRs fs newerThan hidden w1 in
      match err with
      | Some e => (cs, ts, Some e, w2)
      | None => (cs ++ pcs, if time.After pts ts then pts else ts, None, w2)
      end
  end.

End hubbub.

(** ** pkg/updater *)

Module updater.

(** The fields of [triage.CollectionResult] the updater reads; the rule
    results are opaque to it. *)
Record CollectionResult (Outcome : Type) : Type := mkResult {
  Created : time.Time;
  OldestInput : time.Time;
  RuleResults : Outcome
}.

Arguments Created {Outcome} _.
Arguments OldestInput {Outcome} _.
Arguments RuleResults {Outcome} _.
Arguments mkResult {Outcome} _ _ _.

(** [triage.Collection]. *)
Record Collection : Type := mkCollection {
  ID : string;
  UsedForStats : bool
}.

(** Minimum age to flush to avoid bad behavior. *)
Definition minFlushAge : time.Duration := 5 * time.Second.

(** The fields of [Updater] that decide and record refreshes. The two
    request maps only ever hold times; the cache only holds results that
    [update] stored. *)
Record Updater (Outcome : Type) : Type := mkUpdater {
  maxRefresh : time.Duration;
  minRefresh : time.Duration;
  cache : gmap string (CollectionResult Outcome);
  lastRequest : gmap string time.Time;
  secondLastRequest : gmap string time.Time;
  startTime : time.Time;
  updateCycles : Z
}.

Arguments maxRefresh {Outcome} _.
Arguments minRefresh {Outcome} _.
Arguments cache {Outcome} _.
Arguments lastRequest {Outcome} _.
Arguments secondLastRequest {Outcome} _.
Arguments startTime {Outcome} _.
Arguments updateCycles {Outcome} _.
Arguments mkUpdater {Outcome} _ _ _ _ _ _ _.

(** lastRequested is the last time someone requested to view a
    collection. *)
Definition lastRequested {O : Type} (u : Updater O) (id : string) : time.Time :=
  match lastRequest u !! id with
  | Some lr => lr
  | None => time.zero
  end.

(** secondLastRequested is the second last time someone requested to view
    a collection. *)
Definition secondLastRequested {O : Type} (u : Updater O) (id : string)
    : time.Time :=
  match secondLastRequest u !! id with
  | Some lr => lr
  | None => startTime u
  end.

(** recordAccess records stats on collection accesses. *)
Definition recordAccess {O : Type} (now : time.Time) (u : Updater O)
    (id : string) : Updater O :=
  let last := lastRequested u id in
  {| maxRefresh := maxRefresh u;
     minRefresh := minRefresh u;
     cache := cache u;
     lastRequest := <[id := now]> (lastRequest u);
     secondLastRequest :=
       if negb (time.IsZero last) then <[id := last]> (secondLastRequest u)
       else secondLastRequest u;
     startTime := startTime u;
     updateCycles := updateCycles u |}.

(** The errors [shouldUpdate] returns, one per [fmt.Errorf]. *)
Inductive reason : Type :=
| CycleCount (n : Z)
| NotCached
| OlderThanMaxRefresh
| ForceMode
| TooOldForPopularity.

(** The age a result has to exceed for the refresh based on popularity. *)
Definition needAge {O : Type} (nowRequest : time.Time) (u : Updater O)
    (id : string) : time.Duration :=
  let requestAge := time.Since nowRequest (lastRequested u id) in
  let secondRequestDiff :=
    time.Sub (lastRequested u id) (secondLastRequested u id) in
  time.dadd (time.ddiv (time.dadd requestAge secondRequestDiff) 2)
            (minRefresh u).

(** The largest age of a result that is not refreshed for its age alone. *)
Definition maxAge {O : Type} (u : Updater O) (usedForStats : bool)
    : time.Duration :=
  if usedForStats then time.dmul (maxRefresh u) 3 else maxRefresh u.

(** shouldUpdate returns an error if a collection needs an update.
    [nowResult] and [nowRequest] are the readings of [time.Now()] for the
    age of the result and for the age of the last request. *)
Definition shouldUpdate {O : Type} (nowResult nowRequest : time.Time)
    (u : Updater O) (id : string) (usedForStats force : bool)
    : option reason :=
  if updateCycles u <? 2 then Some (CycleCount (updateCycles u))
  else
    match cache u !! id with
    | None => Some NotCached
    | Some result =>
        let resultAge := time.Since nowResult (Created result) in
        if maxAge u usedForStats <? resultAge then Some OlderThanMaxRefresh
        else if force then Some ForceMode
        else if time.IsZero (lastRequested u id) then None
        else if resultAge <? minRefresh u then None
        else if (needAge nowRequest u id <? resultAge) && negb usedForStats
        then Some TooOldForPopularity
        else None
    end.

(** [update]: [executed] is what [u.party.ExecuteCollection] returned, the
    result (not nil when there is no error) and the error. The cache is
    written when there is no error. *)
Definition update {O : Type} (u : Updater O) (s : Collection)
    (executed : CollectionResult O * option hubbub.error)
    : Updater O * option hubbub.error :=
  match snd executed with
  | Some err => (u, Some err)
  | None =>
      ({| maxRefresh := maxRefresh u;
          minRefresh := minRefresh u;
          cache := <[ID s := fst executed]> (cache u);
          lastRequest := lastRequest u;
          secondLastRequest := secondLastRequest u;
          startTime := startTime u;
          updateCycles := updateCycles u |}, None)
  end.

(** Run a single collection, optionally forcing an update: whether an
    update ran, and its error. [looked] is what [LookupCollection]
    returned. *)
Definition RefreshCollection {O : Type} (nowResult nowRequest : time.Time)
    (u : Updater O) (looked : Collection * option hubbub.error)
    (executed : CollectionResult O * option hubbub.error) (force : bool)
    : Updater O * (bool * option hubbub.error) :=
  match snd looked with
  | Some err => (u, (false, Some err))
  | None =>
      let s := fst looked in
      match shouldUpdate nowResult nowRequest u (ID s) (UsedForStats s) force with
      | None => (u, (false, None))
      | Some _ =>
          let (u', err) := update u s executed in
          (u', (true, err))
      end
  end.

End updater.

(** * Vocabulary of the properties *)

Module view.

Import hubbub.

(** A comment that counts as a member response: its author is no bot and
    is a member. *)
Definition memberComment `{Platform} (h : Engine) (c : Comment) : bool :=
  negb (isBot (Comment_User c))
  && isMember h (GetLogin (Comment_User c)) (Comment_AuthorAssoc c).

(** A comment of the item's author that is no bot. *)
Definition authorComment `{Platform} (i : GitHubItem) (c : Comment) : bool :=
  negb (isBot (Comment_User c))
  && String.eqb (GetLogin (Comment_User c)) (GetLogin (GetUser i)).

(** The response times and the hold time of a conversation in the making,
    with the time of the last question. *)
Record times : Type := mkTimes {
  tAuthor : time.Time;
  tMember : time.Time;
  tHold : time.Duration;
  tQuestion : time.Time
}.

Definition timesOf `{Platform} (st : loopState) : times :=
  {| tAuthor := LatestAuthorResponse (co st);
     tMember := LatestMemberResponse (co st);
     tHold := AccumulatedHoldTime (co st);
     tQuestion := lastQuestion st |}.

(** What one comment does to them, read off [commentStep]. *)
Definition stepTimes `{Platform} (h : Engine) (i : GitHubItem)
    (authorIsMember : bool) (t : times) (c : Comment) : times :=
  if isBot (Comment_User c) then t
  else
    let a := if authorComment i c then Comment_Created c else tAuthor t in
    let q := if asksQuestion (Comment_Body c) then Comment_Created c
             else tQuestion t in
    if memberComment h c
    then {| tAuthor := a;
            tMember := Comment_Created c;
            tHold :=
              if negb (time.After (tMember t) a) && negb authorIsMember
              then time.dadd (tHold t) (time.Sub (Comment_Created c) a)
              else tHold t;
            tQuestion := q |}
    else {| tAuthor := a; tMember := tMember t; tHold := tHold t;
            tQuestion := q |}.

(** The response times lie between the creation of the item and the time
    [T] reached so far, and the hold time is no more than what separates
    the later of them from the creation. *)
Definition holdInv (created T : time.Time) (t : times) : Prop :=
  created <= tAuthor t <= T
  /\ created <= tMember t <= T
  /\ 0 <= tHold t <= Z.max (tAuthor t) (tMember t) - created.

(** The [send] and [recv] tags among the tags. *)
Definition responseTags (ts : list tag.Tag) : list tag.Tag :=
  List.filter (fun t => tag.eqb t tag.Send || tag.eqb t tag.Recv) ts.

(** The claim about where the latest member response starts, in the words
    of the specification: at the item's creation iff the author is a
    member, otherwise at the zero time. *)
Definition claimedMemberStart `{Platform} (h : Engine) (i : GitHubItem)
    : time.Time :=
  if isMember h (GetLogin (GetUser i)) (GetAuthorAssociation i)
  then GetCreatedAt i else time.zero.

(** The claim about questions, in the words of the specification: after
    stripping fenced code blocks and details blocks from the body, some
    line not starting with [>] contains a question mark. *)
Definition claimedQuestion (body : string) : bool :=
  existsb
    (fun line => negb (gostrings.HasPrefix line ">")
                 && gostrings.Contains line "?")
    (gostrings.Split (parseRefs_text body) newline).


(** What a search returned: the conversations, the timestamp, the error. *)
Definition found {A B C W : Type} (r : A * B * C * W) : A := fst (fst (fst r)).
Definition stampOf {A B C W : Type} (r : A * B * C * W) : B := snd (fst (fst r)).
Definition errorOf {A B C W : Type} (r : A * B * C * W) : C := snd (fst r).

(** The claim about when a collection is to be updated, in the words of
    the specification: the cycle count is below two, or there is no cached
    result, or the result is older than the maximum refresh age (tripled
    for a collection used for statistics), or the update is forced, or the
    collection was requested, the result is at least as old as the minimum
    refresh age, and it is older than the age the requests call for. *)
Definition claimedUpdate {O : Type} (nowResult nowRequest : time.Time)
    (u : updater.Updater O) (id : string) (usedForStats force : bool)
    : Prop :=
  updater.updateCycles u < 2
  \/ updater.cache u !! id = None
  \/ exists result,
       updater.cache u !! id = Some result
       /\ let age := time.Since nowResult (updater.Created result) in
          (if usedForStats then time.dmul (updater.maxRefresh u) 3
           else updater.maxRefresh u) < age
          \/ force = true
          \/ (updater.lastRequested u id <> time.zero
              /\ updater.minRefresh u <= age
              /\ time.dadd
                   (time.ddiv
                      (time.dadd
                         (time.Since nowRequest (updater.lastRequested u id))
                         (time.Sub (updater.lastRequested u id)
                            (updater.secondLastRequested u id))) 2)
                   (updater.minRefresh u) < age).

End view.

(** * Sample inputs *)

(** A cache with one stored thing, stamped by [setMem]. *)
Definition sampleThing : persist.Thing nat :=
  {| persist.Created := time.zero; persist.Contents := 7%nat |}.

Definition sampleCache : gmap string (persist.Item nat) :=
  persist.cacheSet 2000 persist.createMem "issues-open"
    (persist.PtrThing
       (Some {| persist.Created := 1000; persist.Contents := 7%nat |}))
    persist.MaxLoadAge.


(** A platform whose users are their logins; a login ending in a bot
    suffix is a bot. *)
Definition demoPlatform : hubbub.Platform :=
  {| hubbub.github_User := string;
     hubbub.Login := fun u => Some u;
     hubbub.isBot := fun u =>
       match u with
       | Some u => gostrings.Contains u "-bot"
       | None => false
       end;
     hubbub.github_Milestone := string;
     hubbub.MilestoneState := fun m => m;
     hubbub.github_Reactions := Z;
     hubbub.GetTotalCount := fun r => default 0 r;
     hubbub.reactions := fun r => ∅ |}.

Definition demoEngine : hubbub.Engine :=
  {| hubbub.members := {[ "maintainer"%string := true ]};
     hubbub.memberRoles := {[ "member"%string := true; "owner"%string := true ]};
     hubbub.debug := ∅;
     hubbub.MaxClosedUpdateAge := 14 * 24 * time.Hour |}.

(** An open issue created at [created] by [author]. *)
Definition demoIssue (author assoc : string) (created : time.Time)
    : @hubbub.GitHubItem demoPlatform :=
  @hubbub.mkItem demoPlatform None assoc "body" 4
    "https://github.com/org/project/issues/7" created 70 None 7 time.zero
    "open" "title" "https://api.github.com/repos/org/project/issues/7"
    created (Some author).

Definition demoComment (author assoc : string) (created : time.Time)
    (body : string) : @hubbub.Comment demoPlatform :=
  @hubbub.mkComment demoPlatform (Some author) created created body assoc None.

Definition demoClock (now : time.Time) : hubbub.Clock :=
  {| hubbub.nowCurrentHold := now; hubbub.nowAccumulated := now;
     hubbub.nowAge := now |}.

Definition lf : string := String hubbub.newline EmptyString.

(** A question inside a fenced code block, and one in a quoted line that
    is indented. *)
Definition fencedQuestion : string := "```" ++ lf ++ "why?" ++ lf ++ "```".
Definition indentedQuote : string := "  > why?" ++ lf ++ "because".

(** An issue by an outsider, created at time 100, with the comments of the
    hold-time scenario: the author at 100, a member at 110, the author at
    130 and a member at 160. *)
Definition outsiderIssue : @hubbub.GitHubItem demoPlatform :=
  demoIssue "alice" "NONE" 100.

Definition memberIssue : @hubbub.GitHubItem demoPlatform :=
  demoIssue "maintainer" "MEMBER" 100.

Definition holdComments : list (@hubbub.Comment demoPlatform) :=
  [ demoComment "alice" "NONE" 100 "it fails";
    demoComment "maintainer" "NONE" 110 "which version?";
    demoComment "alice" "NONE" 130 "the latest";
    demoComment "bob" "MEMBER" 160 "fixed" ].

(** The time of the last question after a first comment with the given
    body, made at time 500 by an outsider. *)
Definition questionAfter (body : string) : result time.Time :=
  let* co0 := hubbub.newConversation (H := demoPlatform) demoEngine
                outsiderIssue 0 in
  let* st := hubbub.commentStep demoEngine outsiderIssue false
               (hubbub.initLoop co0) (demoComment "carol" "NONE" 500 body) in
  Ok (hubbub.lastQuestion st).

(** A backend without state: the listings are given, and every item that
    is inspected yields the conversation the builder starts from. *)
Definition demoBody (h : hubbub.Engine) (age : time.Time)
    (i : @hubbub.GitHubItem demoPlatform) (w : unit)
    : option (@hubbub.Conversation demoPlatform) * unit :=
  (match hubbub.newConversation h i age with
   | Ok co => Some co
   | Panic _ => None
   end, w).

Definition demoBackend
    (openIssues closedIssues openPRs closedPRs : @hubbub.fetched demoPlatform)
    : @hubbub.Backend demoPlatform :=
  {| hubbub.World := unit;
     hubbub.openByDefault := fun fs => fs;
     hubbub.cachedIssues := fun state _ _ w =>
       (if String.eqb state "open" then openIssues else closedIssues, w);
     hubbub.cachedPRs := fun state _ _ w =>
       (if String.eqb state "open" then openPRs else closedPRs, w);
     hubbub.issueBody := fun h _ _ _ age _ i w => demoBody h age i w;
     hubbub.prBody := fun h _ _ _ age i w => demoBody h age i w |}.

Definition listing (l : list (@hubbub.GitHubItem demoPlatform))
    (t : time.Time) : @hubbub.fetched demoPlatform :=
  @hubbub.mkFetched demoPlatform l t None.


(** A pull request updated at time 90. *)
Definition demoPR : @hubbub.GitHubItem demoPlatform :=
  @hubbub.mkItem demoPlatform None "NONE" "body" 0
    "https://github.com/org/project/pull/9" 80 90 None 9 time.zero
    "open" "title" "https://api.github.com/repos/org/project/pulls/9"
    90 (Some "alice"%string).

(** Issues fetched at time 50, pull requests fetched at time 70. *)
Definition staggeredBackend : @hubbub.Backend demoPlatform :=
  demoBackend (listing [outsiderIssue] 50) (listing [] 0)
              (listing [demoPR] 70) (listing [] 0).


(** The same item is listed as open and as closed. *)
Definition overlappingBackend : @hubbub.Backend demoPlatform :=
  demoBackend (listing [outsiderIssue] 50) (listing [outsiderIssue] 60)
              (listing [demoPR] 50) (listing [demoPR] 60).

Definition anyState : hubbub.Filter :=
  {| hubbub.ClosedCommenters := ""; hubbub.ClosedComments := "";
     hubbub.Filter_State := "all" |}.

(** An updater past its warm-up, with a result of time 0 for the collection
    [stats], requested at times 390 and 394 (in seconds). *)
Definition demoUpdater : updater.Updater unit :=
  {| updater.maxRefresh := 600 * time.Second;
     updater.minRefresh := 30 * time.Second;
     updater.cache :=
       {[ "stats"%string := updater.mkResult time.zero time.zero tt ]};
     updater.lastRequest := {[ "stats"%string := 394 * time.Second ]};
     updater.secondLastRequest := {[ "stats"%string := 390 * time.Second ]};
     updater.startTime := time.zero;
     updater.updateCycles := 2 |}.

(** An issue closed at 200 seconds, with a comment 5 seconds and a comment
    45 seconds after that. *)
Definition closedIssue : @hubbub.GitHubItem demoPlatform :=
  @hubbub.mkItem demoPlatform None "NONE" "body" 2
    "https://github.com/org/project/issues/8" (100 * time.Second) 80 None 8
    (200 * time.Second) "closed" "title"
    "https://api.github.com/repos/org/project/issues/8"
    (245 * time.Second) (Some "alice"%string).

Definition closedComments : list (@hubbub.Comment demoPlatform) :=
  [ demoComment "alice" "NONE" (205 * time.Second) "thanks";
    demoComment "dave" "NONE" (245 * time.Second) "same here" ].


(** * Further vocabulary *)

Module tally.

Import hubbub view.

(** The comments the loop of [conversation] does not skip. *)
Definition heard `{Platform} (cs : list Comment) : list Comment :=
  List.filter (fun c => negb (isBot (Comment_User c))) cs.

(** The logins of a list of users, as [GetLogin] gives them. *)
Definition logins `{Platform} (us : list (option github_User)) : list string :=
  map GetLogin us.

Definition commenterLogin `{Platform} (c : Comment) : string :=
  GetLogin (Comment_User c).

(** A comment that is heard and was made more than 30 seconds after the
    item was closed. *)
Definition closedHeard `{Platform} (i : GitHubItem) (c : Comment) : bool :=
  negb (isBot (Comment_User c)) && afterClosed i c.

(** A comment that is heard and whose author has the login of the
    assignee. *)
Definition assigneeComment `{Platform} (i : GitHubItem) (c : Comment) : bool :=
  negb (isBot (Comment_User c))
  && String.eqb (GetLogin (Comment_User c)) (GetLogin (GetAssignee i)).

(** A comment that is heard and has a positive count of reactions. *)
Definition reacted `{Platform} (c : Comment) : bool :=
  negb (isBot (Comment_User c)) && (0 <? GetTotalCount (Comment_Reactions c)).

Definition Zsum (l : list Z) : Z := fold_right Z.add 0 l.

(** The time of the last comment that satisfies [p], or [t0]. *)
Definition lastTime `{Platform} (p : Comment -> bool) (t0 : time.Time)
    (cs : list Comment) : time.Time :=
  fold_left (fun t c => if p c then Comment_Created c else t) cs t0.

Definition authorTime `{Platform} (i : GitHubItem) (cs : list Comment)
    : time.Time :=
  lastTime (authorComment i) (GetCreatedAt i) cs.

Definition memberTime `{Platform} (h : Engine) (i : GitHubItem)
    (cs : list Comment) : time.Time :=
  lastTime (memberComment h)
    (if isMember h (GetLogin (GetUser i)) (GetAuthorAssociation i)
     then time.zero else GetCreatedAt i) cs.

Definition assigneeTime `{Platform} (i : GitHubItem) (cs : list Comment)
    : time.Time :=
  lastTime (assigneeComment i) time.zero cs.

Definition questionTime `{Platform} (cs : list Comment) : time.Time :=
  lastTime (fun c => negb (isBot (Comment_User c))
                     && asksQuestion (Comment_Body c)) time.zero cs.

(** The tag for the author of the last comment, as [conversation] derives
    it from the last element of the comments, bots included. *)
Definition lastTags `{Platform} (i : GitHubItem) (cs : list Comment)
    : list tag.Tag :=
  match last cs with
  | Some l =>
      let assoc := gostrings.ToLower (Comment_AuthorAssoc l) in
      if String.eqb assoc "none"
      then if String.eqb (GetLogin (Comment_User l)) (GetLogin (GetUser i))
           then [tag.AuthorLast] else []
      else [tag.RoleLast assoc]
  | None => []
  end.

(** The tags of a conversation as a function of the engine's members, the
    item and its comments, in the order [conversation] appends them. *)
Definition derivedTags `{Platform} (h : Engine) (i : GitHubItem)
    (cs : list Comment) : list tag.Tag :=
  (match GetAssignee i with Some _ => [tag.Assigned] | None => [] end)
  ++ (if existsb (memberComment h) cs then [tag.Commented] else [])
  ++ (if time.After (memberTime h i cs) (authorTime i cs) then [tag.Send]
      else if negb (isMember h (GetLogin (GetUser i)) (GetAuthorAssociation i))
      then [tag.Recv] else [])
  ++ (if time.After (questionTime cs) (memberTime h i cs)
      then [tag.RecvQ] else [])
  ++ (match GetMilestone i with
      | Some ms => if String.eqb (MilestoneState ms) "open"
                   then [tag.OpenMilestone] else []
      | None => []
      end)
  ++ (if negb (time.IsZero (assigneeTime i cs))
      then [tag.AssigneeUpdated] else [])
  ++ lastTags i cs
  ++ (if String.eqb (GetState i) "closed" then [tag.Closed] else []).

(** The comments are well formed for the loop: whoever is heard has a
    login. *)
Definition loginsPresent `{Platform} (cs : list Comment) : Prop :=
  forall c, In c (heard cs) -> is_ok (derefLogin (Comment_User c)) = true.

End tally.

(** * The calls of parseRefs in the loop over the comments *)

Module refs.

Import hubbub.

Section Refs.

Context `{Platform} {R : Type}.

(** [parseRefs text co t]. What it writes, the cross references of the
    conversation and the engine's table of mention times, is a state [R]
    of its own, which nothing else in [conversation] reads or writes. The
    function itself, with its regular expressions and the engine's
    [mtimeRef] and [updateMtimeLong], is not modelled. *)
Variable parseRefs : string -> Conversation -> time.Time -> R -> R.

(** One turn of the loop over the comments, with the call of [parseRefs]
    that comes first. *)
Definition commentStepRefs (h : Engine) (i : GitHubItem)
    (authorIsMember : bool) (st : loopState) (r : R) (c : Comment)
    : result (loopState * R) :=
  let r1 := parseRefs (Comment_Body c) (co st) (Comment_Updated c) r in
  let* st1 := commentStep h i authorIsMember st c in
  Ok (st1, r1).

Fixpoint commentLoopRefs (h : Engine) (i : GitHubItem)
    (authorIsMember : bool) (st : loopState) (r : R) (cs : list Comment)
    : result (loopState * R) :=
  match cs with
  | [] => Ok (st, r)
  | c :: cs' =>
      let* sr := commentStepRefs h i authorIsMember st r c in
      commentLoopRefs h i authorIsMember (fst sr) (snd sr) cs'
  end.

(** Of the conversation, [parseRefs] reads the number, the organization,
    the project and the URL. *)
Definition readsIdentity : Prop :=
  forall text co1 co2 t r,
    ID co1 = ID co2 -> Organization co1 = Organization co2 ->
    Project co1 = Project co2 -> URL co1 = URL co2 ->
    parseRefs text co1 t r = parseRefs text co2 t r.

End Refs.

End refs.

(** * The dispatch of the enrichments (needComments, needTimeline,
      needReviews) *)

Module dispatch.

Import hubbub.

(** What these functions read of the tag a filter matches
    ([matchTag(tag.Tags, f.TagRegex(), f.TagNegate())], defined elsewhere):
    whether it needs comments, the timeline, the reviews. *)
Record TagNeeds : Type := mkNeeds {
  NeedsComments : bool;
  NeedsTimeline : bool;
  NeedsReviews : bool
}.

(** A filter as these functions read it: the fields [NeedsClosed] reads,
    three more, and the tag that [matchTag] finds when the filter has a
    tag expression and it matches one. *)
Record FilterNeeds : Type := mkFilterNeeds {
  base : Filter;
  Responded : string;
  Commenters : string;
  Prioritized : string;
  matched : option TagNeeds
}.

Definition nonEmpty (s : string) : bool := negb (String.eqb s "").

Definition tagNeeds (p : TagNeeds -> bool) (f : FilterNeeds) : bool :=
  match matched f with Some t => p t | None => false end.

(** [i.GetUpdatedAt() == i.GetCreatedAt()]: both times are decoded from
    the platform's answer in the same way, so that they are equal values
    exactly when they are the same instant. *)
Definition neverUpdated `{Platform} (i : GitHubItem) : bool :=
  GetUpdatedAt i =? GetCreatedAt i.

Definition isOpen `{Platform} (i : GitHubItem) : bool :=
  String.eqb (GetState i) "open".

(** [needComments], as in the revision of the searches that takes its
    arguments one by one. *)
Fixpoint needComments `{Platform} (i : GitHubItem) (fs : list FilterNeeds)
    : bool :=
  match fs with
  | f :: fs' =>
      if tagNeeds NeedsComments f then true
      else if nonEmpty (ClosedCommenters (base f))
              || nonEmpty (ClosedComments (base f)) then true
      else if nonEmpty (Responded f) || nonEmpty (Commenters f) then true
      else needComments i fs'
  | [] =>
      if negb (isOpen i) then false
      else true
  end.

(** [needComments], as in the revision that takes search parameters. *)
Fixpoint needComments_sp `{Platform} (i : GitHubItem) (fs : list FilterNeeds)
    : bool :=
  match fs with
  | f :: fs' =>
      if tagNeeds NeedsComments f then true
      else if nonEmpty (ClosedCommenters (base f))
              || nonEmpty (ClosedComments (base f)) then true
      else if nonEmpty (Responded f) || nonEmpty (Commenters f) then true
      else needComments_sp i fs'
  | [] => isOpen i
  end.

(** The loop over the filters of [needTimeline]: whether it returns. *)
Fixpoint timelineDemanded (fs : list FilterNeeds) : bool :=
  match fs with
  | f :: fs' =>
      if tagNeeds NeedsTimeline f then true
      else if nonEmpty (Prioritized f) then true
      else timelineDemanded fs'
  | [] => false
  end.

Definition needTimeline `{Platform} (i : GitHubItem) (fs : list FilterNeeds)
    (pr hidden : bool) : bool :=
  match GetMilestone i with
  | Some _ => true
  | None =>
      if negb (isOpen i) then false
      else if neverUpdated i then false
      else if pr then true
      else if timelineDemanded fs then true
      else if hidden then false
      else true
  end.

Definition needTimeline_sp `{Platform} (i : GitHubItem)
    (fs : list FilterNeeds) (pr hidden : bool) : bool :=
  match GetMilestone i with
  | Some _ => true
  | None =>
      if negb (isOpen i) then false
      else if neverUpdated i then false
      else if pr then true
      else if timelineDemanded fs then true
      else negb hidden
  end.

(** The loop over the filters of [needReviews]: whether it returns. *)
Fixpoint reviewsDemanded (fs : list FilterNeeds) : bool :=
  match fs with
  | f :: fs' =>
      if tagNeeds NeedsReviews f then true else reviewsDemanded fs'
  | [] => false
  end.

(** [needReviews], the same in both revisions. *)
Definition needReviews `{Platform} (i : GitHubItem) (fs : list FilterNeeds)
    (hidden : bool) : bool :=
  if negb (isOpen i) then false
  else if neverUpdated i then false
  else if hidden then false
  else if reviewsDemanded fs then true
  else true.

End dispatch.

(** * The updater's requests, cycles and persistence *)

Module service.

Import updater.

(** What one call of [RefreshCollection] observes of the party and of the
    clock: the answer of [LookupCollection], the answer of
    [ExecuteCollection] for a given [newerThan], and the two readings of
    the clock that [shouldUpdate] takes. *)
Record observed (O : Type) : Type := mkObserved {
  looked : Collection * option hubbub.error;
  executed : time.Time -> CollectionResult O * option hubbub.error;
  nowResult : time.Time;
  nowRequest : time.Time
}.

Arguments looked {O} _.
Arguments executed {O} _ _.
Arguments nowResult {O} _.
Arguments nowRequest {O} _.
Arguments mkObserved {O} _ _ _ _.

Definition refresh {O : Type} (u : Updater O) (ob : observed O)
    (newerThan : time.Time) (force : bool)
    : Updater O * (bool * option hubbub.error) :=
  RefreshCollection (nowResult ob) (nowRequest ob) u (looked ob)
    (executed ob newerThan) force.

(** Lookup results for a given metric: the updater afterwards and the
    result returned. [now] is the reading of the clock of the deferred
    [recordAccess]. *)
Definition Lookup {O : Type} (now : time.Time) (u : Updater O) (id : string)
    (blocking : bool) (ob : observed O)
    : Updater O * option (CollectionResult O) :=
  let u1 :=
    match cache u !! id with
    | None => if blocking then fst (refresh u ob time.zero true) else u
    | Some _ => u
    end in
  (recordAccess now u1 id, cache u1 !! id).

(** [ForceRefresh]. [start] is its reading of the clock, [nowLookup] the
    one of the access that [Lookup] records, [nowDeferred] the one of its
    own deferred [recordAccess]. *)
Definition ForceRefresh {O : Type} (start nowLookup nowDeferred : time.Time)
    (u : Updater O) (id : string) (ob : observed O)
    : Updater O * option (CollectionResult O) :=
  match lastRequest u !! id with
  | None =>
      let (u1, r) := Lookup nowLookup u id true ob in
      (recordAccess nowDeferred u1 id, r)
  | Some _ =>
      (* At the risk of ignoring the user, this seems like a reasonable
         delta *)
      let newerThan := time.Add start (-1 * time.Second) in
      let u1 := fst (refresh u ob newerThan true) in
      (recordAccess nowDeferred u1 id, cache u1 !! id)
  end.

(** The loop of [RunOnce] over the collections, each with what its refresh
    observes: the updater, whether a collection was updated, and the ids of
    the collections that failed. *)
Fixpoint runAll {O : Type} (u : Updater O) (newerThan : time.Time)
    (force : bool) (sts : list (Collection * observed O))
    : Updater O * bool * list string :=
  match sts with
  | [] => (u, false, [])
  | (s, ob) :: rest =>
      let (u1, r) := refresh u ob newerThan force in
      let '(u2, updated, failed) := runAll u1 newerThan force rest in
      match snd r with
      | Some _ => (u2, updated, ID s :: failed)
      | None => (u2, fst r || updated, failed)
      end
  end.

(** Whether the forced refresh of a listed collection ends in an error:
    the collection is not found, or its execution fails. *)
Definition failing {O : Type} (newerThan : time.Time)
    (c : Collection * observed O) : bool :=
  match snd (looked (snd c)), snd (executed (snd c) newerThan) with
  | None, None => false
  | _, _ => true
  end.

Definition setStartTime {O : Type} (t : time.Time) (u : Updater O)
    : Updater O :=
  {| maxRefresh := maxRefresh u; minRefresh := minRefresh u;
     cache := cache u; lastRequest := lastRequest u;
     secondLastRequest := secondLastRequest u;
     startTime := t; updateCycles := updateCycles u |}.

Definition addCycle {O : Type} (u : Updater O) : Updater O :=
  {| maxRefresh := maxRefresh u; minRefresh := minRefresh u;
     cache := cache u; lastRequest := lastRequest u;
     secondLastRequest := secondLastRequest u;
     startTime := startTime u;
     updateCycles := time.wrap (updateCycles u + 1) |}.

(** The error [RunOnce] returns. *)
Inductive runError : Type :=
| ListFailed (err : hubbub.error)
| CollectionsFailed (failed : list string).

(** Run once, optionally forcing an update. [start] and [nowStarted] are
    the readings of the clock at the start and for the start time,
    [lastRun] the time of the last turn of [Loop], [listed] the answer of
    [ListCollections], with what the refresh of each collection observes. *)
Definition RunOnce {O : Type} (start nowStarted lastRun : time.Time)
    (u : Updater O)
    (listed : list (Collection * observed O) * option hubbub.error)
    (force : bool) : Updater O * (bool * option runError) :=
  match snd listed with
  | Some err => (u, (false, Some (ListFailed err)))
  | None =>
      let u1 := if time.IsZero lastRun then setStartTime nowStarted u else u in
      let force1 := if time.IsZero lastRun then true else force in
      let newerThan :=
        if updateCycles u1 =? 0 then time.zero
        else time.Add start (-2 * minFlushAge) in
      let '(u2, updated, failed) := runAll u1 newerThan force1 (fst listed) in
      let u3 := if updated then addCycle u2 else u2 in
      (u3, (updated,
            match failed with
            | [] => None
            | _ :: _ => Some (CollectionsFailed failed)
            end))
  end.

(** The fields of [Updater] that [Persist] and [shouldPersist] use. *)
Record persistence : Type := mkPersistence {
  persistStart : time.Time;
  lastPersist : time.Time
}.

(** [Persist] takes the advisory lock unless it is taken: the fields while
    [persistFunc] runs. [nowStart] is the reading of the clock. *)
Definition persistBegin (nowStart : time.Time) (p : persistence)
    : option persistence :=
  if negb (time.IsZero (persistStart p)) then None
  else Some {| persistStart := nowStart; lastPersist := lastPersist p |}.

(** The deferred function of [Persist]; [nowDone] is its reading of the
    clock. *)
Definition persistEnd (nowDone : time.Time) (p : persistence) : persistence :=
  {| persistStart := time.zero; lastPersist := nowDone |}.

(** [Persist]: the fields afterwards and the error; [saved] is what
    [persistFunc] returns. *)
Definition Persist (nowStart nowDone : time.Time) (p : persistence)
    (saved : option hubbub.error) : persistence * option hubbub.error :=
  match persistBegin nowStart p with
  | None => (p, Some "already persisting"%string)
  | Some running => (persistEnd nowDone running, saved)
  end.

(** [shouldPersist]. [now] is the reading of the clock, [drawn] the number
    that [rand.Intn] returns, of which only its sign is known here. *)
Definition shouldPersist (now : time.Time) (maxRefresh : time.Duration)
    (p : persistence) (updated : bool) (drawn : Z) : bool :=
  if negb (time.IsZero (persistStart p)) then false
  else if negb updated then false
  else
    let fuzz := time.dmul drawn time.Second in
    let cutoff := time.dadd maxRefresh fuzz in
    let sinceSave := time.Since now (lastPersist p) in
    if cutoff <? sinceSave then true else false.

End service.

(** * pkg/persist: the choice of the backend (persist.go) *)

Module backend.

(** Config is cache configuration. *)
Record Config : Type := mkConfig {
  Type_ : string;
  Path : string
}.

(** The constructors [New] chooses from; they are defined elsewhere. *)
Inductive constructor : Type :=
| NewMySQL
| NewCloudSQL
| NewPostgres
| NewDisk
| NewMemory.

Inductive newError (E : Type) : Type :=
| UnknownBackend (type : string)
| Failed (err : E).

Arguments UnknownBackend {E} _.
Arguments Failed {E} _.

(** [New]: the constructor called on the configuration, or the error for
    an unknown backend. *)
Definition chosen (type : string) : option constructor :=
  if String.eqb type "mysql" then Some NewMySQL
  else if String.eqb type "cloudsql" then Some NewCloudSQL
  else if String.eqb type "postgres" then Some NewPostgres
  else if String.eqb type "disk" || String.eqb type "" then Some NewDisk
  else if String.eqb type "memory" then Some NewMemory
  else None.

Definition New {C E : Type} (construct : constructor -> Config -> C + E)
    (cfg : Config) : C + newError E :=
  match chosen (Type_ cfg) with
  | Some k =>
      match construct k cfg with
      | inl c => inl c
      | inr e => inr (Failed e)
      end
  | None => inr (UnknownBackend (Type_ cfg))
  end.

(** The configuration [FromEnv] passes to [New]: [getenv] reads the
    environment, [defaultDiskPath] is [DefaultDiskPath(configPath,
    reposOverride)]. *)
Definition resolve (getenv : string -> string) (defaultDiskPath : string)
    (backend path : string) : Config :=
  let backend :=
    if String.eqb backend "" then getenv "PERSIST_BACKEND" else backend in
  let backend := if String.eqb backend "" then "disk"%string else backend in
  let path := if String.eqb path "" then getenv "PERSIST_PATH" else path in
  let path :=
    if String.eqb backend "disk" && String.eqb path ""
    then defaultDiskPath else path in
  {| Type_ := backend; Path := path |}.

(** FromEnv is shared magic between binaries. The error of [New] is
    wrapped with the backend and the path. *)
Definition FromEnv {C E : Type} (construct : constructor -> Config -> C + E)
    (getenv : string -> string) (defaultDiskPath : string)
    (backend path : string) : C + (Config * newError E) :=
  let cfg := resolve getenv defaultDiskPath backend path in
  match New construct cfg with
  | inl c => inl c
  | inr e => inr (cfg, e)
  end.

End backend.

(** * More sample inputs *)

(** Comments with reactions: three on the second, none on the others, and
    a bot in between. *)
Definition reactedComments : list (@hubbub.Comment demoPlatform) :=
  [ demoComment "alice" "NONE" 100 "it fails";
    @hubbub.mkComment demoPlatform (Some "bob"%string) 120 120 "same here"
      "NONE" (Some 3);
    @hubbub.mkComment demoPlatform (Some "stale-bot"%string) 130 130 "ping"
      "NONE" (Some 5);
    demoComment "bob" "NONE" 140 "any news?" ].

(** A filter on open items only. *)
Definition openOnly : hubbub.Filter :=
  {| hubbub.ClosedCommenters := ""; hubbub.ClosedComments := "";
     hubbub.Filter_State := "open" |}.

(** The collection [stats] and two more, and what their refresh observes
    at 500 seconds: [stats] and [daily] are found and executed, with a
    result as old as asked for; the execution of [weekly] fails. *)
Definition collection (id : string) : updater.Collection :=
  {| updater.ID := id; updater.UsedForStats := false |}.

Definition executedAt (id : string) : service.observed unit :=
  service.mkObserved (collection id, None)
    (fun newerThan => (updater.mkResult newerThan newerThan tt, None))
    (500 * time.Second) (500 * time.Second).

Definition brokenAt (id : string) : service.observed unit :=
  service.mkObserved (collection id, None)
    (fun newerThan =>
       (updater.mkResult time.zero time.zero tt, Some "rate limited"%string))
    (500 * time.Second) (500 * time.Second).

Definition demoListed
    : list (updater.Collection * service.observed unit)
      * option hubbub.error :=
  ([ (collection "stats", executedAt "stats");
     (collection "weekly", brokenAt "weekly");
     (collection "daily", executedAt "daily") ], None).

(** The persistence fields of an updater that saved at 100 seconds. *)
Definition demoPersistence : service.persistence :=
  {| service.persistStart := time.zero;
     service.lastPersist := 100 * time.Second |}.

(** A stand-in for [parseRefs] that keeps a record of its calls: the
    number of the conversation, the text and the time. *)
Definition recordedRefs (text : string) (co : @hubbub.Conversation demoPlatform)
    (t : time.Time) (r : list (Z * string * time.Time))
    : list (Z * string * time.Time) :=
  r ++ [(hubbub.ID co, text, t)].

(** The closed listings fail, yet come with an item and the timestamp 7. *)
Definition halfFailedBackend : @hubbub.Backend demoPlatform :=
  demoBackend (listing [outsiderIssue] 50)
    (@hubbub.mkFetched demoPlatform [closedIssue] 7
       (Some "rate limited"%string))
    (listing [demoPR] 50)
    (@hubbub.mkFetched demoPlatform [demoPR] 7 (Some "rate limited"%string)).
(** * Properties *)

(** ** The in-memory cache *)

Section CacheProperties.

Context {Payload : Type}.

Implicit Types (c : gmap string (persist.Item Payload)).
Implicit Types (th : persist.Thing Payload).

Lemma cacheGet_Some now c key x :
  persist.cacheGet now c key = Some x <->
  exists it, c !! key = Some it /\ persist.Expired now it = false
             /\ persist.Object it = x.
Proof.
  unfold persist.cacheGet. split.
  - destruct (c !! key) as [it|] eqn:Hk; [|discriminate].
    destruct (persist.Expired now it) eqn:He; [discriminate|].
    intros [= <-]. exists it. auto.
  - intros (it & -> & -> & <-). reflexivity.
Qed.

Lemma newerThanMem_Some now c key t th :
  persist.newerThanMem now c key t = Ok (Some th) <->
  persist.cacheGet now c key = Some (persist.PtrThing (Some th))
  /\ t <= persist.Created th.
Proof.
  unfold persist.newerThanMem, time.Before. split.
  - destruct (persist.cacheGet now c key) as [[[th'|]|]|]; try discriminate.
    destruct (Z.ltb_spec (persist.Created th') t); [discriminate|].
    intros [= <-]. auto.
  - intros [-> Hle].
    destruct (Z.ltb_spec (persist.Created th) t); [lia|reflexivity].
Qed.

(** C1. For every key and timestamp, [GetNewerThan] (the memory front,
    [newerThanMem]) returns a non-nil entry exactly when an entry is present
    under the key (stored and not expired) and its created timestamp is at
    least the requested one; and the created timestamp of whatever it
    returns is at least the requested one. *)
Theorem newerThanMem_returns_iff_present_and_fresh now c key t th :
  (persist.newerThanMem now c key t = Ok (Some th) <->
   exists it, c !! key = Some it
              /\ persist.Expired now it = false
              /\ persist.Object it = persist.PtrThing (Some th)
              /\ t <= persist.Created th)
  /\ (forall th', persist.newerThanMem now c key t = Ok (Some th') ->
                  t <= persist.Created th').
Proof.
  split.
  - rewrite newerThanMem_Some, cacheGet_Some. split.
    + intros [(it & Hk & He & Ho) Hle]. exists it. auto.
    + intros (it & Hk & He & Ho & Hle). split; [exists it|]; auto.
  - intros th' H. apply newerThanMem_Some in H. tauto.
Qed.

(** Every operation of the cache keeps the stored objects non-nil things. *)
Lemma holds_things_empty : persist.holds_things (@persist.createMem Payload).
Proof. intros k it H. unfold persist.createMem in H. by rewrite lookup_empty in H. Qed.

Lemma holds_things_setMem now nowSet c key o c' th' :
  persist.holds_things c ->
  persist.setMem now nowSet c key o = Ok (c', th') ->
  persist.holds_things c'.
Proof.
  intros Hc Hset k it Hk. unfold persist.setMem in Hset.
  destruct o as [th|]; [|discriminate].
  injection Hset as <- <-. unfold persist.cacheSet in Hk.
  destruct (decide (key = k)) as [->|Hne].
  - rewrite lookup_insert_eq in Hk. injection Hk as <-. simpl. eauto.
  - rewrite lookup_insert_ne in Hk by done. eauto.
Qed.

Lemma holds_things_delete c key :
  persist.holds_things c -> persist.holds_things (persist.cacheDelete c key).
Proof.
  intros Hc k it Hk. unfold persist.cacheDelete in Hk.
  apply lookup_delete_Some in Hk as [_ Hk]. eauto.
Qed.

Lemma holds_things_deleteOlderMem now c key t c' :
  persist.holds_things c ->
  persist.deleteOlderMem now c key t = Ok c' ->
  persist.holds_things c'.
Proof.
  intros Hc Hdel. unfold persist.deleteOlderMem, bind in Hdel.
  destruct (persist.newerThanMem now c key t) as [[th|]|]; try discriminate.
  - destruct (time.After (persist.Created th) t); injection Hdel as <-;
      auto using holds_things_delete.
  - injection Hdel as <-. auto using holds_things_delete.
Qed.

Lemma holds_things_janitor now c :
  persist.holds_things c ->
  persist.holds_things (persist.cacheDeleteExpired now c).
Proof.
  intros Hc k it Hk. unfold persist.cacheDeleteExpired in Hk.
  apply map_lookup_filter_Some in Hk as [Hk _]. eauto.
Qed.

Lemma populated_holds_things c : persist.populated c -> persist.holds_things c.
Proof.
  induction 1;
    eauto using holds_things_empty, holds_things_setMem,
                holds_things_deleteOlderMem, holds_things_janitor.
Qed.

Lemma newerThanMem_no_panic now c key t :
  persist.holds_things c -> is_ok (persist.newerThanMem now c key t) = true.
Proof.
  intros Hc. unfold persist.newerThanMem.
  destruct (persist.cacheGet now c key) as [x|] eqn:Hget; [|reflexivity].
  apply cacheGet_Some in Hget as (it & Hk & _ & <-).
  destruct (Hc _ _ Hk) as [th ->].
  destruct (time.Before _ _); reflexivity.
Qed.

(** C10. In a cache that was created empty and then populated only through
    [setMem] (with deletions by [deleteOlderMem] and the janitor in
    between), every stored value is a non-nil pointer to a thing, and
    [newerThanMem] never reaches the dereference of nil: it returns. *)
Theorem populated_newerThanMem_never_dereferences_nil c :
  persist.populated c ->
  persist.holds_things c
  /\ forall now key t,
       persist.newerThanMem now c key t <> Panic NilDereference
       /\ is_ok (persist.newerThanMem now c key t) = true.
Proof.
  intros Hpop. pose proof (populated_holds_things c Hpop) as Hc.
  split; [exact Hc|]. intros now key t.
  pose proof (newerThanMem_no_panic now c key t Hc) as Hok.
  split; [|exact Hok].
  intros Heq. rewrite Heq in Hok. discriminate.
Qed.

End CacheProperties.

Lemma populated_newerThanMem_witness :
  persist.populated sampleCache
  /\ (persist.holds_things sampleCache
      /\ forall now key t,
           persist.newerThanMem now sampleCache key t <> Panic NilDereference
           /\ is_ok (persist.newerThanMem now sampleCache key t) = true).
Proof.
  assert (Hpop : persist.populated sampleCache).
  { apply (persist.populated_set 1000 2000 persist.createMem "issues-open"
             (Some sampleThing) sampleCache
             {| persist.Created := 1000; persist.Contents := 7%nat |}).
    - apply persist.populated_create.
    - reflexivity. }
  split; [exact Hpop|].
  exact (populated_newerThanMem_never_dereferences_nil sampleCache Hpop).
Defined.

(** ** Durations *)

Lemma wrap_range z : time.minDuration <= time.wrap z <= time.maxDuration.
Proof.
  unfold time.wrap, time.minDuration, time.maxDuration.
  pose proof (Z.mod_pos_bound (z + 2 ^ 63) (2 ^ 64) ltac:(lia)). lia.
Qed.

Lemma wrap_small z :
  time.minDuration <= z <= time.maxDuration -> time.wrap z = z.
Proof.
  unfold time.wrap, time.minDuration, time.maxDuration. intros Hz.
  rewrite Z.mod_small by lia. lia.
Qed.

Lemma Sub_range t u :
  time.minDuration <= time.Sub t u <= time.maxDuration.
Proof.
  unfold time.Sub.
  destruct (Z.ltb_spec time.maxDuration (t - u)).
  - unfold time.minDuration, time.maxDuration. lia.
  - destruct (Z.ltb_spec (t - u) time.minDuration);
      unfold time.minDuration, time.maxDuration in *; lia.
Qed.

Lemma Sub_exact t u :
  time.minDuration <= t - u <= time.maxDuration -> time.Sub t u = t - u.
Proof.
  unfold time.Sub. intros H.
  destruct (Z.ltb_spec time.maxDuration (t - u)); [lia|].
  destruct (Z.ltb_spec (t - u) time.minDuration); [lia|reflexivity].
Qed.

Lemma Sub_nonneg t u : u <= t -> 0 <= time.Sub t u.
Proof.
  unfold time.Sub. intros H.
  destruct (Z.ltb_spec time.maxDuration (t - u)).
  - unfold time.maxDuration. lia.
  - destruct (Z.ltb_spec (t - u) time.minDuration);
      unfold time.minDuration in *; lia.
Qed.

Lemma Sub_saturated t u :
  time.maxDuration <= t - u -> time.Sub t u = time.maxDuration.
Proof.
  unfold time.Sub. intros H.
  destruct (Z.ltb_spec time.maxDuration (t - u)); [reflexivity|].
  destruct (Z.ltb_spec (t - u) time.minDuration);
    unfold time.minDuration, time.maxDuration in *; lia.
Qed.

(** ** The conversation builder *)

Section Builder.

Import hubbub view.

Context `{P : Platform}.

Implicit Types (h : Engine) (i : GitHubItem) (c : Comment) (st : loopState).

Lemma responseTags_app ts ts' :
  responseTags (ts ++ ts') = responseTags ts ++ responseTags ts'.
Proof. apply List.filter_app. Qed.

Lemma responseTags_In t ts :
  t = tag.Send \/ t = tag.Recv -> (In t ts <-> In t (responseTags ts)).
Proof.
  intros Ht. unfold responseTags. rewrite List.filter_In.
  destruct Ht as [-> | ->]; simpl; tauto.
Qed.

(** One turn of the loop acts on the response times as [stepTimes] does,
    and leaves the creation time and the response tags alone. *)
Lemma commentStep_times h i m st c st' :
  commentStep h i m st c = Ok st' ->
  timesOf st' = stepTimes h i m (timesOf st) c
  /\ Created (co st') = Created (co st)
  /\ responseTags (Tags (co st')) = responseTags (Tags (co st)).
Proof.
  unfold commentStep, stepTimes, memberComment, authorComment, timesOf.
  destruct (isBot (Comment_User c)) eqn:Hbot.
  { intros [= <-]. auto. }
  cbn [negb andb].
  destruct (derefLogin (Comment_User c)) as [login|] eqn:Hlogin;
    [|destruct (afterClosed i c); discriminate].
  unfold countReactions, memberResponse, bind.
  destruct (afterClosed i c), (0 <? GetTotalCount (Comment_Reactions c));
    cbn [fst snd];
    destruct (String.eqb (GetLogin (Comment_User c)) (GetLogin (GetUser i)));
    destruct (String.eqb (GetLogin (Comment_User c)) (GetLogin (GetAssignee i)));
    destruct (isMember h (GetLogin (Comment_User c)) (Comment_AuthorAssoc c));
    cbn -[time.After time.dadd time.Sub asksQuestion];
    repeat match goal with
      | |- context [if negb (seenMemberComment st) then _ else _] =>
          destruct (seenMemberComment st)
      | |- context [if negb (time.After ?a ?b) && negb m then _ else _] =>
          destruct (negb (time.After a b) && negb m)
      end;
    cbn -[time.After time.dadd time.Sub asksQuestion];
    intros [= <-];
    destruct (bool_decide (login ∈ _));
    cbn -[time.After time.dadd time.Sub asksQuestion];
    rewrite ?responseTags_app, ?app_nil_r; auto.
Qed.

Lemma commentLoop_times h i m cs : forall st st',
  commentLoop h i m st cs = Ok st' ->
  timesOf st' = fold_left (stepTimes h i m) cs (timesOf st)
  /\ Created (co st') = Created (co st)
  /\ responseTags (Tags (co st')) = responseTags (Tags (co st)).
Proof.
  induction cs as [|c cs IH]; intros st st' Hloop; simpl in Hloop.
  - injection Hloop as <-. auto.
  - destruct (commentStep h i m st c) as [st1|] eqn:Hstep; [|discriminate].
    simpl in Hloop.
    apply commentStep_times in Hstep as (Ht & Hc & Hr).
    apply IH in Hloop as (Ht' & Hc' & Hr').
    simpl. rewrite <- Ht. rewrite Hc', Hr'. auto.
Qed.

(** The conversation the loop starts from. *)
Lemma newConversation_start h i age co0 :
  newConversation h i age = Ok co0 ->
  Created co0 = GetCreatedAt i
  /\ LatestAuthorResponse co0 = GetCreatedAt i
  /\ LatestMemberResponse co0 =
       (if isMember h (GetLogin (GetUser i)) (GetAuthorAssociation i)
        then time.zero else GetCreatedAt i)
  /\ AccumulatedHoldTime co0 = 0
  /\ responseTags (Tags co0) = [].
Proof.
  unfold newConversation.
  destruct (gostrings.Split (GetHTMLURL i) "/" !! 3%nat); [|discriminate].
  destruct (gostrings.Split (GetHTMLURL i) "/" !! 4%nat); [|discriminate].
  intros [= <-]. cbn.
  destruct (isMember h _ _); destruct (GetAssignee i); auto.
Qed.

(** The tags appended after the response tags are none of them. *)
Lemma responseTags_after clk i m cs st :
  responseTags (Tags (finish clk i m cs st)) =
  responseTags (Tags (tagResponse clk m (co st))).
Proof.
  unfold finish, tagClosed, tagLast, tagAssignee, tagMilestone, tagQuestion.
  cbn [Tags set_ClosedCommentersTotal set_CommentersTotal].
  repeat match goal with
    | |- context [match ?x with _ => _ end] =>
        destruct x;
        cbn [Tags addTag set_Tags set_Updated]; rewrite ?responseTags_app;
        cbn [responseTags List.filter tag.eqb orb app]; rewrite ?app_nil_r
    end; reflexivity.
Qed.

Lemma responseTags_tagResponse clk m co :
  responseTags (Tags (tagResponse clk m co)) =
  responseTags (Tags co)
  ++ (if time.After (LatestMemberResponse co) (LatestAuthorResponse co)
      then [tag.Send]
      else if negb m then [tag.Recv] else []).
Proof.
  unfold tagResponse.
  destruct (time.After _ _); [|destruct m]; cbn -[responseTags];
    rewrite ?responseTags_app, ?app_nil_r; reflexivity.
Qed.

Lemma tagResponse_fields clk m co1 :
  Created (tagResponse clk m co1) = Created co1
  /\ LatestMemberResponse (tagResponse clk m co1) = LatestMemberResponse co1
  /\ LatestAuthorResponse (tagResponse clk m co1) = LatestAuthorResponse co1.
Proof. unfold tagResponse. destruct (time.After _ _); [|destruct m]; auto. Qed.

Lemma finish_fields clk i m cs st :
  Created (finish clk i m cs st) = Created (co st)
  /\ LatestMemberResponse (finish clk i m cs st) = LatestMemberResponse (co st)
  /\ LatestAuthorResponse (finish clk i m cs st) = LatestAuthorResponse (co st)
  /\ AccumulatedHoldTime (finish clk i m cs st) =
       AccumulatedHoldTime (tagResponse clk m (co st)).
Proof.
  destruct (tagResponse_fields clk m (co st)) as (H1 & H2 & H3).
  rewrite <- H1, <- H2, <- H3. clear H1 H2 H3.
  unfold finish. generalize (tagResponse clk m (co st)). intros co1.
  unfold tagClosed, tagLast, tagAssignee, tagMilestone, tagQuestion.
  cbn [Created LatestMemberResponse LatestAuthorResponse AccumulatedHoldTime
       set_ClosedCommentersTotal set_CommentersTotal].
  repeat match goal with
    | |- context [match ?x with _ => _ end] => destruct x; cbn
    end; auto.
Qed.

(** The stages a successful call went through. *)
Lemma conversation_inv clk h i cs age co' :
  conversation clk h i cs age = Ok co' ->
  exists co0 st,
    newConversation h i age = Ok co0
    /\ commentLoop h i
         (isMember h (GetLogin (GetUser i)) (GetAuthorAssociation i))
         (initLoop co0) cs = Ok st
    /\ co' = finish clk i
               (isMember h (GetLogin (GetUser i)) (GetAuthorAssociation i))
               cs st
    /\ AccumulatedHoldTime co' <= time.Since (nowAge clk) (Created co').
Proof.
  unfold conversation, bind, checkHold.
  set (m := isMember h (GetLogin (GetUser i)) (GetAuthorAssociation i)).
  intros H.
  destruct (newConversation h i age) as [co0|] eqn:Hnew; [|discriminate].
  destruct (commentLoop h i m (initLoop co0) cs) as [st|] eqn:Hloop;
    [|discriminate].
  destruct (Z.ltb_spec (time.Since (nowAge clk) (Created (finish clk i m cs st)))
              (AccumulatedHoldTime (finish clk i m cs st))); [discriminate|].
  injection H as <-. exists co0, st. repeat split; auto.
Qed.

(** The response tags of a conversation that was built. *)
Lemma conversation_responseTags clk h i cs age co' :
  conversation clk h i cs age = Ok co' ->
  responseTags (Tags co') =
  (if time.After (LatestMemberResponse co') (LatestAuthorResponse co')
   then [tag.Send]
   else if negb (isMember h (GetLogin (GetUser i)) (GetAuthorAssociation i))
   then [tag.Recv] else []).
Proof.
  intros H. apply conversation_inv in H as (co0 & st & Hnew & Hloop & -> & _).
  apply newConversation_start in Hnew as (_ & _ & _ & _ & Htags0).
  apply commentLoop_times in Hloop as (_ & _ & Htags).
  rewrite responseTags_after, responseTags_tagResponse.
  destruct (finish_fields clk i
              (isMember h (GetLogin (GetUser i)) (GetAuthorAssociation i))
              cs st) as (_ & -> & -> & _).
  rewrite Htags. cbn [initLoop co]. rewrite Htags0. reflexivity.
Qed.

(** C3. In every conversation the builder returns, the tags [send] and
    [recv] are never both present, and one of them is present unless the
    author of the item is a member. *)
Theorem send_recv_exclusive_and_present clk h i cs age co' :
  conversation clk h i cs age = Ok co' ->
  ~ (In tag.Send (Tags co') /\ In tag.Recv (Tags co'))
  /\ (isMember h (GetLogin (GetUser i)) (GetAuthorAssociation i) = false ->
      In tag.Send (Tags co') \/ In tag.Recv (Tags co')).
Proof.
  intros H. apply conversation_responseTags in H.
  rewrite (responseTags_In tag.Send (Tags co')) by auto.
  rewrite (responseTags_In tag.Recv (Tags co')) by auto.
  rewrite H. split.
  - destruct (time.After _ _); [|destruct (negb _)]; simpl;
      intros [Hs Hr]; intuition discriminate.
  - intros ->. destruct (time.After _ _); simpl; auto.
Qed.

(** The latest member response follows the member comments. *)
Lemma fold_stepTimes_member h i m cs : forall t,
  tMember (fold_left (stepTimes h i m) cs t) =
  fold_left (fun u c => if memberComment h c then Comment_Created c else u)
    cs (tMember t).
Proof.
  induction cs as [|c cs IH]; intros t; [reflexivity|].
  simpl. rewrite IH. f_equal.
  unfold stepTimes, memberComment.
  destruct (isBot (Comment_User c)); [reflexivity|]. cbn [negb andb].
  destruct (isMember h _ _); reflexivity.
Qed.

(** C4, as the code has it. The latest member response starts at the
    creation time of the item when the author is not a member and at the
    zero time when the author is a member; from there it moves to the
    creation time of each comment by a member that is no bot, and nothing
    else moves it. *)
Theorem latest_member_response_course clk h i cs age co' :
  conversation clk h i cs age = Ok co' ->
  exists co0,
    newConversation h i age = Ok co0
    /\ LatestMemberResponse co0 =
         (if isMember h (GetLogin (GetUser i)) (GetAuthorAssociation i)
          then time.zero else GetCreatedAt i)
    /\ LatestMemberResponse co' =
         fold_left
           (fun t c => if memberComment h c then Comment_Created c else t)
           cs (LatestMemberResponse co0).
Proof.
  intros H. apply conversation_inv in H as (co0 & st & Hnew & Hloop & -> & _).
  exists co0. split; [exact Hnew|].
  apply newConversation_start in Hnew as (_ & _ & Hm & _).
  split; [exact Hm|].
  apply commentLoop_times in Hloop as (Ht & _ & _).
  destruct (finish_fields clk i
              (isMember h (GetLogin (GetUser i)) (GetAuthorAssociation i))
              cs st) as (_ & -> & _).
  change (LatestMemberResponse (co st)) with (tMember (timesOf st)).
  rewrite Ht, fold_stepTimes_member. reflexivity.
Qed.

End Builder.

(** ** The accumulated hold time *)

Section HoldTime.

Import hubbub view.

Context `{P : Platform}.

Implicit Types (h : Engine) (i : GitHubItem) (c : Comment) (st : loopState).

Lemma stepTimes_hold_range h i m t c :
  time.minDuration <= tHold t <= time.maxDuration ->
  time.minDuration <= tHold (stepTimes h i m t c) <= time.maxDuration.
Proof.
  intros Ht. unfold stepTimes.
  destruct (isBot (Comment_User c)); [exact Ht|].
  destruct (memberComment h c); [|exact Ht]. cbn [tHold].
  destruct (negb _ && negb m); [apply wrap_range|exact Ht].
Qed.

Lemma fold_stepTimes_hold_range h i m cs : forall t,
  time.minDuration <= tHold t <= time.maxDuration ->
  time.minDuration <= tHold (fold_left (stepTimes h i m) cs t)
                   <= time.maxDuration.
Proof.
  induction cs as [|c cs IH]; intros t Ht; [exact Ht|].
  simpl. apply IH, stepTimes_hold_range, Ht.
Qed.

(** Nothing is accumulated on an item whose author is a member. *)
Lemma fold_stepTimes_hold_member h i cs : forall t,
  tHold (fold_left (stepTimes h i true) cs t) = tHold t.
Proof.
  induction cs as [|c cs IH]; intros t; [reflexivity|].
  simpl. rewrite IH. unfold stepTimes.
  destruct (isBot (Comment_User c)); [reflexivity|].
  destruct (memberComment h c); [|reflexivity]. cbn [tHold].
  rewrite andb_false_r. reflexivity.
Qed.

Lemma holdInv_later created T T' t :
  T <= T' -> holdInv created T t -> holdInv created T' t.
Proof. unfold holdInv. lia. Qed.

(** One comment made at or after [T] keeps the invariant, up to its own
    time. *)
Lemma stepTimes_holdInv h i created now T t c :
  now - created <= time.maxDuration ->
  T <= Comment_Created c <= now ->
  holdInv created T t ->
  holdInv created (Comment_Created c) (stepTimes h i false t c).
Proof.
  intros Hnow Hc Hinv. unfold stepTimes.
  destruct (isBot (Comment_User c)).
  { apply holdInv_later with T; [lia|exact Hinv]. }
  destruct Hinv as (Ha & Hm & Hh).
  set (a := if authorComment i c then Comment_Created c else tAuthor t).
  assert (Hbound : created <= a <= Comment_Created c
                   /\ (Z.max (tAuthor t) (tMember t) <= Z.max a (tMember t))).
  { subst a. destruct (authorComment i c); lia. }
  destruct (memberComment h c); unfold holdInv; cbn [tAuthor tMember tHold].
  - unfold time.After. rewrite andb_true_r.
    destruct (Z.ltb_spec a (tMember t)); cbn [negb].
    + lia.
    + assert (Hle : tHold t <= a - created).
      { subst a. destruct (authorComment i c); lia. }
      unfold time.dadd.
      rewrite Sub_exact by (unfold time.minDuration; lia).
      rewrite wrap_small by (unfold time.minDuration; lia).
      lia.
  - lia.
Qed.

Lemma fold_stepTimes_holdInv h i created now cs : forall T t,
  now - created <= time.maxDuration ->
  T <= now ->
  StronglySorted Z.le (map Comment_Created cs) ->
  Forall (fun c => T <= Comment_Created c <= now) cs ->
  holdInv created T t ->
  holdInv created now (fold_left (stepTimes h i false) cs t).
Proof.
  induction cs as [|c cs IH]; intros T t Hnow HT Hsorted Hall Hinv.
  - simpl. apply holdInv_later with T; assumption.
  - simpl. inversion Hsorted as [|? ? Hs Hhd]; subst.
    inversion Hall as [|? ? Hc Htl]; subst.
    apply IH with (T := Comment_Created c); try assumption; [lia| |].
    + rewrite List.Forall_forall in *. intros c' Hin. split.
      * apply Hhd. apply in_map_iff. eauto.
      * apply Htl, Hin.
    + apply stepTimes_holdInv with (now := now) (T := T); assumption.
Qed.

(** The loop and what precedes it panic only on a nil login or a short
    URL. *)
Lemma commentStep_panic h i m st c p :
  commentStep h i m st c = Panic p -> p = NilDereference.
Proof.
  unfold commentStep, bind.
  destruct (isBot (Comment_User c)); [discriminate|].
  unfold derefLogin.
  destruct (Comment_User c) as [u|]; [destruct (Login u)|];
    destruct (afterClosed i c); try discriminate; congruence.
Qed.

Lemma commentLoop_panic h i m cs : forall st p,
  commentLoop h i m st cs = Panic p -> p = NilDereference.
Proof.
  induction cs as [|c cs IH]; intros st p; simpl; [discriminate|].
  destruct (commentStep h i m st c) as [st1|p1] eqn:Hstep; simpl.
  - apply IH.
  - intros [= <-]. eapply commentStep_panic, Hstep.
Qed.

Lemma newConversation_panic h i age p :
  newConversation h i age = Panic p -> p = IndexOutOfRange.
Proof.
  unfold newConversation.
  destruct (_ !! 3%nat); [destruct (_ !! 4%nat)|]; congruence.
Qed.

(** The hold time after the loop and after the response tags, for comments
    in chronological order between the creation of the item and now. *)
Lemma hold_bounded clk h i cs age co0 st :
  GetCreatedAt i <= nowCurrentHold clk ->
  nowCurrentHold clk <= nowAccumulated clk <= nowAge clk ->
  Sorted Z.le (map Comment_Created cs) ->
  Forall (fun c => GetCreatedAt i <= Comment_Created c <= nowCurrentHold clk)
         cs ->
  newConversation h i age = Ok co0 ->
  commentLoop h i
    (isMember h (GetLogin (GetUser i)) (GetAuthorAssociation i))
    (initLoop co0) cs = Ok st ->
  AccumulatedHoldTime (co st)
    <= time.Since (nowCurrentHold clk) (GetCreatedAt i)
  /\ AccumulatedHoldTime
       (tagResponse clk
          (isMember h (GetLogin (GetUser i)) (GetAuthorAssociation i))
          (co st))
     <= time.Since (nowAge clk) (GetCreatedAt i).
Proof.
  set (m := isMember h (GetLogin (GetUser i)) (GetAuthorAssociation i)).
  set (created := GetCreatedAt i).
  intros Hcreated Hclk Hsorted Hall Hnew Hloop.
  apply newConversation_start in Hnew as (_ & Hauthor & Hmember & Hhold & _).
  fold m in Hmember. fold created in Hauthor, Hmember.
  apply commentLoop_times in Hloop as (Htimes & _ & _).
  assert (Ht0 : timesOf (initLoop co0) =
                {| tAuthor := created;
                   tMember := if m then time.zero else created;
                   tHold := 0; tQuestion := time.zero |}).
  { unfold timesOf. cbn [initLoop co lastQuestion].
    rewrite Hauthor, Hmember, Hhold. reflexivity. }
  rewrite Ht0 in Htimes. clear Ht0 Hauthor Hmember Hhold.
  change (AccumulatedHoldTime (co st)) with (tHold (timesOf st)).
  assert (Hresp :
    AccumulatedHoldTime (tagResponse clk m (co st)) =
    if time.After (tMember (timesOf st)) (tAuthor (timesOf st))
    then tHold (timesOf st)
    else if negb m
    then time.dadd (tHold (timesOf st))
           (time.Since (nowAccumulated clk) (tAuthor (timesOf st)))
    else tHold (timesOf st)).
  { unfold tagResponse, timesOf. cbn [tMember tAuthor tHold].
    destruct (time.After _ _); [|destruct m]; reflexivity. }
  rewrite Hresp. clear Hresp. rewrite Htimes. clear Htimes.
  destruct m.
  - (* the author is a member: nothing was accumulated *)
    rewrite fold_stepTimes_hold_member. cbn [tHold negb].
    split; [apply Sub_nonneg; lia|].
    destruct (time.After _ _); apply Sub_nonneg; lia.
  - cbn [negb].
    pose proof (fold_stepTimes_hold_range h i false cs
                  {| tAuthor := created; tMember := created; tHold := 0;
                     tQuestion := time.zero |}) as Hrange.
    cbn [tHold] in Hrange.
    specialize (Hrange ltac:(unfold time.minDuration, time.maxDuration; lia)).
    set (t := fold_left (stepTimes h i false) cs _) in *.
    assert (Hinv : nowCurrentHold clk - created <= time.maxDuration ->
                   holdInv created (nowCurrentHold clk) t).
    { intros Hsmall. subst t.
      apply fold_stepTimes_holdInv with (T := created); try assumption.
      - apply Sorted_StronglySorted; [|exact Hsorted].
        intros x y z. apply Z.le_trans.
      - unfold holdInv. cbn [tAuthor tMember tHold]. lia. }
    split.
    + destruct (Z.le_gt_cases (nowCurrentHold clk - created) time.maxDuration)
        as [Hsmall|Hbig].
      * destruct (Hinv Hsmall) as (Ha & Hm & Hh).
        rewrite Sub_exact by (unfold time.minDuration; lia). lia.
      * unfold time.Since. rewrite Sub_saturated by lia. lia.
    + destruct (Z.le_gt_cases (nowAge clk - created) time.maxDuration)
        as [Hsmall|Hbig].
      * destruct (Hinv ltac:(lia)) as (Ha & Hm & Hh).
        unfold time.Since at 2.
        rewrite (Sub_exact (nowAge clk)) by (unfold time.minDuration; lia).
        unfold time.After.
        destruct (Z.ltb_spec (tAuthor t) (tMember t)); [lia|].
        unfold time.dadd, time.Since.
        rewrite Sub_exact by (unfold time.minDuration; lia).
        rewrite wrap_small by (unfold time.minDuration; lia).
        lia.
      * unfold time.Since at 2.
        rewrite (Sub_saturated (nowAge clk)) by lia.
        destruct (time.After _ _); [lia|apply wrap_range].
Qed.

(** C9, with the condition on the clock that the code needs. For an item
    whose comments come in chronological order, with creation times between
    the creation of the item and now, the item not being created after now,
    and the clock not running backwards between the three readings the
    builder takes of it, the accumulated hold time stays within the time
    since the creation: after the loop, and when it is checked. The panic
    that checks the bound is not reached, and a conversation that is
    returned satisfies the bound. *)
Theorem accumulated_hold_time_bounded clk h i cs age :
  GetCreatedAt i <= nowCurrentHold clk ->
  nowCurrentHold clk <= nowAccumulated clk <= nowAge clk ->
  Sorted Z.le (map Comment_Created cs) ->
  Forall (fun c => GetCreatedAt i <= Comment_Created c <= nowCurrentHold clk)
         cs ->
  conversation clk h i cs age <> Panic HoldExceedsAge
  /\ (forall co0 st,
        newConversation h i age = Ok co0 ->
        commentLoop h i
          (isMember h (GetLogin (GetUser i)) (GetAuthorAssociation i))
          (initLoop co0) cs = Ok st ->
        AccumulatedHoldTime (co st)
          <= time.Since (nowCurrentHold clk) (GetCreatedAt i)
        /\ conversation clk h i cs age =
           Ok (finish clk i
                 (isMember h (GetLogin (GetUser i)) (GetAuthorAssociation i))
                 cs st))
  /\ (forall co', conversation clk h i cs age = Ok co' ->
        AccumulatedHoldTime co' <= time.Since (nowAge clk) (Created co')).
Proof.
  intros Hcreated Hclk Hsorted Hall.
  assert (Hmain : forall co0 st,
    newConversation h i age = Ok co0 ->
    commentLoop h i
      (isMember h (GetLogin (GetUser i)) (GetAuthorAssociation i))
      (initLoop co0) cs = Ok st ->
    AccumulatedHoldTime (co st)
      <= time.Since (nowCurrentHold clk) (GetCreatedAt i)
    /\ conversation clk h i cs age =
       Ok (finish clk i
             (isMember h (GetLogin (GetUser i)) (GetAuthorAssociation i))
             cs st)).
  { intros co0 st Hnew Hloop.
    destruct (hold_bounded clk h i cs age co0 st Hcreated Hclk Hsorted Hall
                Hnew Hloop) as [Hloop_bound Hfinal].
    split; [exact Hloop_bound|].
    unfold conversation, bind. rewrite Hnew, Hloop. unfold checkHold.
    destruct (finish_fields clk i
                (isMember h (GetLogin (GetUser i)) (GetAuthorAssociation i))
                cs st) as (Hc & _ & _ & Hacc).
    rewrite Hc, Hacc.
    apply commentLoop_times in Hloop as (_ & Hc' & _). rewrite Hc'.
    apply newConversation_start in Hnew as (Hc0 & _). cbn [initLoop co].
    rewrite Hc0.
    destruct (Z.ltb_spec (time.Since (nowAge clk) (GetCreatedAt i))
                (AccumulatedHoldTime
                   (tagResponse clk
                      (isMember h (GetLogin (GetUser i))
                         (GetAuthorAssociation i)) (co st)))); [lia|].
    reflexivity. }
  split; [|split; [exact Hmain|]].
  - destruct (newConversation h i age) as [co0|p0] eqn:Hnew.
    + destruct (commentLoop h i
                  (isMember h (GetLogin (GetUser i)) (GetAuthorAssociation i))
                  (initLoop co0) cs) as [st|p1] eqn:Hloop.
      * destruct (Hmain co0 st eq_refl Hloop) as [_ ->]. discriminate.
      * unfold conversation, bind. rewrite Hnew, Hloop.
        apply commentLoop_panic in Hloop as ->. discriminate.
    + unfold conversation, bind. rewrite Hnew.
      apply newConversation_panic in Hnew as ->. discriminate.
  - intros co' Hco. apply conversation_inv in Hco. 
    destruct Hco as (_ & _ & _ & _ & _ & Hbound). exact Hbound.
Qed.

End HoldTime.

(** ** Questions *)

Section Questions.

Import hubbub view.

Lemma Contains_char (x : ascii) (s : string) :
  gostrings.Contains s (String x EmptyString) = true
  <-> In x (list_ascii_of_string s).
Proof.
  induction s as [|a s IH]; simpl.
  - split; [discriminate|tauto].
  - unfold gostrings.HasPrefix at 1. simpl.
    destruct (ascii_dec x a) as [->|Hne].
    + destruct s; simpl; tauto.
    + simpl. rewrite IH. split; [tauto|]. intros [Heq|Hin]; [congruence|auto].
Qed.

Lemma stripPrefix_app p : forall l r,
  gostrings.stripPrefix p l = Some r -> l = p ++ r.
Proof.
  induction p as [|a p IH]; intros l r; simpl.
  - intros [= ->]. reflexivity.
  - destruct l as [|b l]; [discriminate|].
    destruct (Ascii.eqb_spec a b) as [->|]; [|discriminate].
    intros H. apply IH in H. simpl. congruence.
Qed.

Lemma stripAny_app ps l r :
  gostrings.stripAny ps l = Some r -> exists p, l = p ++ r.
Proof.
  induction ps as [|p ps IH]; simpl; [discriminate|].
  destruct (gostrings.stripPrefix p l) as [r'|] eqn:Hp; [|exact IH].
  intros [= ->]. exists p. apply stripPrefix_app, Hp.
Qed.

Lemma trimLeft_suffix ps n : forall l,
  exists p, l = p ++ gostrings.trimLeft ps n l.
Proof.
  induction n as [|n IH]; intros l; simpl.
  - exists []. reflexivity.
  - destruct (gostrings.stripAny ps l) as [r|] eqn:Hr.
    + apply stripAny_app in Hr as [p ->]. destruct (IH r) as [p' Hp'].
      exists (p ++ p'). rewrite <- app_assoc. congruence.
    + exists []. reflexivity.
Qed.

Lemma trimLeft_In ps n l x : In x (gostrings.trimLeft ps n l) -> In x l.
Proof.
  destruct (trimLeft_suffix ps n l) as [p Hp]. intros Hin.
  rewrite Hp. apply in_or_app. auto.
Qed.

(** Trimming only removes bytes. *)
Lemma TrimSpace_In s x :
  In x (list_ascii_of_string (gostrings.TrimSpace s)) ->
  In x (list_ascii_of_string s).
Proof.
  unfold gostrings.TrimSpace. rewrite list_ascii_of_string_of_list_ascii.
  intros H. apply in_rev, trimLeft_In, in_rev, trimLeft_In in H. exact H.
Qed.

Lemma Split_not_nil s sep : gostrings.Split s sep <> [].
Proof.
  destruct s as [|c s]; simpl; [discriminate|].
  destruct (Ascii.eqb c sep); [discriminate|].
  destruct (gostrings.Split s sep); discriminate.
Qed.

(** The bytes of a piece are bytes of the string that was split. *)
Lemma Split_In sep x s : forall line,
  In line (gostrings.Split s sep) ->
  In x (list_ascii_of_string line) ->
  In x (list_ascii_of_string s).
Proof.
  induction s as [|c s IH]; intros line; simpl.
  - intros [<-|[]]. auto.
  - destruct (Ascii.eqb c sep).
    + intros [<-|Hin]; simpl; [tauto|]. intros Hx. right. eapply IH; eauto.
    + destruct (gostrings.Split s sep) as [|l0 ls] eqn:Hsplit.
      * intros [<-|[]]. simpl. tauto.
      * intros [<-|Hin]; simpl.
        -- intros [->|Hx]; [auto|]. right. apply (IH l0); simpl; auto.
        -- intros Hx. right. apply (IH line); simpl; auto.
Qed.

(** The scan assigns [lastQuestion] exactly when some line of the body as
    it stands, trimmed, does not start with [>] and contains a question
    mark. *)
Lemma asksQuestion_iff body :
  asksQuestion body = true <->
  exists line,
    In line (gostrings.Split body newline)
    /\ gostrings.HasPrefix (gostrings.TrimSpace line) ">" = false
    /\ gostrings.Contains (gostrings.TrimSpace line) "?" = true.
Proof.
  assert (Hline : forall line, questionLine line = true <->
            gostrings.HasPrefix (gostrings.TrimSpace line) ">" = false
            /\ gostrings.Contains (gostrings.TrimSpace line) "?" = true).
  { intros line. unfold questionLine.
    destruct (gostrings.HasPrefix _ _); split; try tauto; try discriminate.
    intros [? _]. discriminate. }
  unfold asksQuestion. split.
  - destruct (gostrings.Contains body "?"); [|discriminate].
    rewrite existsb_exists. intros (line & Hin & Hq).
    exists line. split; [exact Hin|]. apply Hline, Hq.
  - intros (line & Hin & Hq).
    assert (Hbody : gostrings.Contains body "?" = true).
    { apply Contains_char. apply (Split_In newline _ body line Hin).
      apply TrimSpace_In. apply Contains_char. tauto. }
    rewrite Hbody. apply existsb_exists. exists line.
    split; [exact Hin|]. apply Hline, Hq.
Qed.

Context `{P : Platform}.

Lemma stepTimes_question h i m t c :
  tQuestion (stepTimes h i m t c) =
  if negb (isBot (Comment_User c)) && asksQuestion (Comment_Body c)
  then Comment_Created c else tQuestion t.
Proof.
  unfold stepTimes. destruct (isBot (Comment_User c)); [reflexivity|].
  cbn [negb andb]. destruct (memberComment h c); reflexivity.
Qed.

(** C7, as the code has it. A comment moves the time of the last question
    to its creation time exactly when it is not by a bot and some line of
    its body, trimmed of surrounding white space, does not start with [>]
    and contains a question mark; the body is scanned as it stands, code
    fences and details blocks included. Otherwise the time of the last
    question stays. *)
Theorem last_question_time_step h i m st c st' :
  commentStep h i m st c = Ok st' ->
  lastQuestion st' =
    (if negb (isBot (Comment_User c)) && asksQuestion (Comment_Body c)
     then Comment_Created c else lastQuestion st)
  /\ (asksQuestion (Comment_Body c) = true <->
      exists line,
        In line (gostrings.Split (Comment_Body c) newline)
        /\ gostrings.HasPrefix (gostrings.TrimSpace line) ">" = false
        /\ gostrings.Contains (gostrings.TrimSpace line) "?" = true).
Proof.
  intros Hstep. split; [|apply asksQuestion_iff].
  apply commentStep_times in Hstep as (Ht & _ & _).
  change (lastQuestion st') with (tQuestion (timesOf st')).
  rewrite Ht. apply stepTimes_question.
Qed.

End Questions.

(** ** The builder on the sample conversation *)

Lemma send_recv_witness :
  exists co',
    hubbub.conversation (demoClock 200) demoEngine outsiderIssue
      holdComments 0 = Ok co'
    /\ ~ (In tag.Send (hubbub.Tags co') /\ In tag.Recv (hubbub.Tags co'))
    /\ (hubbub.isMember demoEngine
          (hubbub.GetLogin (hubbub.GetUser outsiderIssue))
          (hubbub.GetAuthorAssociation outsiderIssue) = false ->
        In tag.Send (hubbub.Tags co') \/ In tag.Recv (hubbub.Tags co')).
Proof.
  destruct (hubbub.conversation (demoClock 200) demoEngine outsiderIssue
              holdComments 0) as [co'|p] eqn:E.
  - exists co'. split; [reflexivity|].
    exact (send_recv_exclusive_and_present _ _ _ _ _ _ E).
  - vm_compute in E. discriminate.
Defined.

Lemma latest_member_response_witness :
  exists co',
    hubbub.conversation (demoClock 200) demoEngine outsiderIssue
      holdComments 0 = Ok co'
    /\ exists co0,
         hubbub.newConversation demoEngine outsiderIssue 0 = Ok co0
         /\ hubbub.LatestMemberResponse co0 =
              (if hubbub.isMember demoEngine
                    (hubbub.GetLogin (hubbub.GetUser outsiderIssue))
                    (hubbub.GetAuthorAssociation outsiderIssue)
               then time.zero else hubbub.GetCreatedAt outsiderIssue)
         /\ hubbub.LatestMemberResponse co' =
              fold_left
                (fun t c => if view.memberComment demoEngine c
                            then hubbub.Comment_Created c else t)
                holdComments (hubbub.LatestMemberResponse co0).
Proof.
  destruct (hubbub.conversation (demoClock 200) demoEngine outsiderIssue
              holdComments 0) as [co'|p] eqn:E.
  - exists co'. split; [reflexivity|].
    exact (latest_member_response_course _ _ _ _ _ _ E).
  - vm_compute in E. discriminate.
Defined.

(** C4 as stated fails: for an item by a member the latest member response
    starts at the zero time, not at the creation, and for an item by an
    outsider it starts at the creation, not at the zero time. *)
Lemma latest_member_response_counterexample :
  (exists co',
     hubbub.conversation (demoClock 200) demoEngine memberIssue [] 0 = Ok co'
     /\ hubbub.LatestMemberResponse co' = time.zero
     /\ view.claimedMemberStart demoEngine memberIssue = 100)
  /\ (exists co',
        hubbub.conversation (demoClock 200) demoEngine outsiderIssue [] 0
          = Ok co'
        /\ hubbub.LatestMemberResponse co' = 100
        /\ view.claimedMemberStart demoEngine outsiderIssue = time.zero).
Proof.
  split; eexists; (split; [vm_compute; reflexivity|]);
    split; vm_compute; reflexivity.
Qed.

Lemma last_question_time_witness :
  match hubbub.newConversation demoEngine outsiderIssue 0 with
  | Ok co0 =>
      let c := demoComment "carol" "NONE" 500 fencedQuestion in
      match hubbub.commentStep demoEngine outsiderIssue false
              (hubbub.initLoop co0) c with
      | Ok st' =>
          hubbub.lastQuestion st' =
            (if negb (hubbub.isBot (hubbub.Comment_User c))
                && hubbub.asksQuestion (hubbub.Comment_Body c)
             then hubbub.Comment_Created c
             else hubbub.lastQuestion (hubbub.initLoop co0))
          /\ (hubbub.asksQuestion (hubbub.Comment_Body c) = true <->
              exists line,
                In line (gostrings.Split (hubbub.Comment_Body c)
                           hubbub.newline)
                /\ gostrings.HasPrefix (gostrings.TrimSpace line) ">" = false
                /\ gostrings.Contains (gostrings.TrimSpace line) "?" = true)
      | Panic _ => False
      end
  | Panic _ => False
  end.
Proof.
  destruct (hubbub.newConversation demoEngine outsiderIssue 0)
    as [co0|p] eqn:E0; [|vm_compute in E0; discriminate].
  cbv zeta.
  destruct (hubbub.commentStep demoEngine outsiderIssue false
              (hubbub.initLoop co0)
              (demoComment "carol" "NONE" 500 fencedQuestion))
    as [st'|p] eqn:E.
  - exact (last_question_time_step _ _ _ _ _ _ E).
  - vm_compute in E0. injection E0 as <-. vm_compute in E. discriminate.
Defined.

(** C7 as stated fails. A question mark inside a fenced code block is no
    question after the code is stripped, yet the builder moves the time of
    the last question to the comment; and a quoted line that is indented
    does not start with [>], yet the builder skips it. *)
Lemma last_question_time_counterexample :
  (view.claimedQuestion fencedQuestion = false
   /\ questionAfter fencedQuestion = Ok 500)
  /\ (view.claimedQuestion indentedQuote = true
      /\ questionAfter indentedQuote = Ok time.zero).
Proof. repeat split; vm_compute; reflexivity. Qed.

Lemma accumulated_hold_time_witness :
  (hubbub.GetCreatedAt outsiderIssue <= hubbub.nowCurrentHold (demoClock 200)
   /\ Sorted Z.le (map hubbub.Comment_Created holdComments)
   /\ Forall (fun c => hubbub.GetCreatedAt outsiderIssue
                         <= hubbub.Comment_Created c
                         <= hubbub.nowCurrentHold (demoClock 200))
             holdComments)
  /\ hubbub.conversation (demoClock 200) demoEngine outsiderIssue
       holdComments 0 <> Panic HoldExceedsAge.
Proof.
  assert (H1 : hubbub.GetCreatedAt outsiderIssue
               <= hubbub.nowCurrentHold (demoClock 200)) by (cbn; lia).
  assert (H2 : Sorted Z.le (map hubbub.Comment_Created holdComments)).
  { cbn. repeat constructor; lia. }
  assert (H3 : Forall (fun c => hubbub.GetCreatedAt outsiderIssue
                                  <= hubbub.Comment_Created c
                                  <= hubbub.nowCurrentHold (demoClock 200))
                      holdComments).
  { unfold holdComments. repeat constructor; cbn; lia. }
  split; [auto|].
  apply (accumulated_hold_time_bounded (demoClock 200) demoEngine outsiderIssue
           holdComments 0 H1); [cbn; lia|exact H2|exact H3].
Defined.

(** C9 as stated fails when the clock steps back between its readings: the
    item is created at 100 by an outsider and has one comment, by another
    outsider, at 150; the clock reads 200 for the hold times and 199 for
    the check of the age. The hold time is then 100, the age 99. *)
Lemma accumulated_hold_time_counterexample :
  Sorted Z.le
    (map hubbub.Comment_Created [demoComment "carol" "NONE" 150 "same here"])
  /\ Forall (fun c => hubbub.GetCreatedAt outsiderIssue
                      <= hubbub.Comment_Created c <= 199)
       [demoComment "carol" "NONE" 150 "same here"]
  /\ hubbub.conversation
       {| hubbub.nowCurrentHold := 200; hubbub.nowAccumulated := 200;
          hubbub.nowAge := 199 |}
       demoEngine outsiderIssue [demoComment "carol" "NONE" 150 "same here"] 0
     = Panic HoldExceedsAge.
Proof.
  split; [cbn; repeat constructor|].
  split; [repeat constructor; cbn; lia|].
  vm_compute. reflexivity.
Qed.

(** The hold-time scenario: one hour, then three, are accumulated as
    10 + 30 time units, and the conversation ends as [send]. *)
Example hold_time_scenario :
  exists co',
    hubbub.conversation (demoClock 200) demoEngine outsiderIssue
      holdComments 0 = Ok co'
    /\ hubbub.AccumulatedHoldTime co' = 40
    /\ hubbub.Tags co' = [tag.Commented; tag.Send; tag.RoleLast "member"].
Proof. eexists. split; [vm_compute; reflexivity|]. split; reflexivity. Qed.

(** The closed-comment scenario: of the comments made 5 and 45 seconds
    after the issue was closed, only the second counts. *)
Example closed_comments_scenario :
  exists co',
    hubbub.conversation (demoClock (300 * time.Second)) demoEngine
      closedIssue closedComments 0 = Ok co'
    /\ hubbub.ClosedCommentsTotal co' = 1
    /\ hubbub.ClosedCommentersTotal co' = 1
    /\ hubbub.CommentersTotal co' = 2
    /\ In tag.Closed (hubbub.Tags co').
Proof.
  eexists. split; [vm_compute; reflexivity|].
  repeat split; try reflexivity. cbn. auto.
Qed.

(** ** The searches *)

Section Searches.

Import hubbub view.

Context `{B : Backend}.

Implicit Types (h : Engine) (fs : list Filter) (w : World).

Lemma SearchIssues_fields h now fs newerThan hidden w :
  errorOf (SearchIssues h now fs newerThan hidden w) = None
  /\ stampOf (SearchIssues h now fs newerThan hidden w) =
     snd (fst (fetchIssues h now (openByDefault fs) newerThan w)).
Proof.
  unfold SearchIssues, errorOf, stampOf.
  destruct (fetchIssues h now (openByDefault fs) newerThan w)
    as [[[open closed] age] w1].
  destruct (collect _ _ w1). split; reflexivity.
Qed.

Lemma SearchPullRequests_fields h now fs newerThan hidden w :
  errorOf (SearchPullRequests h now fs newerThan hidden w) = None
  /\ stampOf (SearchPullRequests h now fs newerThan hidden w) =
     (let f := fst (fetchPRs h now (openByDefault fs) newerThan w) in
      latestUpdate (fst (fst f) ++ snd (fst f))).
Proof.
  unfold SearchPullRequests, errorOf, stampOf.
  destruct (fetchPRs h now (openByDefault fs) newerThan w)
    as [[[open closed] age] w1].
  destruct (collect _ _ w1). split; reflexivity.
Qed.

(** The timestamp of [SearchIssues] is not later than the reading of the
    clock it starts from. *)
Lemma SearchIssues_stamp_le_now h now fs newerThan hidden w :
  stampOf (SearchIssues h now fs newerThan hidden w) <= now.
Proof.
  destruct (SearchIssues_fields h now fs newerThan hidden w) as [_ ->].
  unfold fetchIssues, time.Before.
  destruct (cachedIssues "open" 0 newerThan w) as [o w1].
  set (age1 := match failure o with
               | Some _ => now
               | None => if stamp o <? now then stamp o else now
               end).
  assert (Hage : age1 <= now).
  { subst age1. destruct (failure o); [lia|].
    destruct (Z.ltb_spec (stamp o) now); lia. }
  destruct (negb (NeedsClosed (openByDefault fs))); [exact Hage|].
  destruct (cachedIssues "closed" _ newerThan w1) as [c w2]. cbn [fst snd].
  destruct (Z.ltb_spec (stamp c) age1); lia.
Qed.

(** The timestamp of [SearchAny] is the later of the two. *)
Lemma SearchAny_stamp h nowIssues nowPRs fs newerThan hidden w :
  stampOf (SearchAny h nowIssues nowPRs fs newerThan hidden w) =
  Z.max (stampOf (SearchIssues h nowIssues fs newerThan hidden w))
        (stampOf (SearchPullRequests h nowPRs fs newerThan hidden
                    (snd (SearchIssues h nowIssues fs newerThan hidden w)))).
Proof.
  unfold SearchAny.
  pose proof (SearchIssues_fields h nowIssues fs newerThan hidden w) as [He _].
  destruct (SearchIssues h nowIssues fs newerThan hidden w)
    as [[[cs ts] err] w1].
  unfold errorOf in He. simpl in He. subst err.
  pose proof (SearchPullRequests_fields h nowPRs fs newerThan hidden w1)
    as [He _].
  cbn [snd].
  destruct (SearchPullRequests h nowPRs fs newerThan hidden w1)
    as [[[pcs pts] err] w2].
  unfold errorOf in He. simpl in He. subst err.
  unfold stampOf, time.After. cbn [fst snd].
  destruct (Z.ltb_spec ts pts); lia.
Qed.


End Searches.

(** C2, evaluated. With the issues fetched at time 50 and the pull
    requests fetched at time 70, the latest of them updated at time 90,
    [SearchIssues] returns the oldest fetch time, 50, [SearchPullRequests]
    the latest update, 90, and [SearchAny] the later of the two, 90: not the
    minimum of the fetch times. *)
Theorem search_any_returns_latest_timestamp :
  view.stampOf (hubbub.SearchIssues (H0 := staggeredBackend) demoEngine
                  100 [] 40 false tt) = 50
  /\ view.stampOf (hubbub.SearchPullRequests (H0 := staggeredBackend)
                     demoEngine 100 [] 40 false tt) = 90
  /\ view.stampOf (hubbub.SearchAny (H0 := staggeredBackend) demoEngine
                     100 100 [] 40 false tt) = 90
  /\ view.errorOf (hubbub.SearchAny (H0 := staggeredBackend) demoEngine
                     100 100 [] 40 false tt) = None
  /\ 90 <> Z.min 50 70.
Proof. repeat split; try (vm_compute; reflexivity). discriminate. Qed.

(** C8, evaluated. An item listed both as open and as closed is filtered
    once by [SearchIssues] and twice by [SearchPullRequests], whose results
    then share a URL. *)
Theorem pull_requests_are_not_deduplicated :
  map hubbub.URL
    (view.found (hubbub.SearchIssues (H0 := overlappingBackend) demoEngine
                   100 [anyState] 40 false tt))
    = ["https://github.com/org/project/issues/7"%string]
  /\ hubbub.inspectedPRs demoEngine [demoPR; demoPR] = [demoPR; demoPR]
  /\ map hubbub.URL
       (view.found (hubbub.SearchPullRequests (H0 := overlappingBackend)
                      demoEngine 100 [anyState] 40 false tt))
     = ["https://github.com/org/project/pull/9"%string;
        "https://github.com/org/project/pull/9"%string].
Proof. repeat split; vm_compute; reflexivity. Qed.


(** ** The updater *)

Section Updater.

Import view.

Context {O : Type}.

Implicit Types (u : updater.Updater O) (s : updater.Collection).

(** [update] writes the cache when the collection was executed without
    error, and only then. *)
Lemma update_failed u s r err : updater.update u s (r, Some err) = (u, Some err).
Proof. reflexivity. Qed.

Lemma update_succeeded u s r :
  snd (updater.update u s (r, None)) = None
  /\ updater.cache (fst (updater.update u s (r, None)))
     = <[updater.ID s := r]> (updater.cache u).
Proof. split; reflexivity. Qed.

(** C6, as the code has it. [shouldUpdate] returns a reason exactly when
    the cycle count is below two, or there is no cached result, or the
    result is older than the maximum refresh age (tripled for a collection
    used for statistics), or the update is forced, or the collection is not
    used for statistics, was requested, has a result at least as old as the
    minimum refresh age, and the result is older than the mean of the age
    of the last request and the distance of the last two requests, plus
    the minimum refresh age. *)
Theorem shouldUpdate_reason_iff nowResult nowRequest u id usedForStats force :
  updater.shouldUpdate nowResult nowRequest u id usedForStats force <> None
  <->
  updater.updateCycles u < 2
  \/ updater.cache u !! id = None
  \/ exists result,
       updater.cache u !! id = Some result
       /\ let age := time.Since nowResult (updater.Created result) in
          (if usedForStats then time.dmul (updater.maxRefresh u) 3
           else updater.maxRefresh u) < age
          \/ force = true
          \/ (usedForStats = false
              /\ updater.lastRequested u id <> time.zero
              /\ updater.minRefresh u <= age
              /\ time.dadd
                   (time.ddiv
                      (time.dadd
                         (time.Since nowRequest (updater.lastRequested u id))
                         (time.Sub (updater.lastRequested u id)
                            (updater.secondLastRequested u id))) 2)
                   (updater.minRefresh u) < age).
Proof.
  unfold updater.shouldUpdate, updater.maxAge, updater.needAge, time.IsZero,
    time.zero.
  destruct (Z.ltb_spec (updater.updateCycles u) 2) as [Hc|Hc].
  { split; [auto|discriminate]. }
  destruct (updater.cache u !! id) as [result|] eqn:Hres.
  2: { split; [auto|discriminate]. }
  cbv zeta.
  set (age := time.Since nowResult (updater.Created result)).
  set (maxR := if usedForStats then _ else _).
  set (need := time.dadd _ _).
  destruct (Z.ltb_spec maxR age) as [Hmax|Hmax].
  { split; [|discriminate]. intros _. right. right. exists result. auto. }
  destruct force.
  { split; [|discriminate]. intros _. right. right. exists result. auto. }
  destruct (Z.eqb_spec (updater.lastRequested u id) 0) as [Hz|Hz].
  { split; [congruence|].
    intros [?|[?|(r & [= <-] & [?|[?|(_ & ? & _)]])]];
      try lia; try discriminate; congruence. }
  destruct (Z.ltb_spec age (updater.minRefresh u)) as [Hmin|Hmin].
  { split; [congruence|].
    intros [?|[?|(r & [= <-] & [?|[?|(_ & _ & ? & _)]])]];
      try lia; discriminate. }
  destruct (Z.ltb_spec need age) as [Hneed|Hneed]; destruct usedForStats;
    cbn [negb andb].
  - split; [congruence|].
    intros [?|[?|(r & [= <-] & [?|[?|(? & _)]])]]; try lia; discriminate.
  - split; [|discriminate]. intros _. right. right. exists result.
    split; [reflexivity|]. right. right. auto.
  - split; [congruence|].
    intros [?|[?|(r & [= <-] & [?|[?|(? & _)]])]]; try lia; discriminate.
  - split; [congruence|].
    intros [?|[?|(r & [= <-] & [?|[?|(_ & _ & _ & ?)]])]];
      try lia; discriminate.
Qed.

(** Without saturation or overflow, the age the requests call for is the
    mean written in the specification. *)
Lemma needAge_plain nowRequest u id :
  let last := updater.lastRequested u id in
  let second := updater.secondLastRequested u id in
  0 <= nowRequest - last ->
  0 <= last - second ->
  0 <= updater.minRefresh u ->
  nowRequest - second + updater.minRefresh u <= time.maxDuration ->
  updater.needAge nowRequest u id
  = ((nowRequest - last) + (last - second)) / 2 + updater.minRefresh u.
Proof.
  intros last second H1 H2 H3 H4. unfold updater.needAge, time.Since.
  fold last second.
  assert (Hq : 0 <= (nowRequest - last + (last - second)) / 2
               <= nowRequest - second).
  { split; [apply Z.div_pos; lia|].
    apply Z.div_le_upper_bound; lia. }
  unfold time.dadd, time.ddiv.
  rewrite !Sub_exact by (unfold time.minDuration; lia).
  rewrite (wrap_small (nowRequest - last + (last - second)))
    by (unfold time.minDuration; lia).
  rewrite Z.quot_div_nonneg by lia.
  rewrite (wrap_small (_ / 2)) by (unfold time.minDuration; lia).
  apply wrap_small. unfold time.minDuration. lia.
Qed.

End Updater.


(** The two searches on closed listings that fail with an item and the
    timestamp 7: the issues go on with both, the pull requests with
    neither. *)
Example failed_closed_listing_scenario :
  hubbub.fetchIssues (H0 := halfFailedBackend) demoEngine 100 [anyState] 0 tt
  = ([outsiderIssue], [closedIssue], 7, tt)
  /\ hubbub.fetchPRs (H0 := halfFailedBackend) demoEngine 100 [anyState] 0 tt
     = ([demoPR], [], 50, tt).
Proof. split; vm_compute; reflexivity. Qed.

Lemma needAge_plain_witness :
  (0 <= 500 * time.Second - updater.lastRequested demoUpdater "stats"
   /\ 0 <= updater.lastRequested demoUpdater "stats"
          - updater.secondLastRequested demoUpdater "stats"
   /\ 0 <= updater.minRefresh demoUpdater
   /\ 500 * time.Second - updater.secondLastRequested demoUpdater "stats"
      + updater.minRefresh demoUpdater <= time.maxDuration)
  /\ updater.needAge (500 * time.Second) demoUpdater "stats"
     = ((500 * time.Second - updater.lastRequested demoUpdater "stats")
        + (updater.lastRequested demoUpdater "stats"
           - updater.secondLastRequested demoUpdater "stats")) / 2
       + updater.minRefresh demoUpdater.
Proof.
  assert (H : 0 <= 500 * time.Second - updater.lastRequested demoUpdater "stats"
              /\ 0 <= updater.lastRequested demoUpdater "stats"
                     - updater.secondLastRequested demoUpdater "stats"
              /\ 0 <= updater.minRefresh demoUpdater
              /\ 500 * time.Second
                 - updater.secondLastRequested demoUpdater "stats"
                 + updater.minRefresh demoUpdater <= time.maxDuration).
  { repeat split; vm_compute; intros H; discriminate H. }
  split; [exact H|].
  destruct H as (H1 & H2 & H3 & H4).
  exact (needAge_plain (500 * time.Second) demoUpdater "stats" H1 H2 H3 H4).
Defined.

(** C6 as stated fails: for a collection used for statistics whose result
    is older than the requests call for, but not older than three times the
    maximum refresh age, every condition of the claim for an update holds
    and [shouldUpdate] returns no reason. *)
Lemma shouldUpdate_counterexample :
  view.claimedUpdate (700 * time.Second) (700 * time.Second) demoUpdater
    "stats" true false
  /\ updater.shouldUpdate (700 * time.Second) (700 * time.Second)
       demoUpdater "stats" true false = None.
Proof.
  split; [|vm_compute; reflexivity].
  right. right. eexists. split; [reflexivity|].
  cbv zeta. right. right.
  split; [vm_compute; intros H; discriminate H|].
  split; [vm_compute; intros H; discriminate H|].
  vm_compute. reflexivity.
Qed.

(** A collection that is not used for statistics is updated for its
    popularity. *)
Example shouldUpdate_popular :
  updater.shouldUpdate (500 * time.Second) (500 * time.Second)
    demoUpdater "stats" false false = Some updater.TooOldForPopularity
  /\ updater.needAge (500 * time.Second) demoUpdater "stats"
     = 85 * time.Second.
Proof. split; vm_compute; reflexivity. Qed.

(** ** More on the in-memory cache *)

Section CacheOperations.

Context {Payload : Type}.

Implicit Types (c : gmap string (persist.Item Payload)).
Implicit Types (th : persist.Thing Payload).

(** Set, then get. A thing stored by [setMem] is returned by
    [newerThanMem] for every timestamp up to its creation, as long as the
    entry has not expired; it carries the payload that was stored, and the
    creation time that was given or, if none was given, the time of the
    store. *)
Theorem setMem_then_newerThanMem now nowSet nowGet c key th c' th' t :
  persist.setMem now nowSet c key (Some th) = Ok (c', th') ->
  nowGet <= time.Add nowSet persist.MaxLoadAge ->
  t <= persist.Created th' ->
  persist.newerThanMem nowGet c' key t = Ok (Some th')
  /\ persist.Contents th' = persist.Contents th
  /\ persist.Created th' =
       (if time.IsZero (persist.Created th) then now
        else persist.Created th).
Proof.
  unfold persist.setMem. intros [= <- <-] Hlive Ht.
  split.
  - apply newerThanMem_Some. split; [|exact Ht].
    apply cacheGet_Some. eexists. split.
    + unfold persist.cacheSet. apply lookup_insert_eq.
    + split; [|reflexivity].
      unfold persist.Expired, time.UnixNano, time.Add in *. cbn.
      apply andb_false_iff. right. apply Z.ltb_ge. lia.
  - destruct (time.IsZero (persist.Created th)); split; reflexivity.
Qed.

(** A store under one key does not change what is found under another. *)
Lemma setMem_other_key now nowSet nowGet c key o c' th' key' t :
  persist.setMem now nowSet c key o = Ok (c', th') ->
  key <> key' ->
  persist.newerThanMem nowGet c' key' t = persist.newerThanMem nowGet c key' t.
Proof.
  unfold persist.setMem. destruct o as [th|]; [|discriminate].
  intros [= <- <-] Hne.
  unfold persist.newerThanMem, persist.cacheGet, persist.cacheSet.
  rewrite lookup_insert_ne by exact Hne. reflexivity.
Qed.

Lemma cacheGet_delete_ne now c key key' :
  key <> key' ->
  persist.cacheGet now (persist.cacheDelete c key) key'
  = persist.cacheGet now c key'.
Proof.
  intros Hne. unfold persist.cacheGet, persist.cacheDelete.
  rewrite lookup_delete_ne by exact Hne. reflexivity.
Qed.

(** [deleteOlderMem] removes the entry under the key unless it is visible
    and strictly newer than the timestamp, in which case the cache is left
    as it is: a missing, expired or older entry, and one created exactly at
    the timestamp, are gone afterwards. Other keys are not touched. *)
Theorem deleteOlderMem_spec now c key t c' :
  persist.deleteOlderMem now c key t = Ok c' ->
  (forall key', key <> key' -> c' !! key' = c !! key')
  /\ ((exists th, persist.newerThanMem now c key t = Ok (Some th)
                  /\ t < persist.Created th /\ c' = c)
      \/ ((forall th, persist.newerThanMem now c key t = Ok (Some th) ->
                      persist.Created th = t)
          /\ c' !! key = None)).
Proof.
  unfold persist.deleteOlderMem, bind.
  destruct (persist.newerThanMem now c key t) as [[th|]|] eqn:Hget;
    [| |discriminate].
  - unfold time.After.
    destruct (Z.ltb_spec t (persist.Created th)) as [Hlt|Hge];
      intros [= <-].
    + split; [reflexivity|]. left. exists th. auto.
    + split.
      * intros key' Hne. apply lookup_delete_ne, Hne.
      * right. split; [|apply lookup_delete_eq].
        intros th0 [= <-]. apply newerThanMem_Some in Hget. lia.
  - intros [= <-]. split.
    + intros key' Hne. apply lookup_delete_ne, Hne.
    + right. split; [discriminate|apply lookup_delete_eq].
Qed.

Lemma Expired_later now now' (it : persist.Item Payload) :
  now <= now' ->
  persist.Expired now it = true -> persist.Expired now' it = true.
Proof.
  unfold persist.Expired, time.UnixNano. intros Hle H.
  apply andb_true_iff in H as [H1 H2]. apply andb_true_iff.
  split; [exact H1|]. apply Z.ltb_lt in H2. apply Z.ltb_lt. lia.
Qed.

(** The janitor is not observable: after the expired items were deleted,
    [newerThanMem] answers as before, then and at any later time. *)
Theorem janitor_transparent now now' c key t :
  now <= now' ->
  persist.newerThanMem now' (persist.cacheDeleteExpired now c) key t
  = persist.newerThanMem now' c key t.
Proof.
  intros Hle. unfold persist.newerThanMem. f_equal.
  unfold persist.cacheGet, persist.cacheDeleteExpired.
  destruct (c !! key) as [it|] eqn:Hit.
  - destruct (persist.Expired now it) eqn:Hexp.
    + rewrite (Expired_later now now' it Hle Hexp).
      rewrite map_lookup_filter_None_2; [reflexivity|].
      right. intros it' Hit'. rewrite Hit in Hit'. injection Hit' as <-.
      cbn. rewrite Hexp. discriminate.
    + erewrite map_lookup_filter_Some_2; [reflexivity|exact Hit|].
      cbn. exact Hexp.
  - rewrite map_lookup_filter_None_2; [reflexivity|]. left. exact Hit.
Qed.

End CacheOperations.

(** ** More on the conversation builder *)

Section BuilderCounts.

Import hubbub view tally.

Context `{P : Platform}.

Implicit Types (h : Engine) (i : GitHubItem) (c : Comment) (st : loopState).

Lemma commentStep_bot h i m st c :
  isBot (Comment_User c) = true -> commentStep h i m st c = Ok st.
Proof. intros Hbot. unfold commentStep. rewrite Hbot. reflexivity. Qed.

Lemma derefLogin_GetLogin (u : option github_User) login :
  derefLogin u = Ok login -> GetLogin u = login.
Proof.
  unfold derefLogin, GetLogin. destruct u as [u|]; [|discriminate].
  destruct (Login u); [|discriminate]. congruence.
Qed.

(** What one comment that is heard does to the tags and the tallies. *)
Lemma commentStep_counts h i m st c st' :
  commentStep h i m st c = Ok st' ->
  isBot (Comment_User c) = false ->
  exists login,
    derefLogin (Comment_User c) = Ok login
    /\ Tags (co st') =
         Tags (co st)
         ++ (if memberComment h c && negb (seenMemberComment st)
             then [tag.Commented] else [])
    /\ seenMemberComment st' = seenMemberComment st || memberComment h c
    /\ seenCommenters st' = {[ login ]} ∪ seenCommenters st
    /\ Commenters (co st') =
         (if bool_decide (login ∈ seenCommenters st) then Commenters (co st)
          else Commenters (co st) ++ [Comment_User c])
    /\ ClosedCommentsTotal (co st') =
         (if afterClosed i c then iadd (ClosedCommentsTotal (co st)) 1
          else ClosedCommentsTotal (co st))
    /\ seenClosedCommenters st' =
         (if afterClosed i c then {[ login ]} ∪ seenClosedCommenters st
          else seenClosedCommenters st)
    /\ LatestAssigneeResponse (co st') =
         (if String.eqb (GetLogin (Comment_User c)) (GetLogin (GetAssignee i))
          then Comment_Created c else LatestAssigneeResponse (co st))
    /\ ReactionsTotal (co st') =
         (if 0 <? GetTotalCount (Comment_Reactions c)
          then iadd (ReactionsTotal (co st))
                 (GetTotalCount (Comment_Reactions c))
          else ReactionsTotal (co st))
    /\ State (co st') = State (co st)
    /\ Milestone (co st') = Milestone (co st)
    /\ LastCommentAuthor (co st') = Comment_User c
    /\ LastCommentBody (co st') = Comment_Body c
    /\ CurrentHoldTime (co st') = CurrentHoldTime (co st).
Proof.
  unfold commentStep, memberComment. intros Hstep Hbot.
  rewrite Hbot in *. cbn [negb andb] in *.
  destruct (derefLogin (Comment_User c)) as [login|] eqn:Hlogin;
    [|destruct (afterClosed i c); discriminate].
  exists login. split; [reflexivity|].
  revert Hstep. unfold countReactions, memberResponse, bind.
  destruct (afterClosed i c), (0 <? GetTotalCount (Comment_Reactions c));
    cbn [fst snd];
    destruct (String.eqb (GetLogin (Comment_User c)) (GetLogin (GetUser i)));
    destruct (String.eqb (GetLogin (Comment_User c)) (GetLogin (GetAssignee i)));
    destruct (isMember h (GetLogin (Comment_User c)) (Comment_AuthorAssoc c));
    cbn -[time.After time.dadd time.Sub asksQuestion iadd];
    repeat match goal with
      | |- context [if negb (seenMemberComment st) then _ else _] =>
          destruct (seenMemberComment st)
      | |- context [if negb (time.After ?a ?b) && negb m then _ else _] =>
          destruct (negb (time.After a b) && negb m)
      end;
    cbn -[time.After time.dadd time.Sub asksQuestion iadd];
    intros [= <-];
    destruct (bool_decide (login ∈ _));
    cbn -[time.After time.dadd time.Sub asksQuestion iadd];
    rewrite ?app_nil_r, ?orb_false_r, ?orb_true_r; repeat split; reflexivity.
Qed.

(** A quantity that every turn of the loop updates by [g] is, after the
    loop, the fold of [g] over the comments. *)
Lemma commentLoop_fold {A : Type} (f : loopState -> A) (g : A -> Comment -> A)
    h i m :
  (forall st c st', commentStep h i m st c = Ok st' -> f st' = g (f st) c) ->
  forall cs st st',
    commentLoop h i m st cs = Ok st' -> f st' = fold_left g cs (f st).
Proof.
  intros Hstep. induction cs as [|c cs IH]; intros st st' Hloop;
    simpl in Hloop.
  - injection Hloop as <-. reflexivity.
  - destruct (commentStep h i m st c) as [st1|] eqn:H1; [|discriminate].
    simpl in Hloop. simpl. rewrite <- (Hstep _ _ _ H1). apply IH, Hloop.
Qed.

(** Bots are not heard: on the state that [commentStep] threads, the loop
    computes the same with their comments left out. *)
Lemma commentLoop_ignores_bots h i m cs : forall st,
  commentLoop h i m st cs = commentLoop h i m st (heard cs).
Proof.
  induction cs as [|c cs IH]; intros st; [reflexivity|].
  unfold heard. cbn [List.filter commentLoop].
  destruct (isBot (Comment_User c)) eqn:Hbot; cbn [negb].
  - rewrite (commentStep_bot h i m st c Hbot). cbn [bind]. apply IH.
  - cbn [commentLoop]. destruct (commentStep h i m st c); cbn [bind];
      [apply IH|reflexivity].
Qed.

End BuilderCounts.

(** ** Bots and the cross references *)

Section BotsAndReferences.

Import hubbub tally refs.

Context `{P : Platform} {R : Type}.

Variable parseRefs : string -> Conversation -> time.Time -> R -> R.

Implicit Types (h : Engine) (i : GitHubItem) (c : Comment) (st : loopState).

(** No turn of the loop changes what identifies the conversation. *)
Lemma commentStep_identity h i m st c st' :
  commentStep h i m st c = Ok st' ->
  ID (co st') = ID (co st)
  /\ Organization (co st') = Organization (co st)
  /\ Project (co st') = Project (co st)
  /\ URL (co st') = URL (co st).
Proof.
  unfold commentStep.
  destruct (isBot (Comment_User c)) eqn:Hbot;
    [intros [= <-]; repeat split|].
  cbn [negb andb].
  destruct (derefLogin (Comment_User c)) as [login|] eqn:Hlogin;
    [|destruct (afterClosed i c); discriminate].
  unfold countReactions, memberResponse, bind.
  destruct (afterClosed i c), (0 <? GetTotalCount (Comment_Reactions c));
    cbn [fst snd];
    destruct (String.eqb (GetLogin (Comment_User c)) (GetLogin (GetUser i)));
    destruct (String.eqb (GetLogin (Comment_User c)) (GetLogin (GetAssignee i)));
    destruct (isMember h (GetLogin (Comment_User c)) (Comment_AuthorAssoc c));
    cbn -[time.After time.dadd time.Sub asksQuestion iadd];
    repeat match goal with
      | |- context [if negb (seenMemberComment st) then _ else _] =>
          destruct (seenMemberComment st)
      | |- context [if negb (time.After ?a ?b) && negb m then _ else _] =>
          destruct (negb (time.After a b) && negb m)
      end;
    cbn -[time.After time.dadd time.Sub asksQuestion iadd];
    intros [= <-];
    destruct (bool_decide (login ∈ _));
    cbn -[time.After time.dadd time.Sub asksQuestion iadd];
    repeat split; reflexivity.
Qed.

Lemma fold_left_pointwise {A B : Type} (f g : A -> B -> A) (l : list B) :
  (forall a b, f a b = g a b) ->
  forall a, fold_left f l a = fold_left g l a.
Proof.
  intros Hfg. induction l as [|b l IH]; intros a; [reflexivity|].
  cbn [fold_left]. rewrite Hfg. apply IH.
Qed.

(** A bot leaves its trace in the cross references and nowhere else:
    [parseRefs] is called on every comment, those of bots included, in
    the order of the comments, while the rest of what the loop computes is
    what it computes on the comments of the others alone. *)
Theorem bots_leave_only_references h i m cs : forall st r st' r',
  readsIdentity parseRefs ->
  commentLoopRefs parseRefs h i m st r cs = Ok (st', r') ->
  commentLoop h i m st (heard cs) = Ok st'
  /\ r' = fold_left
            (fun r c => parseRefs (Comment_Body c) (co st) (Comment_Updated c) r)
            cs r.
Proof.
  induction cs as [|c cs IH]; intros st r st' r' Hreads Hloop.
  - cbn in Hloop. injection Hloop as <- <-. split; reflexivity.
  - rewrite <- commentLoop_ignores_bots.
    cbn [commentLoopRefs] in Hloop. unfold commentStepRefs in Hloop.
    cbn [commentLoop fold_left].
    destruct (commentStep h i m st c) as [st1|p] eqn:Hstep;
      [|discriminate Hloop].
    cbn [bind fst snd] in Hloop |- *.
    destruct (IH st1 _ st' r' Hreads Hloop) as [Hstate Hrefs].
    rewrite <- commentLoop_ignores_bots in Hstate.
    split; [exact Hstate|].
    rewrite Hrefs.
    destruct (commentStep_identity h i m st c st1 Hstep)
      as (Hid & Horg & Hprj & Hurl).
    apply fold_left_pointwise. intros r0 c0.
    apply Hreads; assumption.
Qed.

End BotsAndReferences.

Section BuilderTallies.

Import hubbub view tally.

Context `{P : Platform}.

Implicit Types (h : Engine) (i : GitHubItem) (c : Comment) (st : loopState).

(** The tags [finish] appends, in their order. *)
Lemma finish_tags clk i m cs st :
  Tags (finish clk i m cs st) =
  Tags (co st)
  ++ (if time.After (LatestMemberResponse (co st))
                    (LatestAuthorResponse (co st))
      then [tag.Send] else if negb m then [tag.Recv] else [])
  ++ (if time.After (lastQuestion st) (LatestMemberResponse (co st))
      then [tag.RecvQ] else [])
  ++ (match Milestone (co st) with
      | Some ms => if String.eqb (MilestoneState ms) "open"
                   then [tag.OpenMilestone] else []
      | None => []
      end)
  ++ (if negb (time.IsZero (LatestAssigneeResponse (co st)))
      then [tag.AssigneeUpdated] else [])
  ++ lastTags i cs
  ++ (if String.eqb (State (co st)) "closed" then [tag.Closed] else []).
Proof.
  unfold finish, tagClosed, tagLast, lastTags, tagAssignee, tagMilestone,
    tagQuestion, tagResponse.
  cbn [Tags set_ClosedCommentersTotal set_CommentersTotal].
  destruct (time.After (LatestMemberResponse (co st))
              (LatestAuthorResponse (co st))); [|destruct m];
    cbn -[time.After time.IsZero String.eqb gostrings.ToLower];
    destruct (time.After (lastQuestion st) (LatestMemberResponse (co st)));
    cbn -[time.After time.IsZero String.eqb gostrings.ToLower];
    (destruct (Milestone (co st)) as [ms|];
       [destruct (String.eqb (MilestoneState ms) "open")|]);
    cbn -[time.After time.IsZero String.eqb gostrings.ToLower];
    destruct (time.IsZero (LatestAssigneeResponse (co st)));
    cbn -[time.After time.IsZero String.eqb gostrings.ToLower];
    (destruct (last cs) as [l|];
       [destruct (String.eqb (gostrings.ToLower (Comment_AuthorAssoc l)) "none");
        [destruct (String.eqb (GetLogin (Comment_User l))
                     (GetLogin (GetUser i)))|]|]);
    cbn -[time.After time.IsZero String.eqb gostrings.ToLower];
    destruct (String.eqb (State (co st)) "closed");
    cbn -[time.After time.IsZero String.eqb gostrings.ToLower];
    rewrite <- ?app_assoc; cbn [app]; rewrite ?app_nil_r; reflexivity.
Qed.

(** What [finish] does to the tallies. *)
Lemma finish_counts clk i m cs st :
  CommentersTotal (finish clk i m cs st) = Z.of_nat (size (seenCommenters st))
  /\ ClosedCommentersTotal (finish clk i m cs st)
     = Z.of_nat (size (seenClosedCommenters st))
  /\ Commenters (finish clk i m cs st) = Commenters (co st)
  /\ ClosedCommentsTotal (finish clk i m cs st) = ClosedCommentsTotal (co st)
  /\ ReactionsTotal (finish clk i m cs st) = ReactionsTotal (co st)
  /\ LatestAssigneeResponse (finish clk i m cs st)
     = LatestAssigneeResponse (co st)
  /\ LastCommentAuthor (finish clk i m cs st) = LastCommentAuthor (co st)
  /\ LastCommentBody (finish clk i m cs st) = LastCommentBody (co st)
  /\ CurrentHoldTime (finish clk i m cs st)
     = CurrentHoldTime (tagResponse clk m (co st)).
Proof.
  assert (Hresp :
    Commenters (tagResponse clk m (co st)) = Commenters (co st)
    /\ ClosedCommentsTotal (tagResponse clk m (co st))
       = ClosedCommentsTotal (co st)
    /\ ReactionsTotal (tagResponse clk m (co st)) = ReactionsTotal (co st)
    /\ LatestAssigneeResponse (tagResponse clk m (co st))
       = LatestAssigneeResponse (co st)
    /\ LastCommentAuthor (tagResponse clk m (co st))
       = LastCommentAuthor (co st)
    /\ LastCommentBody (tagResponse clk m (co st)) = LastCommentBody (co st)).
  { unfold tagResponse. destruct (time.After _ _); [|destruct m];
      repeat split; reflexivity. }
  destruct Hresp as (H1 & H2 & H3 & H4 & H5 & H6).
  rewrite <- H1, <- H2, <- H3, <- H4, <- H5, <- H6. clear H1 H2 H3 H4 H5 H6.
  unfold finish. generalize (tagResponse clk m (co st)). intros co1.
  unfold tagClosed, tagLast, tagAssignee, tagMilestone, tagQuestion.
  cbn [CommentersTotal ClosedCommentersTotal set_ClosedCommentersTotal
       set_CommentersTotal].
  split; [reflexivity|]. split; [reflexivity|].
  cbn [Commenters ClosedCommentsTotal ReactionsTotal LatestAssigneeResponse
       LastCommentAuthor LastCommentBody CurrentHoldTime].
  repeat match goal with
    | |- context [match ?x with _ => _ end] => destruct x; cbn
    end; repeat split; reflexivity.
Qed.

End BuilderTallies.

(** Equality of sets built from unions, singletons and the empty set. *)
Ltac set_ext :=
  apply set_eq; intros ?;
  rewrite ?elem_of_union, ?elem_of_singleton, ?elem_of_empty;
  rewrite ?elem_of_union, ?elem_of_singleton, ?elem_of_empty;
  tauto.

Section BuilderResults.

Import hubbub view tally.

Context `{P : Platform}.

Implicit Types (h : Engine) (i : GitHubItem) (c : Comment) (st : loopState).

Lemma wrap_add_l a b : time.wrap (time.wrap a + b) = time.wrap (a + b).
Proof.
  unfold time.wrap.
  replace ((a + 2 ^ 63) mod 2 ^ 64 - 2 ^ 63 + b + 2 ^ 63)
    with ((a + 2 ^ 63) mod 2 ^ 64 + b) by lia.
  rewrite Zplus_mod_idemp_l. f_equal. f_equal. lia.
Qed.

(** A turn of the loop either skips a bot or hears the comment. *)
Lemma commentStep_cases h i m st c st' :
  commentStep h i m st c = Ok st' ->
  (isBot (Comment_User c) = true /\ st' = st)
  \/ (isBot (Comment_User c) = false
      /\ derefLogin (Comment_User c) = Ok (commenterLogin c)).
Proof.
  intros Hstep. destruct (isBot (Comment_User c)) eqn:Hbot.
  - left. rewrite (commentStep_bot h i m st c Hbot) in Hstep.
    injection Hstep as <-. auto.
  - right. split; [reflexivity|].
    destruct (commentStep_counts h i m st c st' Hstep Hbot)
      as (login & Hlogin & _).
    rewrite Hlogin. f_equal. symmetry. apply derefLogin_GetLogin, Hlogin.
Qed.

Lemma lastTime_fold (p : Comment -> bool) cs : forall t0,
  fold_left (fun t c => if p c then Comment_Created c else t) cs t0
  = lastTime p t0 cs.
Proof. reflexivity. Qed.

(** The tags and the flag for a member comment after the loop. *)
Lemma commentLoop_commented h i m cs : forall st st',
  commentLoop h i m st cs = Ok st' ->
  Tags (co st') =
    Tags (co st)
    ++ (if existsb (memberComment h) cs && negb (seenMemberComment st)
        then [tag.Commented] else [])
  /\ seenMemberComment st' =
       seenMemberComment st || existsb (memberComment h) cs.
Proof.
  induction cs as [|c cs IH]; intros st st' Hloop; simpl in Hloop.
  - injection Hloop as <-. cbn. rewrite app_nil_r, orb_false_r. auto.
  - destruct (commentStep h i m st c) as [st1|] eqn:H1; [|discriminate].
    simpl in Hloop. apply IH in Hloop as [Htags Hseen].
    rewrite Htags, Hseen. clear Htags Hseen IH.
    destruct (isBot (Comment_User c)) eqn:Hbot.
    + rewrite (commentStep_bot h i m st c Hbot) in H1. injection H1 as <-.
      cbn [existsb].
      assert (Hmc : memberComment h c = false)
        by (unfold memberComment; rewrite Hbot; reflexivity).
      rewrite Hmc. cbn [orb]. auto.
    + destruct (commentStep_counts h i m st c st1 H1 Hbot)
        as (login & _ & Ht & Hs & _).
      rewrite Ht, Hs. cbn [existsb].
      destruct (memberComment h c), (seenMemberComment st),
        (existsb (memberComment h) cs); cbn; rewrite ?app_nil_r; auto.
Qed.

(** The fields of the item's state that the loop keeps or overwrites with
    the fields of the comments it hears. *)
Lemma commentLoop_tallies h i m cs : forall st st',
  commentLoop h i m st cs = Ok st' ->
  State (co st') = State (co st)
  /\ Milestone (co st') = Milestone (co st)
  /\ CurrentHoldTime (co st') = CurrentHoldTime (co st)
  /\ LatestAssigneeResponse (co st')
     = lastTime (assigneeComment i) (LatestAssigneeResponse (co st)) cs
  /\ (forall x, ClosedCommentsTotal (co st) = time.wrap x ->
        ClosedCommentsTotal (co st')
        = time.wrap (x + Z.of_nat (length (List.filter (closedHeard i) cs))))
  /\ (forall x, ReactionsTotal (co st) = time.wrap x ->
        ReactionsTotal (co st')
        = time.wrap
            (x + Zsum (map (fun c => GetTotalCount (Comment_Reactions c))
                         (List.filter reacted cs))))
  /\ seenCommenters st' =
       seenCommenters st ∪ list_to_set (map commenterLogin (heard cs))
  /\ seenClosedCommenters st' =
       seenClosedCommenters st
       ∪ list_to_set (map commenterLogin (List.filter (closedHeard i) cs)).
Proof.
  induction cs as [|c cs IH]; intros st st' Hloop; simpl in Hloop.
  - injection Hloop as <-. cbn.
    repeat split; try reflexivity.
    + intros x ->. f_equal. lia.
    + intros x ->. f_equal. lia.
    + set_ext.
    + set_ext.
  - destruct (commentStep h i m st c) as [st1|] eqn:H1; [|discriminate].
    simpl in Hloop.
    apply IH in Hloop as (Hstate & Hms & Hcur & Has & Hcl & Hre & Hsc & Hscl).
    clear IH.
    unfold heard, closedHeard, reacted, assigneeComment in *.
    cbn [List.filter lastTime fold_left].
    destruct (isBot (Comment_User c)) eqn:Hbot; cbn [negb andb].
    + rewrite (commentStep_bot h i m st c Hbot) in H1. injection H1 as <-.
      repeat split; assumption.
    + destruct (commentStep_counts h i m st c st1 H1 Hbot)
        as (login & Hlogin & _ & _ & Hsc1 & _ & Hcl1 & Hscl1 & Has1 & Hre1
            & Hstate1 & Hms1 & _ & _ & Hcur1).
      assert (Hl : commenterLogin c = login)
        by (apply derefLogin_GetLogin, Hlogin).
      rewrite Hstate, Hms, Hcur, Has, Hsc, Hscl.
      rewrite Hstate1, Hms1, Hcur1, Has1, Hsc1, Hscl1.
      repeat split; try reflexivity.
      * intros x Hx. rewrite Hcl1, Hx in Hcl.
        destruct (afterClosed i c); cbn [length].
        -- rewrite (Hcl (x + 1)) by (unfold iadd; apply wrap_add_l).
           f_equal. lia.
        -- apply Hcl. reflexivity.
      * intros x Hx. rewrite Hre1, Hx in Hre.
        destruct (0 <? GetTotalCount (Comment_Reactions c));
          cbn [map Zsum fold_right].
        -- rewrite (Hre (x + GetTotalCount (Comment_Reactions c)))
             by (unfold iadd; apply wrap_add_l).
           f_equal. unfold Zsum. lia.
        -- apply Hre. reflexivity.
      * cbn [map list_to_set]. rewrite Hl. set_ext.
      * destruct (afterClosed i c); cbn [map list_to_set];
          rewrite ?Hl; [set_ext|reflexivity].
Qed.

(** The commenters are listed once each, and the set of logins seen is the
    set of their logins. *)
Lemma commentLoop_commenters h i m cs : forall st st',
  commentLoop h i m st cs = Ok st' ->
  seenCommenters st = list_to_set (logins (Commenters (co st))) ->
  List.NoDup (logins (Commenters (co st))) ->
  seenCommenters st' = list_to_set (logins (Commenters (co st')))
  /\ List.NoDup (logins (Commenters (co st'))).
Proof.
  induction cs as [|c cs IH]; intros st st' Hloop Hset Hnd; simpl in Hloop.
  - injection Hloop as <-. auto.
  - destruct (commentStep h i m st c) as [st1|] eqn:H1; [|discriminate].
    simpl in Hloop. apply (IH st1 st' Hloop); clear IH Hloop.
    + destruct (isBot (Comment_User c)) eqn:Hbot.
      * rewrite (commentStep_bot h i m st c Hbot) in H1. injection H1 as <-.
        exact Hset.
      * destruct (commentStep_counts h i m st c st1 H1 Hbot)
          as (login & Hlogin & _ & _ & Hsc1 & Hco1 & _).
        rewrite Hsc1, Hco1.
        destruct (bool_decide_reflect (login ∈ seenCommenters st)) as [Hin|Hout].
        -- rewrite <- Hset.
           apply subseteq_union_1_L, singleton_subseteq_l, Hin.
        -- unfold logins. rewrite map_app. cbn [map].
           rewrite (derefLogin_GetLogin _ _ Hlogin).
           rewrite list_to_set_app_L. fold (logins (Commenters (co st))).
           rewrite <- Hset. cbn [list_to_set]. set_ext.
    + destruct (isBot (Comment_User c)) eqn:Hbot.
      * rewrite (commentStep_bot h i m st c Hbot) in H1. injection H1 as <-.
        exact Hnd.
      * destruct (commentStep_counts h i m st c st1 H1 Hbot)
          as (login & Hlogin & _ & _ & _ & Hco1 & _).
        rewrite Hco1.
        destruct (bool_decide_reflect (login ∈ seenCommenters st)) as [Hin|Hout];
          [exact Hnd|].
        unfold logins. rewrite map_app. cbn [map].
        rewrite (derefLogin_GetLogin _ _ Hlogin).
        apply NoDup_ListNoDup, NoDup_app. split; [|split].
        -- apply NoDup_ListNoDup, Hnd.
        -- intros x Hx Hx1. apply list_elem_of_singleton in Hx1 as ->.
           apply Hout. rewrite Hset. apply elem_of_list_to_set. exact Hx.
        -- apply NoDup_singleton.
Qed.

End BuilderResults.

Section BuilderTheorems.

Import hubbub view tally.

Context `{P : Platform}.

Implicit Types (h : Engine) (i : GitHubItem) (c : Comment) (st : loopState).

Lemma newConversation_fields h i age co0 :
  newConversation h i age = Ok co0 ->
  Tags co0 = (match GetAssignee i with
              | Some _ => [tag.Assigned] | None => [] end)
  /\ State co0 = GetState i
  /\ Milestone co0 = GetMilestone i
  /\ Commenters co0 = []
  /\ ClosedCommentsTotal co0 = 0
  /\ ReactionsTotal co0 = 0
  /\ LatestAssigneeResponse co0 = time.zero
  /\ CurrentHoldTime co0 = 0.
Proof.
  unfold newConversation.
  destruct (gostrings.Split (GetHTMLURL i) "/" !! 3%nat); [|discriminate].
  destruct (gostrings.Split (GetHTMLURL i) "/" !! 4%nat); [|discriminate].
  intros [= <-]. cbn. repeat split; reflexivity.
Qed.

Lemma fold_stepTimes_author h i m cs : forall t,
  tAuthor (fold_left (stepTimes h i m) cs t)
  = lastTime (authorComment i) (tAuthor t) cs.
Proof.
  induction cs as [|c cs IH]; intros t; [reflexivity|].
  cbn [fold_left lastTime]. rewrite IH. unfold lastTime. f_equal.
  unfold stepTimes, authorComment.
  destruct (isBot (Comment_User c)); [reflexivity|]. cbn [negb andb].
  destruct (memberComment h c); reflexivity.
Qed.

Lemma fold_stepTimes_question h i m cs : forall t,
  tQuestion (fold_left (stepTimes h i m) cs t)
  = lastTime (fun c => negb (isBot (Comment_User c))
                       && asksQuestion (Comment_Body c)) (tQuestion t) cs.
Proof.
  induction cs as [|c cs IH]; intros t; [reflexivity|].
  cbn [fold_left lastTime]. rewrite IH. unfold lastTime. f_equal.
  apply stepTimes_question.
Qed.

(** The state after the loop, read off the item and the comments. *)
Lemma loop_result h i cs age co0 st :
  newConversation h i age = Ok co0 ->
  commentLoop h i (isMember h (GetLogin (GetUser i)) (GetAuthorAssociation i))
    (initLoop co0) cs = Ok st ->
  LatestAuthorResponse (co st) = authorTime i cs
  /\ LatestMemberResponse (co st) = memberTime h i cs
  /\ lastQuestion st = questionTime cs
  /\ LatestAssigneeResponse (co st) = assigneeTime i cs
  /\ Tags (co st) =
       (match GetAssignee i with Some _ => [tag.Assigned] | None => [] end)
       ++ (if existsb (memberComment h) cs then [tag.Commented] else [])
  /\ State (co st) = GetState i
  /\ Milestone (co st) = GetMilestone i
  /\ CurrentHoldTime (co st) = 0.
Proof.
  intros Hnew Hloop.
  pose proof (newConversation_start h i age co0 Hnew)
    as (_ & Ha0 & Hm0 & _ & _).
  pose proof (newConversation_fields h i age co0 Hnew)
    as (Ht0 & Hs0 & Hms0 & _ & _ & _ & Has0 & Hcur0).
  pose proof (commentLoop_times _ _ _ _ _ _ Hloop) as (Htimes & _ & _).
  pose proof (commentLoop_commented _ _ _ _ _ _ Hloop) as (Htags & _).
  pose proof (commentLoop_tallies _ _ _ _ _ _ Hloop)
    as (Hs & Hms & Hcur & Has & _).
  cbn [initLoop co seenMemberComment] in *.
  change (LatestAuthorResponse (co st)) with (tAuthor (timesOf st)).
  change (LatestMemberResponse (co st)) with (tMember (timesOf st)).
  change (lastQuestion st) with (tQuestion (timesOf st)).
  rewrite Htimes, fold_stepTimes_author, fold_stepTimes_member,
    fold_stepTimes_question.
  unfold timesOf. cbn [tAuthor tMember tQuestion initLoop co lastQuestion].
  rewrite Ha0, Hm0, Has, Has0, Htags, Ht0, Hs, Hs0, Hms, Hms0, Hcur, Hcur0.
  rewrite andb_true_r.
  repeat split; reflexivity.
Qed.

(** The tags of a conversation are a function of the members, the item and
    the comments: [assigned], [commented], [send] or [recv], [recv-q],
    [open-milestone], [assignee-updated], the tag of the last commenter and
    [closed], in this order, each under its condition. Neither the clock
    nor the age of the data changes them. *)
Theorem conversation_tags clk h i cs age co' :
  conversation clk h i cs age = Ok co' ->
  Tags co' = derivedTags h i cs.
Proof.
  intros H. apply conversation_inv in H as (co0 & st & Hnew & Hloop & -> & _).
  destruct (loop_result h i cs age co0 st Hnew Hloop)
    as (Ha & Hm & Hq & Has & Ht & Hs & Hms & _).
  rewrite finish_tags, Ha, Hm, Hq, Has, Ht, Hs, Hms.
  unfold derivedTags. rewrite <- !app_assoc. reflexivity.
Qed.

(** The latest response of the author starts at the creation of the item
    and moves to each comment that is heard and carries the author's login;
    the latest response of the assignee starts at the zero time and moves
    to each comment that is heard and carries the assignee's login. *)
Theorem author_and_assignee_response_times clk h i cs age co' :
  conversation clk h i cs age = Ok co' ->
  LatestAuthorResponse co' = authorTime i cs
  /\ LatestAssigneeResponse co' = assigneeTime i cs.
Proof.
  intros H. apply conversation_inv in H as (co0 & st & Hnew & Hloop & -> & _).
  destruct (loop_result h i cs age co0 st Hnew Hloop)
    as (Ha & _ & _ & Has & _).
  destruct (finish_fields clk i
              (isMember h (GetLogin (GetUser i)) (GetAuthorAssociation i))
              cs st) as (_ & _ & -> & _).
  destruct (finish_counts clk i
              (isMember h (GetLogin (GetUser i)) (GetAuthorAssociation i))
              cs st) as (_ & _ & _ & _ & _ & -> & _).
  auto.
Qed.

(** The commenters of a conversation are the users of the comments that
    are heard, listed once per login, and their total is their number. *)
Theorem commenters_are_counted_once clk h i cs age co' :
  conversation clk h i cs age = Ok co' ->
  CommentersTotal co' = Z.of_nat (length (Commenters co'))
  /\ List.NoDup (logins (Commenters co'))
  /\ forall l, In l (logins (Commenters co'))
               <-> exists c, In c (heard cs) /\ commenterLogin c = l.
Proof.
  intros H. apply conversation_inv in H as (co0 & st & Hnew & Hloop & -> & _).
  apply newConversation_fields in Hnew as (_ & _ & _ & Hc0 & _).
  destruct (finish_counts clk i
              (isMember h (GetLogin (GetUser i)) (GetAuthorAssociation i))
              cs st) as (-> & _ & -> & _).
  destruct (commentLoop_commenters _ _ _ _ _ _ Hloop) as [Hset Hnd].
  { cbn [initLoop co seenCommenters]. rewrite Hc0. reflexivity. }
  { cbn [initLoop co]. rewrite Hc0. constructor. }
  pose proof (commentLoop_tallies _ _ _ _ _ _ Hloop)
    as (_ & _ & _ & _ & _ & _ & Hseen & _).
  cbn [initLoop seenCommenters] in Hseen.
  split; [|split; [exact Hnd|]].
  - rewrite Hset. rewrite size_list_to_set by (apply NoDup_ListNoDup, Hnd).
    unfold logins. rewrite length_map. reflexivity.
  - intros l.
    assert (Hl : l ∈ seenCommenters st <-> In l (logins (Commenters (co st)))).
    { rewrite Hset, elem_of_list_to_set, list_elem_of_In. reflexivity. }
    rewrite <- Hl, Hseen, elem_of_union, elem_of_list_to_set,
      list_elem_of_In, in_map_iff.
    split.
    + intros [Hempty|(c & Hc & Hin)]; [|eauto].
      apply elem_of_empty in Hempty. contradiction.
    + intros (c & Hin & Hc). right. eauto.
Qed.

(** The comments made more than 30 seconds after the item was closed and
    heard are counted, and so are the distinct logins of their authors. *)
Theorem closed_comments_are_counted clk h i cs age co' :
  conversation clk h i cs age = Ok co' ->
  ClosedCommentsTotal co'
  = time.wrap (Z.of_nat (length (List.filter (closedHeard i) cs)))
  /\ ClosedCommentersTotal co'
     = Z.of_nat
         (size (list_to_set
                  (map commenterLogin (List.filter (closedHeard i) cs))
                : gset string)).
Proof.
  intros H. apply conversation_inv in H as (co0 & st & Hnew & Hloop & -> & _).
  apply newConversation_fields in Hnew as (_ & _ & _ & _ & Hc0 & _).
  destruct (finish_counts clk i
              (isMember h (GetLogin (GetUser i)) (GetAuthorAssociation i))
              cs st) as (_ & -> & _ & -> & _).
  pose proof (commentLoop_tallies _ _ _ _ _ _ Hloop)
    as (_ & _ & _ & _ & Hcl & _ & _ & Hscl).
  cbn [initLoop co seenClosedCommenters] in Hcl, Hscl.
  split.
  - rewrite (Hcl 0) by (rewrite Hc0; reflexivity). f_equal.
  - rewrite Hscl. f_equal. f_equal. set_ext.
Qed.

(** The total of the reactions is the sum, as an int, of the counts of
    the comments that are heard and have a positive count. *)
Theorem reactions_are_summed clk h i cs age co' :
  conversation clk h i cs age = Ok co' ->
  ReactionsTotal co'
  = time.wrap (Zsum (map (fun c => GetTotalCount (Comment_Reactions c))
                       (List.filter reacted cs))).
Proof.
  intros H. apply conversation_inv in H as (co0 & st & Hnew & Hloop & -> & _).
  apply newConversation_fields in Hnew as (_ & _ & _ & _ & _ & Hr0 & _).
  destruct (finish_counts clk i
              (isMember h (GetLogin (GetUser i)) (GetAuthorAssociation i))
              cs st) as (_ & _ & _ & _ & -> & _).
  pose proof (commentLoop_tallies _ _ _ _ _ _ Hloop)
    as (_ & _ & _ & _ & _ & Hre & _).
  cbn [initLoop co] in Hre.
  rewrite (Hre 0) by (rewrite Hr0; reflexivity). f_equal.
Qed.

(** The current hold time is the time since the latest response of the
    author when the conversation is tagged [recv], and zero otherwise. *)
Theorem current_hold_time clk h i cs age co' :
  conversation clk h i cs age = Ok co' ->
  CurrentHoldTime co' =
  (if time.After (memberTime h i cs) (authorTime i cs) then 0
   else if isMember h (GetLogin (GetUser i)) (GetAuthorAssociation i) then 0
   else time.Since (nowCurrentHold clk) (authorTime i cs)).
Proof.
  intros H. apply conversation_inv in H as (co0 & st & Hnew & Hloop & -> & _).
  destruct (loop_result h i cs age co0 st Hnew Hloop)
    as (Ha & Hm & _ & _ & _ & _ & _ & Hcur).
  destruct (finish_counts clk i
              (isMember h (GetLogin (GetUser i)) (GetAuthorAssociation i))
              cs st) as (_ & _ & _ & _ & _ & _ & _ & _ & ->).
  unfold tagResponse. rewrite Ha, Hm.
  destruct (time.After _ _); [reflexivity|].
  destruct (isMember h _ _); cbn [negb]; [exact Hcur|].
  cbn [CurrentHoldTime set_AccumulatedHoldTime set_CurrentHoldTime].
  cbn [CurrentHoldTime addTag set_Tags]. rewrite Hcur.
  unfold time.dadd, time.Since. cbn [Z.add].
  apply wrap_small, Sub_range.
Qed.

End BuilderTheorems.

Section BuilderOutcomes.

Import hubbub view tally.

Context `{P : Platform}.

Implicit Types (h : Engine) (i : GitHubItem) (c : Comment) (st : loopState).

Lemma commentStep_ok h i m st c :
  isBot (Comment_User c) = true
  \/ is_ok (derefLogin (Comment_User c)) = true ->
  exists st', commentStep h i m st c = Ok st'.
Proof.
  intros H. unfold commentStep, bind.
  destruct (isBot (Comment_User c)); [eauto|].
  destruct H as [H|H]; [discriminate|].
  destruct (derefLogin (Comment_User c)) as [login|]; [|discriminate].
  destruct (afterClosed i c); eauto.
Qed.

(** The loop comes to its end exactly when whoever is heard has a
    login. *)
Lemma commentLoop_ok_iff h i m cs : forall st,
  (exists st', commentLoop h i m st cs = Ok st') <-> loginsPresent cs.
Proof.
  unfold loginsPresent, heard.
  induction cs as [|c cs IH]; intros st; cbn [commentLoop List.filter].
  - split; [intros _ c []|eauto].
  - split.
    + intros [st' Hloop].
      destruct (commentStep h i m st c) as [st1|] eqn:H1; [|discriminate].
      cbn [bind] in Hloop.
      assert (Hrest : forall c', In c' (List.filter
                 (fun c => negb (isBot (Comment_User c))) cs) ->
                 is_ok (derefLogin (Comment_User c')) = true).
      { apply (IH st1). eauto. }
      destruct (commentStep_cases h i m st c st1 H1)
        as [[Hbot _]|[Hbot Hlogin]]; rewrite Hbot; cbn [negb].
      * exact Hrest.
      * intros c' [<-|Hin]; [rewrite Hlogin; reflexivity|auto].
    + intros Hall.
      destruct (commentStep_ok h i m st c) as [st1 H1].
      { destruct (isBot (Comment_User c)) eqn:Hbot; [auto|].
        right. apply Hall. cbn [negb]. left. reflexivity. }
      rewrite H1. cbn [bind]. apply IH.
      intros c' Hin. apply Hall.
      destruct (isBot (Comment_User c)); cbn [negb]; [exact Hin|].
      right. exact Hin.
Qed.

Lemma newConversation_ok_iff h i age :
  (exists co0, newConversation h i age = Ok co0)
  <-> (5 <= length (gostrings.Split (GetHTMLURL i) "/"))%nat.
Proof.
  unfold newConversation.
  destruct (gostrings.Split (GetHTMLURL i) "/" !! 3%nat) as [org|] eqn:H3;
    [destruct (gostrings.Split (GetHTMLURL i) "/" !! 4%nat) as [prj|] eqn:H4|].
  - split; [|eauto]. intros _. apply lookup_lt_Some in H4. lia.
  - split; [intros [? [=]]|]. apply lookup_ge_None in H4. lia.
  - split; [intros [? [=]]|]. apply lookup_ge_None in H3. lia.
Qed.

(** How [conversation] panics, apart from the check of the hold time: on
    an index out of range exactly when the URL of the item has fewer than
    five parts between slashes, and on a nil dereference exactly when the
    URL is long enough and a comment that is heard has no login. *)
Theorem conversation_panics clk h i cs age :
  (conversation clk h i cs age = Panic IndexOutOfRange
   <-> (length (gostrings.Split (GetHTMLURL i) "/") < 5)%nat)
  /\ (conversation clk h i cs age = Panic NilDereference
      <-> (5 <= length (gostrings.Split (GetHTMLURL i) "/"))%nat
          /\ exists c, In c (heard cs)
                       /\ is_ok (derefLogin (Comment_User c)) = false).
Proof.
  pose proof (newConversation_ok_iff h i age) as Hnew.
  unfold conversation, bind.
  destruct (newConversation h i age) as [co0|p0] eqn:H0.
  - assert (Hlen : (5 <= length (gostrings.Split (GetHTMLURL i) "/"))%nat)
      by (apply Hnew; eauto).
    pose proof (commentLoop_ok_iff h i
                  (isMember h (GetLogin (GetUser i)) (GetAuthorAssociation i))
                  cs (initLoop co0)) as Hloop.
    destruct (commentLoop h i _ (initLoop co0) cs) as [st|p1] eqn:H1.
    + assert (Hall : loginsPresent cs) by (apply Hloop; eauto).
      unfold checkHold. split.
      * split; [destruct (_ <? _); discriminate|lia].
      * split; [destruct (_ <? _); discriminate|].
        intros (_ & c & Hin & Hc). rewrite (Hall c Hin) in Hc. discriminate.
    + apply commentLoop_panic in H1 as Hp. subst p1. split.
      * split; [discriminate|lia].
      * split; [|reflexivity]. intros _. split; [exact Hlen|].
        destruct (List.existsb
                    (fun c => negb (is_ok (derefLogin (Comment_User c))))
                    (heard cs)) eqn:Hex.
        -- apply existsb_exists in Hex as (c & Hin & Hc). exists c.
           split; [exact Hin|]. destruct (is_ok _); [discriminate|reflexivity].
        -- exfalso. assert (Hall : loginsPresent cs).
           { intros c Hin.
             destruct (is_ok (derefLogin (Comment_User c))) eqn:Hc;
               [reflexivity|].
             assert (Hex' : List.existsb
                       (fun c => negb (is_ok (derefLogin (Comment_User c))))
                       (heard cs) = true).
             { apply existsb_exists. exists c. rewrite Hc. auto. }
             rewrite Hex in Hex'. discriminate. }
           apply Hloop in Hall as [st' Hst']. discriminate.
  - apply newConversation_panic in H0 as Hp. subst p0.
    assert (Hlen : ~ (5 <= length (gostrings.Split (GetHTMLURL i) "/"))%nat).
    { intros Hlen. apply Hnew in Hlen as [co0 Hco0]. discriminate. }
    split.
    + split; [lia|reflexivity].
    + split; [discriminate|]. intros [Hlen' _]. contradiction.
Qed.

(** [conversation] returns a conversation when the URL of the item has at
    least five parts, whoever is heard has a login, and the comments come
    in chronological order between the creation of the item and now. *)
Theorem conversation_succeeds clk h i cs age :
  (5 <= length (gostrings.Split (GetHTMLURL i) "/"))%nat ->
  loginsPresent cs ->
  GetCreatedAt i <= nowCurrentHold clk ->
  nowCurrentHold clk <= nowAccumulated clk <= nowAge clk ->
  Sorted Z.le (map Comment_Created cs) ->
  Forall (fun c => GetCreatedAt i <= Comment_Created c <= nowCurrentHold clk)
         cs ->
  exists co', conversation clk h i cs age = Ok co'.
Proof.
  intros Hlen Hall Hcreated Hclk Hsorted Hbetween.
  apply (newConversation_ok_iff h i age) in Hlen as [co0 Hnew].
  apply (commentLoop_ok_iff h i
           (isMember h (GetLogin (GetUser i)) (GetAuthorAssociation i))
           cs (initLoop co0)) in Hall as [st Hloop].
  destruct (hold_bounded clk h i cs age co0 st Hcreated Hclk Hsorted Hbetween
              Hnew Hloop) as [_ Hfinal].
  unfold conversation, bind. rewrite Hnew, Hloop. unfold checkHold.
  destruct (finish_fields clk i
              (isMember h (GetLogin (GetUser i)) (GetAuthorAssociation i))
              cs st) as (Hc & _ & _ & Hacc).
  rewrite Hc, Hacc.
  apply commentLoop_times in Hloop as (_ & Hc' & _). rewrite Hc'.
  apply newConversation_start in Hnew as (Hc0 & _). cbn [initLoop co].
  rewrite Hc0.
  destruct (Z.ltb_spec (time.Since (nowAge clk) (GetCreatedAt i))
              (AccumulatedHoldTime
                 (tagResponse clk
                    (isMember h (GetLogin (GetUser i))
                       (GetAuthorAssociation i)) (co st)))); [lia|].
  eauto.
Qed.

End BuilderOutcomes.

(** ** Members *)

Lemma lowerByte_idempotent (c : ascii) :
  gostrings.lowerByte (gostrings.lowerByte c) = gostrings.lowerByte c.
Proof. destruct c as [[] [] [] [] [] [] [] []]; reflexivity. Qed.

Lemma ToLower_idempotent (s : string) :
  gostrings.ToLower (gostrings.ToLower s) = gostrings.ToLower s.
Proof.
  induction s as [|c s IH]; [reflexivity|].
  cbn [gostrings.ToLower]. rewrite lowerByte_idempotent, IH. reflexivity.
Qed.

(** A user is a member exactly when the login is listed with [true] among
    the members or the role, in lower case, is listed with [true] among
    the member roles; so the case of the letters of a role does not
    matter. *)
Theorem isMember_iff (h : hubbub.Engine) (user role : string) :
  (hubbub.isMember h user role = true
   <-> hubbub.members h !! user = Some true
       \/ hubbub.memberRoles h !! gostrings.ToLower role = Some true)
  /\ hubbub.isMember h user (gostrings.ToLower role)
     = hubbub.isMember h user role.
Proof.
  unfold hubbub.isMember. rewrite ToLower_idempotent. split; [|reflexivity].
  destruct (hubbub.members h !! user) as [[]|];
    destruct (hubbub.memberRoles h !! gostrings.ToLower role) as [[]|];
    cbn; split; intros H; auto;
    try discriminate; destruct H as [H|H]; discriminate.
Qed.

(** ** More on the searches *)

Section SearchComposition.

Import hubbub view.

Context `{B : Backend}.

Implicit Types (h : Engine) (fs : list Filter) (w : World).

(** [SearchAny] returns no error; its conversations are those of
    [SearchIssues] followed by those of [SearchPullRequests], which runs in
    the world the first search left. *)
Theorem SearchAny_composes h nowIssues nowPRs fs newerThan hidden w :
  let issues := SearchIssues h nowIssues fs newerThan hidden w in
  let prs := SearchPullRequests h nowPRs fs newerThan hidden (snd issues) in
  found (SearchAny h nowIssues nowPRs fs newerThan hidden w)
    = found issues ++ found prs
  /\ errorOf (SearchAny h nowIssues nowPRs fs newerThan hidden w) = None
  /\ snd (SearchAny h nowIssues nowPRs fs newerThan hidden w) = snd prs.
Proof.
  cbv zeta. unfold SearchAny.
  pose proof (SearchIssues_fields h nowIssues fs newerThan hidden w) as [He _].
  destruct (SearchIssues h nowIssues fs newerThan hidden w)
    as [[[cs ts] err] w1].
  unfold errorOf in He. cbn [fst snd] in He. subst err. cbn [snd].
  pose proof (SearchPullRequests_fields h nowPRs fs newerThan hidden w1)
    as [He _].
  destruct (SearchPullRequests h nowPRs fs newerThan hidden w1)
    as [[[pcs pts] err] w2].
  unfold errorOf in He. cbn [fst snd] in He. subst err.
  repeat split.
Qed.

(** Which filters need the closed items. *)
Lemma NeedsClosed_false_iff fs :
  NeedsClosed fs = false <->
  Forall (fun f => ClosedCommenters f = EmptyString
                   /\ ClosedComments f = EmptyString
                   /\ (Filter_State f = EmptyString
                       \/ Filter_State f = "open"%string)) fs.
Proof.
  induction fs as [|f fs IH]; cbn [NeedsClosed].
  - split; [constructor|reflexivity].
  - rewrite List.Forall_cons_iff, <- IH.
    destruct (String.eqb_spec (ClosedCommenters f) "") as [->|H1]; cbn.
    2: { split; [discriminate|]. intros [[? _] _]. contradiction. }
    destruct (String.eqb_spec (ClosedComments f) "") as [->|H2]; cbn.
    2: { split; [discriminate|]. intros [(_ & ? & _) _]. contradiction. }
    destruct (String.eqb_spec (Filter_State f) "") as [->|H3]; cbn.
    { split; auto. tauto. }
    destruct (String.eqb_spec (Filter_State f) "open") as [->|H4]; cbn.
    { split; auto. tauto. }
    split; [discriminate|]. intros [(_ & _ & [?|?]) _]; contradiction.
Qed.

(** The closed listing is fetched on demand only: when no filter has a
    closed-commenters or closed-comments expression or a state other than
    [open], the searches fetch the open listing and nothing else, and
    inspect no closed item. *)
Theorem closed_listing_on_demand h now fs newerThan w :
  Forall (fun f => ClosedCommenters f = EmptyString
                   /\ ClosedComments f = EmptyString
                   /\ (Filter_State f = EmptyString
                       \/ Filter_State f = "open"%string)) fs ->
  (snd (fst (fst (fetchIssues h now fs newerThan w))) = []
   /\ snd (fetchIssues h now fs newerThan w)
      = snd (cachedIssues "open" 0 newerThan w))
  /\ (snd (fst (fst (fetchPRs h now fs newerThan w))) = []
      /\ snd (fetchPRs h now fs newerThan w)
         = snd (cachedPRs "open" 0 newerThan w)).
Proof.
  intros Hfs. apply NeedsClosed_false_iff in Hfs.
  unfold fetchIssues, fetchPRs. rewrite Hfs. cbn [negb].
  destruct (cachedIssues "open" 0 newerThan w).
  destruct (cachedPRs "open" 0 newerThan w).
  repeat split.
Qed.

(** The de-duplication loses no URL: without a debug filter, every listed
    issue has its URL among the issues that are filtered. *)
Lemma uniqueIssues_covers h l : forall seen i,
  size (debug h) = 0%nat ->
  In i l ->
  GetURL i ∈ seen
  \/ exists j, In j (uniqueIssues h seen l) /\ GetURL j = GetURL i.
Proof.
  induction l as [|k l IH]; intros seen i Hdebug Hin; [destruct Hin|].
  cbn [uniqueIssues]. unfold skippedByDebug. rewrite Hdebug. cbn.
  destruct (bool_decide_reflect (GetURL k ∈ seen)) as [Hseen|Hnew].
  - destruct Hin as [<-|Hin]; [auto|]. apply IH; assumption.
  - destruct Hin as [<-|Hin];
      [right; exists k; split; [left; reflexivity|reflexivity]|].
    destruct (IH ({[GetURL k]} ∪ seen) i Hdebug Hin) as [Hs|(j & Hj & Hurl)].
    + apply elem_of_union in Hs as [Hs|Hs]; [|auto].
      apply elem_of_singleton in Hs. right. exists k.
      split; [left; reflexivity|auto].
    + right. exists j. split; [right; exact Hj|exact Hurl].
Qed.

Theorem uniqueIssues_complete h l i :
  size (debug h) = 0%nat ->
  In i l ->
  exists j, In j (uniqueIssues h ∅ l) /\ GetURL j = GetURL i.
Proof.
  intros Hdebug Hin.
  destruct (uniqueIssues_covers h l ∅ i Hdebug Hin) as [Hs|Hex];
    [|exact Hex].
  apply elem_of_empty in Hs. contradiction.
Qed.

End SearchComposition.

(** ** The dispatch of the enrichments *)

Section Dispatch.

Import hubbub dispatch.

Context `{P : Platform}.

Implicit Types (i : GitHubItem) (fs : list FilterNeeds).

(** The filters do not change whether the reviews are needed: they are,
    exactly for an open item that was updated since its creation and is
    not on a hidden page. *)
Theorem needReviews_ignores_filters i fs hidden :
  needReviews i fs hidden
  = isOpen i && negb (neverUpdated i) && negb hidden.
Proof.
  unfold needReviews.
  destruct (isOpen i), (neverUpdated i), hidden, (reviewsDemanded fs);
    reflexivity.
Qed.

(** The two revisions of [needComments] and of [needTimeline] agree. *)
Theorem dispatch_revisions_agree i fs pr hidden :
  needComments_sp i fs = needComments i fs
  /\ needTimeline_sp i fs pr hidden = needTimeline i fs pr hidden.
Proof.
  split.
  - induction fs as [|f fs IH]; cbn [needComments needComments_sp].
    + destruct (isOpen i); reflexivity.
    + rewrite IH. reflexivity.
  - unfold needTimeline_sp, needTimeline.
    destruct (GetMilestone i); [reflexivity|].
    destruct (negb (isOpen i)), (neverUpdated i), pr, (timelineDemanded fs),
      hidden; reflexivity.
Qed.

(** The comments of an open item are always needed; those of another item
    are needed exactly when a filter matches a tag that needs comments or
    has an expression on closed commenters, closed comments, responses or
    commenters. *)
Lemma needComments_closed_form i fs :
  needComments i fs
  = isOpen i
    || existsb (fun f => tagNeeds NeedsComments f
                         || nonEmpty (ClosedCommenters (base f))
                         || nonEmpty (ClosedComments (base f))
                         || nonEmpty (Responded f)
                         || nonEmpty (Commenters f)) fs.
Proof.
  induction fs as [|f fs IH]; cbn [needComments existsb].
  - destruct (isOpen i); reflexivity.
  - rewrite IH.
    destruct (tagNeeds NeedsComments f),
      (nonEmpty (ClosedCommenters (base f))),
      (nonEmpty (ClosedComments (base f))), (nonEmpty (Responded f)),
      (nonEmpty (Commenters f)), (isOpen i); reflexivity.
Qed.

(** The timeline of an item in a milestone is always needed; otherwise it
    is needed only for an open item updated since its creation, and then
    for a pull request, on a filter's demand, or on a page that is not
    hidden. *)
Lemma needTimeline_closed_form i fs pr hidden :
  needTimeline i fs pr hidden
  = match GetMilestone i with
    | Some _ => true
    | None =>
        isOpen i && negb (neverUpdated i)
        && (pr
            || existsb (fun f => tagNeeds NeedsTimeline f
                                 || nonEmpty (Prioritized f)) fs
            || negb hidden)
    end.
Proof.
  unfold needTimeline. destruct (GetMilestone i); [reflexivity|].
  assert (Hd : timelineDemanded fs
               = existsb (fun f => tagNeeds NeedsTimeline f
                                   || nonEmpty (Prioritized f)) fs).
  { induction fs as [|f fs IH]; cbn [timelineDemanded existsb];
      [reflexivity|]. rewrite IH.
    destruct (tagNeeds NeedsTimeline f), (nonEmpty (Prioritized f));
      reflexivity. }
  rewrite Hd.
  destruct (isOpen i), (neverUpdated i), pr, (existsb _ fs), hidden;
    reflexivity.
Qed.

End Dispatch.

(** ** More on the updater *)

Section Service.

Import updater service.

Context {O : Type}.

Implicit Types (u : Updater O) (s : Collection) (ob : observed O).

(** A forced update always has a reason. *)
Theorem forced_shouldUpdate nowResult nowRequest u id usedForStats :
  shouldUpdate nowResult nowRequest u id usedForStats true <> None.
Proof.
  unfold shouldUpdate.
  destruct (updateCycles u <? 2); [discriminate|].
  destruct (cache u !! id); [|discriminate].
  destruct (maxAge u usedForStats <? _); discriminate.
Qed.

(** A refresh only ever writes the cache, under the id of the collection
    it looked up, and never removes a result. *)
Lemma refresh_frame u ob newerThan force :
  let u' := fst (refresh u ob newerThan force) in
  maxRefresh u' = maxRefresh u
  /\ minRefresh u' = minRefresh u
  /\ lastRequest u' = lastRequest u
  /\ secondLastRequest u' = secondLastRequest u
  /\ startTime u' = startTime u
  /\ updateCycles u' = updateCycles u
  /\ (forall id, id <> ID (fst (looked ob)) -> cache u' !! id = cache u !! id)
  /\ (forall id, is_Some (cache u !! id) -> is_Some (cache u' !! id))
  /\ (refresh u ob newerThan force = (u', (true, None)) \/ u' = u).
Proof.
  cbv zeta. unfold refresh, RefreshCollection, update.
  destruct (snd (looked ob)); [cbn; repeat split; auto|].
  destruct (shouldUpdate _ _ _ _ _ _); [|cbn; repeat split; auto].
  destruct (snd (executed ob newerThan)); [cbn; repeat split; auto|].
  cbn [fst snd cache maxRefresh minRefresh lastRequest secondLastRequest
       startTime updateCycles].
  repeat split; auto.
  - intros id Hne. apply lookup_insert_ne. congruence.
  - intros id Hsome.
    destruct (decide (ID (fst (looked ob)) = id)) as [->|Hne].
    + rewrite lookup_insert_eq. eauto.
    + rewrite lookup_insert_ne by exact Hne. exact Hsome.
Qed.

(** A forced refresh of a collection that is found executes it: the new
    result is cached when there is no error, and the updater is left as it
    was when there is one. *)
Lemma refresh_forced u ob newerThan :
  snd (looked ob) = None ->
  refresh u ob newerThan true
  = (fst (update u (fst (looked ob)) (executed ob newerThan)),
     (true, snd (update u (fst (looked ob)) (executed ob newerThan)))).
Proof.
  intros Hlooked. unfold refresh, RefreshCollection. rewrite Hlooked.
  pose proof (forced_shouldUpdate (nowResult ob) (nowRequest ob) u
                (ID (fst (looked ob))) (UsedForStats (fst (looked ob)))).
  destruct (shouldUpdate _ _ _ _ _ _); [|contradiction].
  destruct (update u (fst (looked ob)) (executed ob newerThan)).
  reflexivity.
Qed.

Lemma recordAccess_fields now u id :
  cache (recordAccess now u id) = cache u
  /\ lastRequested (recordAccess now u id) id = now
  /\ secondLastRequested (recordAccess now u id) id
     = (if time.IsZero (lastRequested u id) then secondLastRequested u id
        else lastRequested u id)
  /\ updateCycles (recordAccess now u id) = updateCycles u.
Proof.
  unfold recordAccess, lastRequested, secondLastRequested.
  cbn [cache lastRequest secondLastRequest startTime updateCycles].
  rewrite lookup_insert_eq. repeat split.
  destruct (time.IsZero _); cbn [negb]; [reflexivity|].
  rewrite lookup_insert_eq. reflexivity.
Qed.

(** Two accesses in a row: the later one is the last request and the
    earlier one the second last, which is what the refresh by popularity
    measures. *)
Theorem two_accesses t1 t2 u id :
  t1 <> time.zero ->
  let u' := recordAccess t2 (recordAccess t1 u id) id in
  lastRequested u' id = t2
  /\ secondLastRequested u' id = t1
  /\ cache u' = cache u.
Proof.
  intros Ht1. cbv zeta.
  destruct (recordAccess_fields t2 (recordAccess t1 u id) id)
    as (Hc & Hl & Hs & _).
  destruct (recordAccess_fields t1 u id) as (Hc1 & Hl1 & _).
  rewrite Hl, Hs, Hc, Hc1, Hl1. repeat split.
  unfold time.IsZero. destruct (Z.eqb_spec t1 0); [contradiction|reflexivity].
Qed.

Lemma Lookup_fields_last now u id blocking ob :
  lastRequested (fst (Lookup now u id blocking ob)) id = now.
Proof. unfold Lookup. cbn [fst]. apply recordAccess_fields. Qed.

(** [Lookup] always records the access. It returns what is cached without
    refreshing anything, however old; when nothing is cached it refreshes
    only if it may block, and then returns the new result exactly when the
    collection is found and executed without error. *)
Theorem Lookup_spec now u id blocking ob :
  lastRequested (fst (Lookup now u id blocking ob)) id = now
  /\ ((cache u !! id <> None \/ blocking = false) ->
      cache (fst (Lookup now u id blocking ob)) = cache u
      /\ snd (Lookup now u id blocking ob) = cache u !! id)
  /\ (cache u !! id = None -> blocking = true ->
      snd (looked ob) = None -> ID (fst (looked ob)) = id ->
      snd (Lookup now u id blocking ob)
      = match snd (executed ob time.zero) with
        | None => Some (fst (executed ob time.zero))
        | Some _ => None
        end).
Proof.
  unfold Lookup. cbn [fst snd]. split; [|split].
  - apply recordAccess_fields.
  - intros Hcase. destruct (recordAccess_fields now
      (match cache u !! id with
       | Some _ => u
       | None => if blocking then fst (refresh u ob time.zero true) else u
       end) id) as (-> & _).
    destruct (cache u !! id) eqn:Hc; [rewrite Hc; auto|].
    destruct Hcase as [Hcase| ->]; [contradiction|]. rewrite Hc. auto.
  - intros Hnone -> Hlooked Hid. rewrite Hnone.
    rewrite (refresh_forced u ob time.zero Hlooked). unfold update.
    cbn [fst snd].
    destruct (snd (executed ob time.zero)); cbn [fst cache].
    + exact Hnone.
    + rewrite Hid. apply lookup_insert_eq.
Qed.

(** [ForceRefresh] of a collection that was requested before executes the
    collection, whatever its age, for data at most a second old; it returns
    the new result, or on an error the result that was cached. Of a
    collection never requested it does what a blocking [Lookup] does, and
    counts as two requests. *)
Theorem ForceRefresh_spec start nowLookup nowDeferred u id ob :
  (is_Some (lastRequest u !! id) ->
   snd (looked ob) = None -> ID (fst (looked ob)) = id ->
   let ex := executed ob (time.Add start (-1 * time.Second)) in
   snd (ForceRefresh start nowLookup nowDeferred u id ob)
   = match snd ex with
     | None => Some (fst ex)
     | Some _ => cache u !! id
     end)
  /\ (lastRequest u !! id = None ->
      snd (ForceRefresh start nowLookup nowDeferred u id ob)
      = snd (Lookup nowLookup u id true ob)
      /\ cache (fst (ForceRefresh start nowLookup nowDeferred u id ob))
         = cache (fst (Lookup nowLookup u id true ob))
      /\ lastRequested (fst (ForceRefresh start nowLookup nowDeferred u id ob))
           id = nowDeferred
      /\ (nowLookup <> time.zero ->
          secondLastRequested
            (fst (ForceRefresh start nowLookup nowDeferred u id ob)) id
          = nowLookup)).
Proof.
  unfold ForceRefresh. split.
  - intros [t Ht] Hlooked Hid. rewrite Ht. cbv zeta. cbn [snd].
    rewrite (refresh_forced u ob _ Hlooked). unfold update. cbn [fst snd].
    destruct (snd (executed ob _)); cbn [fst cache]; [reflexivity|].
    rewrite Hid. apply lookup_insert_eq.
  - intros Hnone. rewrite Hnone.
    destruct (Lookup nowLookup u id true ob) as [u1 r] eqn:HL.
    cbn [fst snd].
    destruct (recordAccess_fields nowDeferred u1 id) as (Hc & Hl & Hs & _).
    repeat split; try assumption.
    intros Hnz. rewrite Hs.
    assert (Hl1 : lastRequested u1 id = nowLookup).
    { pose proof (Lookup_fields_last nowLookup u id true ob) as Hx.
      rewrite HL in Hx. exact Hx. }
    rewrite Hl1. unfold time.IsZero.
    destruct (Z.eqb_spec nowLookup 0); [contradiction|reflexivity].
Qed.

Lemma runAll_frame u newerThan force sts :
  let u' := fst (fst (runAll u newerThan force sts)) in
  let updated := snd (fst (runAll u newerThan force sts)) in
  maxRefresh u' = maxRefresh u
  /\ minRefresh u' = minRefresh u
  /\ lastRequest u' = lastRequest u
  /\ secondLastRequest u' = secondLastRequest u
  /\ startTime u' = startTime u
  /\ updateCycles u' = updateCycles u
  /\ (forall id, is_Some (cache u !! id) -> is_Some (cache u' !! id))
  /\ (updated = false -> u' = u).
Proof.
  cbv zeta. revert u. induction sts as [|[s ob] rest IH]; intros u.
  - cbn. repeat split; auto.
  - cbn [runAll].
    pose proof (refresh_frame u ob newerThan force) as Hf. cbv zeta in Hf.
    destruct (refresh u ob newerThan force) as [u1 r] eqn:Hr.
    cbn [fst] in Hf.
    destruct Hf as (H1 & H2 & H3 & H4 & H5 & H6 & _ & H8 & H9).
    specialize (IH u1).
    destruct (runAll u1 newerThan force rest) as [[u2 updated] failed].
    cbn [fst snd] in IH.
    destruct IH as (I1 & I2 & I3 & I4 & I5 & I6 & I7 & I8).
    assert (Hgoal : maxRefresh u2 = maxRefresh u
      /\ minRefresh u2 = minRefresh u
      /\ lastRequest u2 = lastRequest u
      /\ secondLastRequest u2 = secondLastRequest u
      /\ startTime u2 = startTime u
      /\ updateCycles u2 = updateCycles u
      /\ (forall id, is_Some (cache u !! id) -> is_Some (cache u2 !! id))).
    { repeat split; try congruence. intros id Hid. apply I7, H8, Hid. }
    destruct Hgoal as (G1 & G2 & G3 & G4 & G5 & G6 & G7).
    destruct (snd r) eqn:Hsnd; cbn [fst snd].
    + repeat split; try assumption. intros Hu. rewrite (I8 Hu).
      destruct H9 as [H9|H9]; [|exact H9].
      injection H9 as Hr'. rewrite Hr' in Hsnd. discriminate.
    + repeat split; try assumption. intros Hu.
      apply orb_false_iff in Hu as [Hu1 Hu2]. rewrite (I8 Hu2).
      destruct H9 as [H9|H9]; [|exact H9].
      injection H9 as Hr'. rewrite Hr' in Hu1. discriminate.
Qed.

Lemma runAll_forced u newerThan sts :
  snd (fst (runAll u newerThan true sts))
  = existsb (fun c => negb (failing newerThan c)) sts
  /\ snd (runAll u newerThan true sts)
     = map (fun c => ID (fst c)) (List.filter (failing newerThan) sts)
  /\ (forall c, In c sts -> failing newerThan c = false ->
      is_Some (cache (fst (fst (runAll u newerThan true sts)))
                 !! ID (fst (looked (snd c))))).
Proof.
  revert u. induction sts as [|[s ob] rest IH]; intros u.
  - cbn. repeat split. intros c [].
  - cbn [runAll existsb List.filter].
    pose proof (runAll_frame
                  (fst (refresh u ob newerThan true)) newerThan true rest)
      as Hfr.
    cbv zeta in Hfr. destruct Hfr as (_ & _ & _ & _ & _ & _ & Hkeep & _).
    destruct (snd (looked ob)) as [e|] eqn:Hlooked.
    + assert (Hr : refresh u ob newerThan true = (u, (false, Some e))).
      { unfold refresh, RefreshCollection. rewrite Hlooked. reflexivity. }
      assert (Hfail : failing newerThan (s, ob) = true).
      { unfold failing. cbn [snd]. rewrite Hlooked. reflexivity. }
      rewrite Hr, Hfail in *. specialize (IH u).
      destruct (runAll u newerThan true rest) as [[u2 updated] failed].
      cbn [fst snd negb orb map] in *. destruct IH as (IH1 & IH2 & IH3).
      repeat split; [assumption|congruence|].
      intros c [<-|Hin] Hok; [congruence|].
      apply IH3; assumption.
    + rewrite (refresh_forced u ob newerThan Hlooked) in *. unfold update in *.
      destruct (snd (executed ob newerThan)) as [e|] eqn:Hex;
        cbn [fst snd] in *.
      * assert (Hfail : failing newerThan (s, ob) = true).
        { unfold failing. cbn [snd]. rewrite Hlooked, Hex. reflexivity. }
        rewrite Hfail. specialize (IH u).
        destruct (runAll u newerThan true rest) as [[u2 updated] failed].
        cbn [fst snd negb orb map] in *. destruct IH as (IH1 & IH2 & IH3).
        repeat split; [assumption|congruence|].
        intros c [<-|Hin] Hok; [congruence|].
        apply IH3; assumption.
      * assert (Hfail : failing newerThan (s, ob) = false).
        { unfold failing. cbn [snd]. rewrite Hlooked, Hex. reflexivity. }
        rewrite Hfail.
        match goal with
        | |- context [runAll ?u1 newerThan true rest] =>
            specialize (IH u1); set (u1' := u1) in *
        end.
        destruct (runAll u1' newerThan true rest) as [[u2 updated] failed].
        cbn [fst snd negb orb map] in *. destruct IH as (IH1 & IH2 & IH3).
        repeat split; [assumption|].
        intros c [<-|Hin] Hok.
        -- cbn [snd]. apply Hkeep. subst u1'. cbn [cache].
           rewrite lookup_insert_eq. eauto.
        -- apply IH3; assumption.
Qed.

(** What a run never does: it leaves the request times and the refresh
    bounds alone, drops no cached result, counts a cycle exactly when it
    reports an update, and without an update leaves the cache as it was.
    When the collections cannot be listed, nothing changes at all. *)
Theorem RunOnce_frame start nowStarted lastRun u listed force :
  let u' := fst (RunOnce start nowStarted lastRun u listed force) in
  let updated := fst (snd (RunOnce start nowStarted lastRun u listed force)) in
  lastRequest u' = lastRequest u
  /\ secondLastRequest u' = secondLastRequest u
  /\ maxRefresh u' = maxRefresh u
  /\ minRefresh u' = minRefresh u
  /\ updateCycles u'
     = (if updated then time.wrap (updateCycles u + 1) else updateCycles u)
  /\ (forall id, is_Some (cache u !! id) -> is_Some (cache u' !! id))
  /\ (updated = false -> cache u' = cache u)
  /\ (snd listed <> None -> u' = u /\ updated = false).
Proof.
  cbv zeta. unfold RunOnce.
  destruct (snd listed) as [e|]; cbn [fst snd].
  { repeat split; auto. }
  set (u1 := if time.IsZero lastRun then setStartTime nowStarted u else u).
  assert (Hu1 : maxRefresh u1 = maxRefresh u /\ minRefresh u1 = minRefresh u
    /\ lastRequest u1 = lastRequest u
    /\ secondLastRequest u1 = secondLastRequest u
    /\ updateCycles u1 = updateCycles u /\ cache u1 = cache u).
  { subst u1. destruct (time.IsZero lastRun); cbn; repeat split. }
  destruct Hu1 as (A1 & A2 & A3 & A4 & A5 & A6).
  set (nt := if updateCycles u1 =? 0 then time.zero
             else time.Add start (-2 * minFlushAge)).
  set (f := if time.IsZero lastRun then true else force).
  pose proof (runAll_frame u1 nt f (fst listed)) as Hfr. cbv zeta in Hfr.
  destruct (runAll u1 nt f (fst listed)) as [[u2 updated] failed].
  cbn [fst snd] in *.
  destruct Hfr as (F1 & F2 & F3 & F4 & _ & F6 & F7 & F8).
  destruct updated; cbn [addCycle lastRequest secondLastRequest maxRefresh
                         minRefresh updateCycles cache].
  - repeat split; try congruence.
    intros id Hid. apply F7. rewrite A6. exact Hid.
  - repeat split; try congruence.
    + intros id Hid. apply F7. rewrite A6. exact Hid.
    + intros _. rewrite (F8 eq_refl). exact A6.
Qed.

(** A forced run, as the first run of the loop is, executes every collection
    that is found: it reports an update exactly when one of them is executed
    without error, fails with exactly the ids of the others, in the order
    listed, and afterwards has a result for every collection that did not
    fail. Until a first cycle is completed it accepts results of any age. *)
Theorem RunOnce_forced start nowStarted lastRun u listed force :
  snd listed = None ->
  time.IsZero lastRun || force = true ->
  let newerThan :=
    if updateCycles u =? 0 then time.zero
    else time.Add start (-2 * minFlushAge) in
  let r := RunOnce start nowStarted lastRun u listed force in
  fst (snd r)
  = existsb (fun c => negb (failing newerThan c)) (fst listed)
  /\ snd (snd r)
     = match map (fun c => ID (fst c))
               (List.filter (failing newerThan) (fst listed)) with
       | [] => None
       | failed => Some (CollectionsFailed failed)
       end
  /\ (forall c, In c (fst listed) -> failing newerThan c = false ->
      is_Some (cache (fst r) !! ID (fst (looked (snd c))))).
Proof.
  intros Hlisted Hforce. cbv zeta. unfold RunOnce. rewrite Hlisted.
  set (u1 := if time.IsZero lastRun then setStartTime nowStarted u else u).
  assert (Hc : updateCycles u1 = updateCycles u).
  { subst u1. destruct (time.IsZero lastRun); reflexivity. }
  rewrite Hc.
  set (nt := if updateCycles u =? 0 then time.zero
             else time.Add start (-2 * minFlushAge)).
  assert (Hf : (if time.IsZero lastRun then true else force) = true).
  { destruct (time.IsZero lastRun); [reflexivity|exact Hforce]. }
  rewrite Hf.
  destruct (runAll_forced u1 nt (fst listed)) as (R1 & R2 & R3).
  destruct (runAll u1 nt true (fst listed)) as [[u2 updated] failed].
  cbn [fst snd] in *. subst updated failed.
  repeat split.
  - destruct (map _ _); reflexivity.
  - intros c Hin Hok. specialize (R3 c Hin Hok).
    destruct (existsb _ _); [cbn [addCycle cache]|]; exact R3.
Qed.

End Service.

Section Persistence.

Import service.

(** The advisory lock of [Persist]: while one call is saving, a second one
    fails and changes nothing, and [shouldPersist] answers no; when the
    call is over the lock is free again and the time of the last save is
    the clock's, whether saving failed or not. *)
Theorem Persist_is_exclusive nowStart nowDone p saved :
  nowStart <> time.zero ->
  persistStart p = time.zero ->
  exists running,
    persistBegin nowStart p = Some running
    /\ (forall t1 t2 saved2,
         Persist t1 t2 running saved2
         = (running, Some "already persisting"%string))
    /\ (forall now maxRefresh updated drawn,
         shouldPersist now maxRefresh running updated drawn = false)
    /\ Persist nowStart nowDone p saved
       = ({| persistStart := time.zero; lastPersist := nowDone |}, saved).
Proof.
  intros Hnow Hfree.
  exists {| persistStart := nowStart; lastPersist := lastPersist p |}.
  assert (Hz : time.IsZero nowStart = false).
  { unfold time.IsZero. destruct (Z.eqb_spec nowStart 0);
      [contradiction|reflexivity]. }
  unfold Persist, persistBegin, shouldPersist. rewrite Hfree.
  cbn [persistStart]. rewrite Hz. cbn. repeat split.
Qed.

(** [shouldPersist] answers yes only for new data, outside a save, and
    when the last save is older than the maximum refresh time, for a draw
    that does not overflow. *)
Theorem shouldPersist_sound now maxRefresh p updated drawn :
  0 <= drawn ->
  maxRefresh + drawn * time.Second <= time.maxDuration ->
  0 <= maxRefresh ->
  shouldPersist now maxRefresh p updated drawn = true ->
  updated = true
  /\ persistStart p = time.zero
  /\ maxRefresh < time.Since now (lastPersist p).
Proof.
  intros Hdrawn Hmax Hmin. unfold shouldPersist.
  unfold time.IsZero. destruct (Z.eqb_spec (persistStart p) 0) as [Hp|Hp];
    cbn [negb]; [|discriminate].
  destruct updated; cbn [negb]; [|discriminate].
  cbv zeta.
  destruct (Z.ltb_spec
    (time.dadd maxRefresh (time.dmul drawn time.Second))
    (time.Since now (lastPersist p))) as [Hlt|Hge]; [|discriminate].
  intros _. repeat split; [exact Hp|].
  revert Hlt. unfold time.dadd, time.dmul.
  assert (Hs : 0 < time.Second) by (vm_compute; reflexivity).
  assert (Hm : time.maxDuration = 9223372036854775807) by reflexivity.
  assert (Hn : time.minDuration = -9223372036854775808) by reflexivity.
  assert (Hd : 0 <= drawn * time.Second) by nia.
  rewrite (wrap_small (drawn * time.Second)) by lia.
  rewrite wrap_small by lia. lia.
Qed.

End Persistence.

Section BackendChoice.

Import backend.

(** How [FromEnv] resolves the backend: an argument wins over the
    environment, the environment over the default, which is the disk;
    [New] is never given an empty type; and the default path is used only
    for the disk backend without a path. An unknown type is an error that
    names it, and no constructor is called. *)
Theorem FromEnv_resolution {C E : Type}
    (construct : constructor -> Config -> C + E)
    (getenv : string -> string) (defaultDiskPath backend path : string) :
  let cfg := resolve getenv defaultDiskPath backend path in
  Type_ cfg <> ""%string
  /\ (backend <> ""%string -> Type_ cfg = backend)
  /\ (backend = ""%string -> getenv "PERSIST_BACKEND"%string <> ""%string ->
      Type_ cfg = getenv "PERSIST_BACKEND"%string)
  /\ (backend = ""%string -> getenv "PERSIST_BACKEND"%string = ""%string ->
      Type_ cfg = "disk"%string)
  /\ (path <> ""%string -> Path cfg = path)
  /\ (Path cfg = defaultDiskPath \/
      Path cfg = (if String.eqb path "" then getenv "PERSIST_PATH"%string
                  else path))
  /\ (chosen (Type_ cfg) = None ->
      FromEnv construct getenv defaultDiskPath backend path
      = inr (cfg, UnknownBackend (Type_ cfg)))
  /\ (forall k, chosen (Type_ cfg) = Some k ->
      FromEnv construct getenv defaultDiskPath backend path
      = match construct k cfg with
        | inl c => inl c
        | inr e => inr (cfg, Failed e)
        end).
Proof.
  cbv zeta.
  assert (Hnew :
    (chosen (Type_ (resolve getenv defaultDiskPath backend path)) = None ->
     FromEnv construct getenv defaultDiskPath backend path
     = inr (resolve getenv defaultDiskPath backend path,
            UnknownBackend
              (Type_ (resolve getenv defaultDiskPath backend path))))
    /\ (forall k,
        chosen (Type_ (resolve getenv defaultDiskPath backend path)) = Some k ->
        FromEnv construct getenv defaultDiskPath backend path
        = match construct k (resolve getenv defaultDiskPath backend path) with
          | inl c => inl c
          | inr e => inr (resolve getenv defaultDiskPath backend path, Failed e)
          end)).
  { unfold FromEnv, New.
    generalize (resolve getenv defaultDiskPath backend path) as cfg.
    intros cfg. split.
    - intros Hn. rewrite Hn. reflexivity.
    - intros k Hk. rewrite Hk. destruct (construct k cfg); reflexivity. }
  destruct Hnew as [Hnone Hsome].
  repeat split; try assumption; clear Hnone Hsome;
    unfold resolve; cbn [Type_ Path];
    destruct (String.eqb_spec backend "");
    destruct (String.eqb_spec (getenv "PERSIST_BACKEND"%string) "");
    destruct (String.eqb_spec path "");
    repeat match goal with
    | |- context [String.eqb ?a ?b] => destruct (String.eqb_spec a b)
    end;
    cbn [andb]; try congruence; try discriminate;
    try (left; reflexivity); try (right; reflexivity).
Qed.

End BackendChoice.

(** ** The properties on the sample inputs *)

Lemma setMem_then_newerThanMem_witness :
  exists c' th',
    persist.setMem 3000 3000 sampleCache "prs-open" (Some sampleThing)
      = Ok (c', th')
    /\ 4000 <= time.Add 3000 persist.MaxLoadAge
    /\ 2500 <= persist.Created th'
    /\ persist.newerThanMem 4000 c' "prs-open" 2500 = Ok (Some th')
    /\ persist.Contents th' = persist.Contents sampleThing
    /\ persist.Created th' = 3000.
Proof.
  destruct (persist.setMem 3000 3000 sampleCache "prs-open" (Some sampleThing))
    as [[c' th']|p] eqn:E; [|discriminate E].
  assert (Hlive : 4000 <= time.Add 3000 persist.MaxLoadAge)
    by (vm_compute; discriminate).
  assert (Ht : 2500 <= persist.Created th').
  { injection E as _ <-. vm_compute. discriminate. }
  exists c', th'. split; [reflexivity|]. split; [exact Hlive|].
  split; [exact Ht|].
  pose proof (setMem_then_newerThanMem 3000 3000 4000 sampleCache "prs-open"
                sampleThing c' th' 2500 E Hlive Ht) as (H1 & H2 & H3).
  auto.
Defined.

Lemma deleteOlderMem_spec_witness :
  exists c',
    persist.deleteOlderMem 3000 sampleCache "issues-open" 1000 = Ok c'
    /\ (forall key', "issues-open"%string <> key' ->
        c' !! key' = sampleCache !! key')
    /\ ((exists th,
           persist.newerThanMem 3000 sampleCache "issues-open" 1000
           = Ok (Some th)
           /\ 1000 < persist.Created th /\ c' = sampleCache)
        \/ ((forall th,
               persist.newerThanMem 3000 sampleCache "issues-open" 1000
               = Ok (Some th) -> persist.Created th = 1000)
            /\ c' !! "issues-open"%string = None)).
Proof.
  destruct (persist.deleteOlderMem 3000 sampleCache "issues-open" 1000)
    as [c'|p] eqn:E.
  - exists c'. split; [reflexivity|].
    exact (deleteOlderMem_spec 3000 sampleCache "issues-open"%string 1000 c' E).
  - vm_compute in E. discriminate.
Defined.

Lemma janitor_transparent_witness :
  3000 <= 4000
  /\ persist.newerThanMem 4000 (persist.cacheDeleteExpired 3000 sampleCache)
       "issues-open" 0
     = persist.newerThanMem 4000 sampleCache "issues-open" 0.
Proof.
  assert (H : 3000 <= 4000) by lia.
  split; [exact H|].
  exact (janitor_transparent 3000 4000 sampleCache "issues-open"%string 0 H).
Defined.

Lemma conversation_tags_witness :
  exists co',
    hubbub.conversation (demoClock 200) demoEngine outsiderIssue
      holdComments 0 = Ok co'
    /\ hubbub.Tags co' = tally.derivedTags demoEngine outsiderIssue holdComments.
Proof.
  destruct (hubbub.conversation (demoClock 200) demoEngine outsiderIssue
              holdComments 0) as [co'|p] eqn:E.
  - exists co'. split; [reflexivity|].
    exact (conversation_tags _ _ _ _ _ _ E).
  - vm_compute in E. discriminate.
Defined.

Lemma author_and_assignee_response_times_witness :
  exists co',
    hubbub.conversation (demoClock 200) demoEngine outsiderIssue
      holdComments 0 = Ok co'
    /\ hubbub.LatestAuthorResponse co'
       = tally.authorTime outsiderIssue holdComments
    /\ hubbub.LatestAssigneeResponse co'
       = tally.assigneeTime outsiderIssue holdComments.
Proof.
  destruct (hubbub.conversation (demoClock 200) demoEngine outsiderIssue
              holdComments 0) as [co'|p] eqn:E.
  - exists co'. split; [reflexivity|].
    exact (author_and_assignee_response_times _ _ _ _ _ _ E).
  - vm_compute in E. discriminate.
Defined.

Lemma commenters_are_counted_once_witness :
  exists co',
    hubbub.conversation (demoClock 200) demoEngine outsiderIssue
      reactedComments 0 = Ok co'
    /\ hubbub.CommentersTotal co' = Z.of_nat (length (hubbub.Commenters co'))
    /\ List.NoDup (tally.logins (hubbub.Commenters co'))
    /\ forall l, In l (tally.logins (hubbub.Commenters co'))
                 <-> exists c, In c (tally.heard reactedComments)
                               /\ tally.commenterLogin c = l.
Proof.
  destruct (hubbub.conversation (demoClock 200) demoEngine outsiderIssue
              reactedComments 0) as [co'|p] eqn:E.
  - exists co'. split; [reflexivity|].
    exact (commenters_are_counted_once _ _ _ _ _ _ E).
  - vm_compute in E. discriminate.
Defined.

Lemma closed_comments_are_counted_witness :
  exists co',
    hubbub.conversation (demoClock (300 * time.Second)) demoEngine
      closedIssue closedComments 0 = Ok co'
    /\ hubbub.ClosedCommentsTotal co'
       = time.wrap (Z.of_nat (length (List.filter
                                        (tally.closedHeard closedIssue)
                                        closedComments)))
    /\ hubbub.ClosedCommentersTotal co'
       = Z.of_nat
           (size (list_to_set
                    (map tally.commenterLogin
                       (List.filter (tally.closedHeard closedIssue)
                          closedComments))
                  : gset string)).
Proof.
  destruct (hubbub.conversation (demoClock (300 * time.Second)) demoEngine
              closedIssue closedComments 0) as [co'|p] eqn:E.
  - exists co'. split; [reflexivity|].
    exact (closed_comments_are_counted _ _ _ _ _ _ E).
  - vm_compute in E. discriminate.
Defined.

Lemma reactions_are_summed_witness :
  exists co',
    hubbub.conversation (demoClock 200) demoEngine outsiderIssue
      reactedComments 0 = Ok co'
    /\ hubbub.ReactionsTotal co'
       = time.wrap
           (tally.Zsum
              (map (fun c => hubbub.GetTotalCount (hubbub.Comment_Reactions c))
                 (List.filter tally.reacted reactedComments))).
Proof.
  destruct (hubbub.conversation (demoClock 200) demoEngine outsiderIssue
              reactedComments 0) as [co'|p] eqn:E.
  - exists co'. split; [reflexivity|].
    exact (reactions_are_summed _ _ _ _ _ _ E).
  - vm_compute in E. discriminate.
Defined.

Lemma current_hold_time_witness :
  exists co',
    hubbub.conversation (demoClock 200) demoEngine outsiderIssue
      reactedComments 0 = Ok co'
    /\ hubbub.CurrentHoldTime co' =
       (if time.After (tally.memberTime demoEngine outsiderIssue
                         reactedComments)
             (tally.authorTime outsiderIssue reactedComments) then 0
        else if hubbub.isMember demoEngine
                  (hubbub.GetLogin (hubbub.GetUser outsiderIssue))
                  (hubbub.GetAuthorAssociation outsiderIssue) then 0
        else time.Since (hubbub.nowCurrentHold (demoClock 200))
               (tally.authorTime outsiderIssue reactedComments)).
Proof.
  destruct (hubbub.conversation (demoClock 200) demoEngine outsiderIssue
              reactedComments 0) as [co'|p] eqn:E.
  - exists co'. split; [reflexivity|].
    exact (current_hold_time _ _ _ _ _ _ E).
  - vm_compute in E. discriminate.
Defined.

Lemma conversation_succeeds_witness :
  ((5 <= length (gostrings.Split (hubbub.GetHTMLURL outsiderIssue) "/"))%nat
   /\ tally.loginsPresent holdComments
   /\ hubbub.GetCreatedAt outsiderIssue
      <= hubbub.nowCurrentHold (demoClock 200)
   /\ hubbub.nowCurrentHold (demoClock 200)
      <= hubbub.nowAccumulated (demoClock 200)
      <= hubbub.nowAge (demoClock 200)
   /\ Sorted Z.le (map hubbub.Comment_Created holdComments)
   /\ Forall (fun c => hubbub.GetCreatedAt outsiderIssue
                       <= hubbub.Comment_Created c
                       <= hubbub.nowCurrentHold (demoClock 200))
        holdComments)
  /\ exists co',
       hubbub.conversation (demoClock 200) demoEngine outsiderIssue
         holdComments 0 = Ok co'.
Proof.
  assert (H1 : (5 <= length (gostrings.Split
                               (hubbub.GetHTMLURL outsiderIssue) "/"))%nat)
    by (vm_compute; repeat constructor).
  assert (H2 : tally.loginsPresent holdComments).
  { intros c Hin. cbn in Hin.
    repeat (destruct Hin as [<-|Hin]; [reflexivity|]). destruct Hin. }
  assert (H3 : hubbub.GetCreatedAt outsiderIssue
               <= hubbub.nowCurrentHold (demoClock 200)) by (cbn; lia).
  assert (H4 : hubbub.nowCurrentHold (demoClock 200)
               <= hubbub.nowAccumulated (demoClock 200)
               <= hubbub.nowAge (demoClock 200)) by (cbn; lia).
  assert (H5 : Sorted Z.le (map hubbub.Comment_Created holdComments)).
  { cbn. repeat constructor; lia. }
  assert (H6 : Forall (fun c => hubbub.GetCreatedAt outsiderIssue
                                <= hubbub.Comment_Created c
                                <= hubbub.nowCurrentHold (demoClock 200))
                 holdComments).
  { repeat constructor; cbn; lia. }
  split; [exact (conj H1 (conj H2 (conj H3 (conj H4 (conj H5 H6)))))|].
  exact (conversation_succeeds (demoClock 200) demoEngine outsiderIssue
           holdComments 0 H1 H2 H3 H4 H5 H6).
Defined.

Lemma closed_listing_on_demand_witness :
  Forall (fun f => hubbub.ClosedCommenters f = EmptyString
                   /\ hubbub.ClosedComments f = EmptyString
                   /\ (hubbub.Filter_State f = EmptyString
                       \/ hubbub.Filter_State f = "open"%string)) [openOnly]
  /\ snd (fst (fst (@hubbub.fetchIssues demoPlatform overlappingBackend
                      demoEngine 100 [openOnly] 0 tt))) = []
  /\ snd (fst (fst (@hubbub.fetchPRs demoPlatform overlappingBackend
                      demoEngine 100 [openOnly] 0 tt))) = [].
Proof.
  assert (H : Forall (fun f => hubbub.ClosedCommenters f = EmptyString
                   /\ hubbub.ClosedComments f = EmptyString
                   /\ (hubbub.Filter_State f = EmptyString
                       \/ hubbub.Filter_State f = "open"%string)) [openOnly]).
  { constructor; [|constructor].
    split; [reflexivity|]. split; [reflexivity|]. right. reflexivity. }
  split; [exact H|].
  destruct (@closed_listing_on_demand demoPlatform overlappingBackend
              demoEngine 100 [openOnly] 0 tt H) as [[H1 _] [H2 _]].
  split; [exact H1|exact H2].
Defined.

Lemma uniqueIssues_complete_witness :
  size (hubbub.debug demoEngine) = 0%nat
  /\ In outsiderIssue [outsiderIssue; closedIssue; outsiderIssue]
  /\ exists j,
       In j (hubbub.uniqueIssues demoEngine ∅
               [outsiderIssue; closedIssue; outsiderIssue])
       /\ hubbub.GetURL j = hubbub.GetURL outsiderIssue.
Proof.
  assert (H1 : size (hubbub.debug demoEngine) = 0%nat) by reflexivity.
  assert (H2 : In outsiderIssue [outsiderIssue; closedIssue; outsiderIssue])
    by (left; reflexivity).
  split; [exact H1|]. split; [exact H2|].
  exact (uniqueIssues_complete demoEngine
           [outsiderIssue; closedIssue; outsiderIssue] outsiderIssue H1 H2).
Defined.

Lemma two_accesses_witness :
  394 * time.Second <> time.zero
  /\ updater.lastRequested
       (updater.recordAccess (500 * time.Second)
          (updater.recordAccess (394 * time.Second) demoUpdater "daily")
          "daily") "daily" = 500 * time.Second
  /\ updater.secondLastRequested
       (updater.recordAccess (500 * time.Second)
          (updater.recordAccess (394 * time.Second) demoUpdater "daily")
          "daily") "daily" = 394 * time.Second.
Proof.
  assert (H : 394 * time.Second <> time.zero) by (vm_compute; discriminate).
  split; [exact H|].
  destruct (two_accesses (394 * time.Second) (500 * time.Second) demoUpdater
              "daily"%string H) as (H1 & H2 & _).
  split; [exact H1|exact H2].
Defined.

Lemma RunOnce_forced_witness :
  snd demoListed = None
  /\ time.IsZero time.zero || false = true
  /\ fst (snd (service.RunOnce (500 * time.Second) (500 * time.Second)
                 time.zero demoUpdater demoListed false)) = true
  /\ snd (snd (service.RunOnce (500 * time.Second) (500 * time.Second)
                 time.zero demoUpdater demoListed false))
     = Some (service.CollectionsFailed ["weekly"%string]).
Proof.
  assert (H1 : snd demoListed = None) by reflexivity.
  assert (H2 : time.IsZero time.zero || false = true) by reflexivity.
  split; [exact H1|]. split; [exact H2|].
  destruct (RunOnce_forced (500 * time.Second) (500 * time.Second) time.zero
              demoUpdater demoListed false H1 H2) as (R1 & R2 & _).
  split; [exact R1|exact R2].
Defined.

Lemma Persist_is_exclusive_witness :
  500 * time.Second <> time.zero
  /\ service.persistStart demoPersistence = time.zero
  /\ exists running,
       service.persistBegin (500 * time.Second) demoPersistence
       = Some running
       /\ (forall t1 t2 saved2,
            service.Persist t1 t2 running saved2
            = (running, Some "already persisting"%string))
       /\ (forall now maxRefresh updated drawn,
            service.shouldPersist now maxRefresh running updated drawn = false)
       /\ service.Persist (500 * time.Second) (510 * time.Second)
            demoPersistence None
          = ({| service.persistStart := time.zero;
                service.lastPersist := 510 * time.Second |}, None).
Proof.
  assert (H1 : 500 * time.Second <> time.zero) by (vm_compute; discriminate).
  assert (H2 : service.persistStart demoPersistence = time.zero)
    by reflexivity.
  split; [exact H1|]. split; [exact H2|].
  exact (Persist_is_exclusive (500 * time.Second) (510 * time.Second)
           demoPersistence None H1 H2).
Defined.

Lemma shouldPersist_sound_witness :
  (0 <= 7
   /\ 600 * time.Second + 7 * time.Second <= time.maxDuration
   /\ 0 <= 600 * time.Second
   /\ service.shouldPersist (800 * time.Second) (600 * time.Second)
        demoPersistence true 7 = true)
  /\ 600 * time.Second
     < time.Since (800 * time.Second) (service.lastPersist demoPersistence).
Proof.
  assert (H1 : 0 <= 7) by lia.
  assert (H2 : 600 * time.Second + 7 * time.Second <= time.maxDuration)
    by (vm_compute; discriminate).
  assert (H3 : 0 <= 600 * time.Second) by (vm_compute; discriminate).
  assert (H4 : service.shouldPersist (800 * time.Second) (600 * time.Second)
                 demoPersistence true 7 = true) by (vm_compute; reflexivity).
  split; [exact (conj H1 (conj H2 (conj H3 H4)))|].
  destruct (shouldPersist_sound (800 * time.Second) (600 * time.Second)
              demoPersistence true 7 H1 H2 H3 H4) as (_ & _ & R).
  exact R.
Defined.

Lemma bots_leave_only_references_witness :
  exists co0 st' r',
    hubbub.newConversation demoEngine outsiderIssue 0 = Ok co0
    /\ refs.readsIdentity recordedRefs
    /\ refs.commentLoopRefs recordedRefs demoEngine outsiderIssue false
         (hubbub.initLoop co0) [] reactedComments = Ok (st', r')
    /\ hubbub.commentLoop demoEngine outsiderIssue false (hubbub.initLoop co0)
         (tally.heard reactedComments) = Ok st'
    /\ r' = fold_left
              (fun r c => recordedRefs (hubbub.Comment_Body c)
                            (hubbub.co (hubbub.initLoop co0))
                            (hubbub.Comment_Updated c) r)
              reactedComments [].
Proof.
  destruct (hubbub.newConversation demoEngine outsiderIssue 0)
    as [co0|p] eqn:E0; [|vm_compute in E0; discriminate].
  destruct (refs.commentLoopRefs recordedRefs demoEngine outsiderIssue false
              (hubbub.initLoop co0) [] reactedComments)
    as [[st' r']|p] eqn:E.
  - assert (Hreads : refs.readsIdentity recordedRefs).
    { intros text co1 co2 t r Hid _ _ _. unfold recordedRefs.
      rewrite Hid. reflexivity. }
    exists co0, st', r'. split; [reflexivity|]. split; [exact Hreads|].
    split; [exact E|].
    exact (bots_leave_only_references recordedRefs demoEngine outsiderIssue
             false reactedComments (hubbub.initLoop co0) [] st' r' Hreads E).
  - injection E0 as <-. vm_compute in E. discriminate.
Defined.
